(** * MC-Skin-Renderer: the skin viewer script (script.js)

    A shallow embedding of [script.js] and the properties of its three
    parts: the Resolver ([fetchSkinFromMojang]), the Loader
    ([readSkinFile], the tail of [fetchSkinFromMojang]) and the start-up
    and event wiring ([initializeViewer], [wireEvents]).

    Modelling conventions.
    - A JavaScript string is its sequence of UTF-16 code units.
    - A JavaScript number is a binary64 float.
    - The mutable globals of the page ([viewer], [localStorage], the status
      line, the fetch button, the animation checkbox) are the fields of
      [State]; every function is a state transformer in the monad [M],
      whose completions are normal, [return] and [throw].
    - What the script calls but does not define (fetch, the renderer's
      [loadSkin], [atob], [JSON.parse], the file reader, ...) is the
      record [Env]; each call to the outside world is logged in the
      [trace] of the state, in order.
    - An [await] is modelled as a plain call: one handler runs to its end;
      interleavings of two handlers are outside this development.
    - [localStorage] is a string map. Whether the storage area takes a
      pair is the field [storage_accepts] of the state, which no function
      of the script changes: a refused [setItem] throws
      QuotaExceededError.
    - The class list of the drop zone is a finite set of class names; the
      drag listeners touch nothing else of the page, so it is kept apart
      from [State]. *)

From Stdlib Require Import NArith List String Ascii Bool Lia Floats.
From stdpp Require Import base option list gmap.

Set Warnings "-register-all,-inexact-float".
Local Open Scope N_scope.

(** ** Strings *)

(** A UTF-16 code unit, [0 <= c < 65536]. *)
Definition code_unit := N.

Abbreviation jsstring := (list code_unit).

(** A string literal of the script (ASCII only). *)
Definition lit (s : string) : jsstring :=
  List.map N_of_ascii (list_ascii_of_string s).

Definition in_range (lo hi c : N) : bool := (lo <=? c) && (c <=? hi).

Definition is_digit (c : code_unit) : bool := in_range 48 57 c.
Definition is_upper (c : code_unit) : bool := in_range 65 90 c.
Definition is_lower (c : code_unit) : bool := in_range 97 122 c.

(** ECMA-262 WhiteSpace and LineTerminator: the characters that
    [String.prototype.trim] strips. *)
Definition is_whitespace (c : code_unit) : bool :=
  in_range 9 13 c || (c =? 32) || (c =? 160) || (c =? 5760)
  || in_range 8192 8202 c || (c =? 8232) || (c =? 8233) || (c =? 8239)
  || (c =? 8287) || (c =? 12288) || (c =? 65279).

Fixpoint trimStart (s : jsstring) : jsstring :=
  match s with
  | c :: s' => if is_whitespace c then trimStart s' else s
  | [] => []
  end.

Definition trimEnd (s : jsstring) : jsstring := rev (trimStart (rev s)).

(** [s.trim()] *)
Definition trim (s : jsstring) : jsstring := trimEnd (trimStart s).

(** [s === t] on strings. *)
Fixpoint str_eqb (s t : jsstring) : bool :=
  match s, t with
  | [], [] => true
  | c :: s', d :: t' => (c =? d) && str_eqb s' t'
  | _, _ => false
  end.

Fixpoint startsWith (s p : jsstring) {struct p} : bool :=
  match p, s with
  | [], _ => true
  | d :: p', c :: s' => (c =? d) && startsWith s' p'
  | _ :: _, [] => false
  end.

(** [s.endsWith(p)] *)
Definition endsWith (s p : jsstring) : bool := startsWith (rev s) (rev p).

(** *** The two regular expressions of line 36

    Both are anchored at both ends and have a fixed length, so each is a
    list of character classes, one per position. *)

Definition char_class := code_unit -> bool.

(** [[0-9a-f]] under the [i] flag: the letters match in both cases. *)
Definition hex_class : char_class :=
  fun c => is_digit c || in_range 97 102 c || in_range 65 70 c.

Definition dash : code_unit := 45.

Definition dash_class : char_class := fun c => c =? dash.

(** [/^[0-9a-f]{32}$/i] *)
Definition re_uuid32 : list char_class := repeat hex_class 32.

(** [/^[0-9a-f]{8}-[0-9a-f]{4}-[0-9a-f]{4}-[0-9a-f]{4}-[0-9a-f]{12}$/i] *)
Definition re_uuid_dashed : list char_class :=
  repeat hex_class 8 ++ [dash_class] ++ repeat hex_class 4 ++ [dash_class]
  ++ repeat hex_class 4 ++ [dash_class] ++ repeat hex_class 4 ++ [dash_class]
  ++ repeat hex_class 12.

(** [s.match(re) !== null] for such an expression (no [m] flag: [$] is the
    end of the input). *)
Fixpoint re_match (re : list char_class) (s : jsstring) : bool :=
  match re, s with
  | [], [] => true
  | cl :: re', c :: s' => cl c && re_match re' s'
  | _, _ => false
  end.

(** [s.replace(/-/g, '')] *)
Definition remove_dashes (s : jsstring) : jsstring :=
  List.filter (fun c => negb (c =? dash)) s.

(** *** encodeURIComponent (ECMA-262, Encode with the unreserved set) *)

(** uriUnescaped: letters, digits and [- _ . ! ~ * ' ( )]. *)
Definition is_uri_unescaped (c : code_unit) : bool :=
  is_upper c || is_lower c || is_digit c
  || existsb (N.eqb c) [45; 95; 46; 33; 126; 42; 39; 40; 41].

Definition is_lead_surrogate (c : code_unit) : bool := in_range 55296 56319 c.
Definition is_trail_surrogate (c : code_unit) : bool := in_range 56320 57343 c.

Definition hex_upper (n : N) : code_unit := if n <? 10 then 48 + n else 55 + n.

(** One octet as [%XX]. *)
Definition percent (b : N) : jsstring := [37; hex_upper (b / 16); hex_upper (b mod 16)].

Definition utf8 (cp : N) : list N :=
  if cp <? 128 then [cp]
  else if cp <? 2048 then [192 + cp / 64; 128 + cp mod 64]
  else if cp <? 65536 then
    [224 + cp / 4096; 128 + (cp / 64) mod 64; 128 + cp mod 64]
  else
    [240 + cp / 262144; 128 + (cp / 4096) mod 64; 128 + (cp / 64) mod 64;
     128 + cp mod 64].

Definition escape (cp : N) : jsstring := List.concat (List.map percent (utf8 cp)).

(** UTF16SurrogatePairToCodePoint *)
Definition surrogate_pair (lead trail : code_unit) : N :=
  (lead - 55296) * 1024 + (trail - 56320) + 65536.

(** [None] is the URIError thrown at an unpaired surrogate. *)
Fixpoint encodeURIComponent (s : jsstring) : option jsstring :=
  match s with
  | [] => Some []
  | c :: s' =>
    if is_uri_unescaped c then
      match encodeURIComponent s' with Some r => Some (c :: r) | None => None end
    else if is_trail_surrogate c then None
    else if is_lead_surrogate c then
      match s' with
      | d :: s'' =>
        if is_trail_surrogate d then
          match encodeURIComponent s'' with
          | Some r => Some (escape (surrogate_pair c d) ++ r)
          | None => None
          end
        else None
      | [] => None
      end
    else
      match encodeURIComponent s' with Some r => Some (escape c ++ r) | None => None end
  end.

(** [s.isWellFormed()]: no unpaired surrogate. *)
Fixpoint isWellFormed (s : jsstring) : bool :=
  match s with
  | [] => true
  | c :: s' =>
    if is_trail_surrogate c then false
    else if is_lead_surrogate c then
      match s' with
      | d :: s'' => is_trail_surrogate d && isWellFormed s''
      | [] => false
      end
    else isWellFormed s'
  end.

(** ** Values *)

(** A value of the script: [undefined], or what [JSON.parse] builds. An
    object is its own properties in order, each key once. *)
Inductive value :=
| VUndefined
| VNull
| VBool (b : bool)
| VNumber (x : float)
| VString (s : jsstring)
| VArray (elems : list value)
| VObject (props : list (jsstring * value)).

(** What a [catch] receives: the exceptions of the language and the
    rejections of the outside world. *)
Inductive exn :=
| TypeError
| URIError
| SyntaxError
| InvalidCharacterError
| FetchRejected
| LoadSkinRejected
| ConstructorThrew
| QuotaExceededError.

Fixpoint own_property (k : jsstring) (props : list (jsstring * value)) : option value :=
  match props with
  | [] => None
  | (k', v) :: props' => if str_eqb k' k then Some v else own_property k props'
  end.

(** [v.k] for the keys the script reads ([id], [name], [properties], [value],
    [textures], [SKIN], [url]): none of them is a built-in property of a
    string, a number, a boolean, an array or [Object.prototype], so the
    read is [undefined] unless [v] is an object that has the key; reading
    a property of [undefined] or [null] throws. *)
Definition get (v : value) (k : jsstring) : exn + value :=
  match v with
  | VUndefined | VNull => inl TypeError
  | VObject props =>
    match own_property k props with Some x => inr x | None => inr VUndefined end
  | _ => inr VUndefined
  end.

(** [v?.k] *)
Definition get_optional (v : value) (k : jsstring) : exn + value :=
  match v with
  | VUndefined | VNull => inr VUndefined
  | _ => get v k
  end.

(** ToBoolean *)
Definition truthy (v : value) : bool :=
  match v with
  | VUndefined | VNull => false
  | VBool b => b
  | VNumber x => negb (PrimFloat.is_zero x || PrimFloat.is_nan x)
  | VString s => match s with [] => false | _ :: _ => true end
  | VArray _ | VObject _ => true
  end.

(** [v === s] for a string literal [s]. *)
Definition strict_eq_string (v : value) (s : jsstring) : bool :=
  match v with
  | VString t => str_eqb t s
  | _ => false
  end.

(** [Array.prototype.find]: the first element the callback accepts, else
    [undefined]; a throwing callback ends the search. *)
Fixpoint Array_find (cb : value -> exn + bool) (elems : list value) : exn + value :=
  match elems with
  | [] => inr VUndefined
  | x :: elems' =>
    match cb x with
    | inl e => inl e
    | inr true => inr x
    | inr false => Array_find cb elems'
    end
  end.

(** [v.find(cb)]: only an array has a callable [find]; on [undefined] and
    [null] the property read throws, on anything else [find] is
    [undefined] or a JSON value, and calling it throws. *)
Definition call_find (v : value) (cb : value -> exn + bool) : exn + value :=
  match v with
  | VArray elems => Array_find cb elems
  | _ => inl TypeError
  end.

(** [v.replace(/-/g, '')]: only a string has a callable [replace]. *)
Definition call_replace_dashes (v : value) : exn + jsstring :=
  match v with
  | VString s => inr (remove_dashes s)
  | _ => inl TypeError
  end.

Definition has_own_property (k : jsstring) (props : list (jsstring * value)) : bool :=
  match own_property k props with Some _ => true | None => false end.

(** ToString. A number is printed by the platform ([num]). An array is
    joined with commas, [undefined] and [null] elements printing as the
    empty string. An object prints as [[object Object]] through
    [Object.prototype.toString], unless it has a [toString] property of
    its own: that one is a JSON value, not callable, [valueOf] gives no
    primitive either, and the conversion throws ([None]). *)
Fixpoint ToString (num : float -> jsstring) (v : value) : option jsstring :=
  match v with
  | VUndefined => Some (lit "undefined")
  | VNull => Some (lit "null")
  | VBool true => Some (lit "true")
  | VBool false => Some (lit "false")
  | VNumber x => Some (num x)
  | VString s => Some s
  | VArray elems =>
    let element x :=
      match x with
      | VUndefined | VNull => Some []
      | _ => ToString num x
      end in
    (fix join (l : list value) : option jsstring :=
       match l with
       | [] => Some []
       | [x] => element x
       | x :: l' =>
         match element x, join l' with
         | Some a, Some b => Some (a ++ lit "," ++ b)
         | _, _ => None
         end
       end) elems
  | VObject props =>
    if has_own_property (lit "toString") props then None
    else Some (lit "[object Object]")
  end.

(** ** The page and the outside world *)

Record Controls := {
  enablePan : bool;
  enableDamping : bool;
  dampingFactor : float;
  enableZoom : bool;
  minDistance : float;
  maxDistance : float
}.

Record Animation := { speed : float }.

(** The fields of a [skinview3d.SkinViewer] that the script touches. *)
Record Viewer := {
  controls : option Controls;
  animation : option Animation;
  fov : float;
  zoom : float
}.

(** A [Response]: [json] is [None] when the body is not JSON and
    [response.json()] rejects. *)
Record Response := {
  response_status : N;
  response_json : option value
}.

(** [response.ok] (Fetch standard: a status from 200 to 299). *)
Definition response_ok (r : Response) : bool := in_range 200 299 (response_status r).

Record File := {
  file_type : jsstring;
  file_name : jsstring;
  file_size : N
}.

(** What the script calls and does not define. [None] and [false] stand for
    a rejected promise or a thrown exception. *)
Record Env := {
  (** [fetch(url)]: [None] is a rejected request. *)
  fetch : jsstring -> option Response;
  (** whether [viewer.loadSkin(source)] resolves *)
  loadSkin : value -> bool;
  atob : jsstring -> option jsstring;
  JSON_parse : jsstring -> option value;
  Number_toString : float -> jsstring;
  (** [reader.readAsDataURL(file)]: the data URL of the [load] event, or
      [None] for the [error] event. *)
  readAsDataURL : File -> option jsstring;
  (** [new skinview3d.SkinViewer({canvas, width, height})] *)
  SkinViewer_new : option Viewer
}.

(** The calls to the outside world, as they happen. *)
Inductive Event :=
| EFetch (url : jsstring)
| ELoadSkin (source : value)
| EReadAsDataURL (file : File)
| EConsoleError (e : exn).

(** [statusText.innerHTML] and [statusText.style.color]. *)
Record Status := {
  innerHTML : jsstring;
  color : jsstring
}.

Record State := {
  viewer : option Viewer;
  localStorage : gmap jsstring jsstring;
  (** whether the storage area takes the pair [key], [value]; when it does
      not (the quota is reached, storage is disabled)
      [localStorage.setItem(key, value)] throws QuotaExceededError. The
      script has no way to change this. No handler writes a key twice, so
      a function of the pair covers every outcome of a run. *)
  storage_accepts : jsstring -> jsstring -> bool;
  statusText : Status;
  fetchSkinBtn_disabled : bool;
  (** [animationToggle.checked]; [None] when the page has no such element
      (line 127 tests for it) *)
  animationToggle : option bool;
  trace : list Event
}.

Definition set_viewer (v : option Viewer) (s : State) : State :=
  {| viewer := v; localStorage := localStorage s;
     storage_accepts := storage_accepts s; statusText := statusText s;
     fetchSkinBtn_disabled := fetchSkinBtn_disabled s;
     animationToggle := animationToggle s; trace := trace s |}.

Definition set_localStorage (m : gmap jsstring jsstring) (s : State) : State :=
  {| viewer := viewer s; localStorage := m;
     storage_accepts := storage_accepts s; statusText := statusText s;
     fetchSkinBtn_disabled := fetchSkinBtn_disabled s;
     animationToggle := animationToggle s; trace := trace s |}.

Definition set_statusText (t : Status) (s : State) : State :=
  {| viewer := viewer s; localStorage := localStorage s;
     storage_accepts := storage_accepts s; statusText := t;
     fetchSkinBtn_disabled := fetchSkinBtn_disabled s;
     animationToggle := animationToggle s; trace := trace s |}.

Definition set_fetchSkinBtn_disabled (b : bool) (s : State) : State :=
  {| viewer := viewer s; localStorage := localStorage s;
     storage_accepts := storage_accepts s; statusText := statusText s;
     fetchSkinBtn_disabled := b;
     animationToggle := animationToggle s; trace := trace s |}.

Definition set_animationToggle (c : option bool) (s : State) : State :=
  {| viewer := viewer s; localStorage := localStorage s;
     storage_accepts := storage_accepts s; statusText := statusText s;
     fetchSkinBtn_disabled := fetchSkinBtn_disabled s;
     animationToggle := c; trace := trace s |}.

Definition log (e : Event) (s : State) : State :=
  {| viewer := viewer s; localStorage := localStorage s;
     storage_accepts := storage_accepts s; statusText := statusText s;
     fetchSkinBtn_disabled := fetchSkinBtn_disabled s;
     animationToggle := animationToggle s; trace := trace s ++ [e] |}.

(** ** Statements: a state monad with the three completions *)

Inductive completion (A : Type) :=
| Normal (a : A)
| Return
| Throw (e : exn).

Arguments Normal {A} a.
Arguments Return {A}.
Arguments Throw {A} e.

Definition M (A : Type) : Type := State -> completion A * State.

Definition ret {A} (a : A) : M A := fun s => (Normal a, s).

Definition bind {A B} (m : M A) (k : A -> M B) : M B :=
  fun s =>
    match m s with
    | (Normal a, s') => k a s'
    | (Return, s') => (Return, s')
    | (Throw e, s') => (Throw e, s')
    end.

Notation "'let*' x := c1 'in' c2" := (bind c1 (fun x => c2))
  (at level 10, x name, c1 at level 100, c2 at level 200).

Notation "'let*' ' p := c1 'in' c2" :=
  (bind c1 (fun x => match x with p => c2 end))
  (at level 10, p pattern, c1 at level 100, c2 at level 200).

Notation "c1 >> c2" := (bind c1 (fun _ => c2))
  (at level 100, c2 at level 200, right associativity).

(** [return;] *)
Definition return_ {A} : M A := fun s => (Return, s).

Definition throw {A} (e : exn) : M A := fun s => (Throw e, s).

Definition gets {A} (f : State -> A) : M A := fun s => (Normal (f s), s).

Definition modify (f : State -> State) : M unit := fun s => (Normal tt, f s).

(** [if (b) { m }] *)
Definition when (b : bool) (m : M unit) : M unit := if b then m else ret tt.

Definition lift_sum {A} (r : exn + A) : M A :=
  match r with
  | inl e => throw e
  | inr a => ret a
  end.

Definition lift_option {A} (e : exn) (o : option A) : M A :=
  match o with
  | Some a => ret a
  | None => throw e
  end.

(** [try { body } catch (error) { handler }] *)
Definition try_catch (body : M unit) (handler : exn -> M unit) : M unit :=
  fun s =>
    match body s with
    | (Throw e, s') => handler e s'
    | r => r
    end.

(** [try { body } catch (error) { handler } finally { final }]: [final] runs
    whatever the completion, which it keeps unless it is abrupt itself. *)
Definition try_catch_finally (body : M unit) (handler : exn -> M unit)
    (final : M unit) : M unit :=
  fun s =>
    let '(c, s') := try_catch body handler s in
    match final s' with
    | (Normal _, s'') => (c, s'')
    | r => r
    end.

(** A function body: [return] ends the call normally; a [Throw] that is
    left is an uncaught exception (a rejected promise, for an [async]
    function). *)
Definition function (body : M unit) : M unit :=
  fun s =>
    match body s with
    | (Return, s') => (Normal tt, s')
    | r => r
    end.

(** *** The calls of the script into the page and the outside world *)

(** The two colours of the status line. *)
Definition error_color : jsstring := lit "#f87171".
Definition muted_color : jsstring := lit "var(--text-muted)".

(** [setStatus(message, isError = false)], lines 11-14. *)
Definition setStatus (message : jsstring) (isError : bool) : M unit :=
  modify (set_statusText
    {| innerHTML := message;
       color := if isError then error_color else muted_color |}).

(** [await fetch(url)] *)
Definition await_fetch (env : Env) (url : jsstring) : M Response :=
  modify (log (EFetch url)) >>
  lift_option FetchRejected (fetch env url).

(** [await response.json()] *)
Definition await_json (r : Response) : M value :=
  lift_option SyntaxError (response_json r).

(** [await viewer.loadSkin(source)]; reading [loadSkin] of an undefined
    [viewer] throws before any call. *)
Definition await_loadSkin (env : Env) (source : value) : M unit :=
  let* v := gets viewer in
  match v with
  | None => throw TypeError
  | Some _ =>
    modify (log (ELoadSkin source)) >>
    if loadSkin env source then ret tt else throw LoadSkinRejected
  end.

(** [localStorage.getItem(key)]: the string, or [null]. *)
Definition getItem (key : jsstring) : M (option jsstring) :=
  gets (fun s => localStorage s !! key).

(** [localStorage.setItem(key, v)]: the value is stored as a string,
    unless the storage area refuses the pair: then the call throws
    QuotaExceededError and stores nothing. *)
Definition setItem (env : Env) (key : jsstring) (v : value) : M unit :=
  let* str := lift_option TypeError (ToString (Number_toString env) v) in
  let* accepted := gets (fun s => storage_accepts s key str) in
  if accepted
  then modify (fun s => set_localStorage (<[key := str]> (localStorage s)) s)
  else throw QuotaExceededError.

(** [localStorage.removeItem(key)] *)
Definition removeItem (key : jsstring) : M unit :=
  modify (fun s => set_localStorage (delete key (localStorage s)) s).

(** [console.error(..., error)] *)
Definition console_error (e : exn) : M unit := modify (log (EConsoleError e)).

(** [viewer] is truthy once assigned. *)
Definition defined {A} (v : option A) : bool :=
  match v with
  | Some _ => true
  | None => false
  end.

(** ToBoolean of a string. *)
Definition nonempty (s : jsstring) : bool :=
  match s with
  | [] => false
  | _ :: _ => true
  end.

(** An assignment to a field of the object [viewer]. *)
Definition update_viewer (f : Viewer -> Viewer) : M unit :=
  let* v := gets viewer in
  match v with
  | None => throw TypeError
  | Some v => modify (set_viewer (Some (f v)))
  end.

Definition set_controls (c : option Controls) (v : Viewer) : Viewer :=
  {| controls := c; animation := animation v; fov := fov v; zoom := zoom v |}.

Definition set_animation (a : option Animation) (v : Viewer) : Viewer :=
  {| controls := controls v; animation := a; fov := fov v; zoom := zoom v |}.

Definition set_fov (x : float) (v : Viewer) : Viewer :=
  {| controls := controls v; animation := animation v; fov := x; zoom := zoom v |}.

Definition set_zoom (x : float) (v : Viewer) : Viewer :=
  {| controls := controls v; animation := animation v; fov := fov v; zoom := x |}.

(** [viewer.animation = new skinview3d.WalkingAnimation();
     viewer.animation.speed = 1.2;] *)
Definition walking_animation : Animation := {| speed := 1.2%float |}.

(** ** The script *)

Definition msg_starting_up : jsstring :=
  lit "Viewer is still starting up. Please try again in a second.".
Definition msg_enter_name : jsstring := lit "Please enter a username or UUID.".
Definition msg_fetching : jsstring := lit "Fetching skin from Mojang...".
Definition quote : code_unit := 34.
Definition msg_not_found (input : jsstring) : jsstring :=
  lit "Player " ++ [quote] ++ input ++ [quote] ++ lit " not found.".
Definition msg_profile_failed : jsstring :=
  lit "Failed to fetch player profile. Try again later.".
Definition msg_skin_data_failed : jsstring := lit "Failed to fetch skin data.".
Definition msg_no_skin_data : jsstring := lit "No skin data found for this player.".
Definition msg_no_skin : jsstring := lit "No skin found for this player.".
Definition msg_loaded (playerName : jsstring) : jsstring :=
  lit "Loaded skin for <strong>" ++ playerName
  ++ lit "</strong>! Scroll to zoom and drag to orbit.".
Definition msg_fetch_error : jsstring :=
  lit "An error occurred while fetching the skin. Please try again.".
Definition msg_loaded_saved_for (savedPlayerName : jsstring) : jsstring :=
  lit "Loaded saved skin for <strong>" ++ savedPlayerName
  ++ lit "</strong>! Scroll to zoom and drag to orbit.".
Definition msg_loaded_saved : jsstring :=
  lit "Loaded saved skin! Scroll to zoom and drag to orbit.".
Definition msg_ready : jsstring :=
  lit "Ready! Upload a skin file or fetch one by username.".
Definition msg_select_png : jsstring := lit "Please select a PNG file (e.g. skin.png).".
Definition msg_too_large : jsstring := lit "That file is quite large. Try a file under 5 MB.".
(** ends with U+2026 *)
Definition msg_loading : jsstring := lit "Loading skin" ++ [8230].
Definition msg_skin_loaded : jsstring :=
  lit "Skin loaded! Scroll to zoom and drag the preview to orbit.".
Definition msg_file_error : jsstring := lit "Something went wrong reading that skin file.".
Definition msg_read_error : jsstring := lit "Could not read that file. Please try again.".
Definition msg_no_file : jsstring := lit "No file detected. Drop a Minecraft skin PNG.".

Definition key_currentSkin : jsstring := lit "currentSkin".
Definition key_currentPlayerName : jsstring := lit "currentPlayerName".
Definition key_animationEnabled : jsstring := lit "animationEnabled".

Definition proxy_prefix : jsstring := lit "https://choculaterie.com/api/MojangProxy?endpoint=".
Definition mojang_prefix : jsstring := lit "https://api.mojang.com/users/profiles/minecraft/".
Definition session_prefix : jsstring :=
  lit "https://sessionserver.mojang.com/session/minecraft/profile/".

(** [fetch(`https://choculaterie.com/api/MojangProxy?endpoint=${encodeURIComponent(url)}`)] *)
Definition fetch_through_proxy (env : Env) (url : jsstring) : M Response :=
  let* encoded := lift_option URIError (encodeURIComponent url) in
  await_fetch env (proxy_prefix ++ encoded).

(** The test of line 36: the input looks like a username, not a UUID. *)
Definition looks_like_username (input : jsstring) : bool :=
  negb (re_match re_uuid32 input) && negb (re_match re_uuid_dashed input).

(** Lines 32-53: [uuid] and [playerName] after the optional name lookup. *)
Definition resolve_identity (env : Env) (input : jsstring) : M (value * value) :=
  if looks_like_username input then
    let mojangUrl := mojang_prefix ++ input in
    let* profileResponse := fetch_through_proxy env mojangUrl in
    when (negb (response_ok profileResponse))
      ((if response_status profileResponse =? 404
        then setStatus (msg_not_found input) true
        else setStatus msg_profile_failed true) >>
       return_) >>
    let* profileData := await_json profileResponse in
    let* uuid := lift_sum (get profileData (lit "id")) in
    let* playerName := lift_sum (get profileData (lit "name")) in
    ret (uuid, playerName)
  else ret (VString input, VString input).

(** Lines 55-67: the session profile of the UUID, dashes removed. *)
Definition fetch_session (env : Env) (uuid : value) : M value :=
  let* uuid := lift_sum (call_replace_dashes uuid) in
  let sessionUrl := session_prefix ++ uuid in
  let* sessionResponse := fetch_through_proxy env sessionUrl in
  when (negb (response_ok sessionResponse))
    (setStatus msg_skin_data_failed true >> return_) >>
  await_json sessionResponse.

(** The callback of line 71: [prop => prop.name === "textures"]. *)
Definition is_textures (prop : value) : exn + bool :=
  match get prop (lit "name") with
  | inl e => inl e
  | inr n => inr (strict_eq_string n (lit "textures"))
  end.

(** Line 71: [sessionData.properties.find(...)]. *)
Definition find_textures_property (sessionData : value) : exn + value :=
  match get sessionData (lit "properties") with
  | inl e => inl e
  | inr properties => call_find properties is_textures
  end.

(** Line 77: [JSON.parse(atob(texturesProperty.value))]. *)
Definition decode_textures (env : Env) (texturesProperty : value) : exn + value :=
  match get texturesProperty (lit "value") with
  | inl e => inl e
  | inr v =>
    match ToString (Number_toString env) v with
    | None => inl TypeError
    | Some str =>
      match atob env str with
      | None => inl InvalidCharacterError
      | Some decoded =>
        match JSON_parse env decoded with
        | None => inl SyntaxError
        | Some texturesJson => inr texturesJson
        end
      end
    end
  end.

(** Line 78: [texturesJson.textures.SKIN?.url]. *)
Definition skin_url (texturesJson : value) : exn + value :=
  match get texturesJson (lit "textures") with
  | inl e => inl e
  | inr textures =>
    match get textures (lit "SKIN") with
    | inl e => inl e
    | inr SKIN => get_optional SKIN (lit "url")
    end
  end.

(** Lines 68-83: [playerName] of the session profile and [skinUrl]. *)
Definition extract_skin (env : Env) (sessionData : value) : M (value * value) :=
  let* playerName := lift_sum (get sessionData (lit "name")) in
  let* texturesProperty := lift_sum (find_textures_property sessionData) in
  when (negb (truthy texturesProperty))
    (setStatus msg_no_skin_data true >> return_) >>
  let* texturesJson := lift_sum (decode_textures env texturesProperty) in
  let* skinUrl := lift_sum (skin_url texturesJson) in
  when (negb (truthy skinUrl))
    (setStatus msg_no_skin true >> return_) >>
  ret (playerName, skinUrl).

(** Lines 85-92: load, then save, then report. *)
Definition load_and_save (env : Env) (playerName skinUrl : value) : M unit :=
  await_loadSkin env skinUrl >>
  setItem env key_currentSkin skinUrl >>
  setItem env key_currentPlayerName playerName >>
  let* name := lift_option TypeError (ToString (Number_toString env) playerName) in
  setStatus (msg_loaded name) false.

(** The page after lines 28-29: button disabled, fetching message. *)
Definition started (s : State) : State :=
  set_statusText {| innerHTML := msg_fetching; color := muted_color |}
    (set_fetchSkinBtn_disabled true s).

(** The [try] block, lines 32-92. *)
Definition resolver_try (env : Env) (input : jsstring) : M unit :=
  let* '(uuid, _) := resolve_identity env input in
  let* sessionData := fetch_session env uuid in
  let* '(playerName, skinUrl) := extract_skin env sessionData in
  load_and_save env playerName skinUrl.

(** The [catch] block, lines 94-96. *)
Definition resolver_catch (error : exn) : M unit :=
  console_error error >>
  setStatus msg_fetch_error true.

(** The [finally] block, line 98. *)
Definition resolver_finally : M unit :=
  modify (set_fetchSkinBtn_disabled false).

(** Lines 16-100. *)
Definition fetchSkinFromMojang (env : Env) (usernameOrUUID : jsstring) : M unit :=
  function (
    let* v := gets viewer in
    when (negb (defined v))
      (setStatus msg_starting_up true >> return_) >>
    let input := trim usernameOrUUID in
    when (negb (nonempty input))
      (setStatus msg_enter_name true >> return_) >>
    modify (set_fetchSkinBtn_disabled true) >>
    setStatus msg_fetching false >>
    try_catch_finally (resolver_try env input) resolver_catch resolver_finally).

(** [getItem(key) !== 'false'] *)
Definition not_false (stored : option jsstring) : bool :=
  match stored with
  | Some x => negb (str_eqb x (lit "false"))
  | None => true
  end.

(** [if (item) { yes } else { no }] for a stored item: a string other than
    the empty one is truthy, [null] and the empty string are not. *)
Definition if_item {A} (item : option jsstring) (yes : jsstring -> A) (no : A) : A :=
  match item with
  | Some x => if nonempty x then yes x else no
  | None => no
  end.

(** Lines 111-116. *)
Definition tuned_controls : Controls :=
  {| enablePan := false; enableDamping := true; dampingFactor := 0.08%float;
     enableZoom := true; minDistance := 15%float; maxDistance := 65%float |}.

(** Lines 102-153. *)
Definition initializeViewer (env : Env) : M unit :=
  function (
    let* v := lift_option ConstructorThrew (SkinViewer_new env) in
    modify (set_viewer (Some v)) >>
    when (defined (controls v))
      (update_viewer (set_controls (Some tuned_controls))) >>
    let* stored := getItem key_animationEnabled in
    let animationEnabled := not_false stored in
    when animationEnabled
      (update_viewer (set_animation (Some walking_animation))) >>
    let* toggle := gets animationToggle in
    when (defined toggle)
      (modify (set_animationToggle (Some animationEnabled))) >>
    update_viewer (set_fov 50%float) >>
    update_viewer (set_zoom 0.9%float) >>
    let* savedSkin := getItem key_currentSkin in
    if_item savedSkin
      (fun savedSkin =>
         try_catch
           (await_loadSkin env (VString savedSkin) >>
            let* savedPlayerName := getItem key_currentPlayerName in
            if_item savedPlayerName
              (fun savedPlayerName =>
                 setStatus (msg_loaded_saved_for savedPlayerName) false)
              (setStatus msg_loaded_saved false))
           (fun error =>
              setStatus msg_ready false >>
              removeItem key_currentSkin >>
              removeItem key_currentPlayerName))
      (setStatus msg_ready false)).

(** [file.type === "image/png" || file.name.endsWith(".png")], line 162. *)
Definition isPNG (file : File) : bool :=
  str_eqb (file_type file) (lit "image/png") || endsWith (file_name file) (lit ".png").

(** [file.size > 5 * 1024 * 1024], line 168. *)
Definition too_large (file : File) : bool := 5 * 1024 * 1024 <? file_size file.

(** The [load] listener of the reader, lines 176-193;
    [skinData] is [event.target.result]. *)
Definition reader_onload (env : Env) (skinData : jsstring) : M unit :=
  function (
    try_catch
      (await_loadSkin env (VString skinData) >>
       setItem env key_currentSkin (VString skinData) >>
       removeItem key_currentPlayerName >>
       setStatus msg_skin_loaded false)
      (fun error =>
         console_error error >>
         setStatus msg_file_error true)).

(** The [error] listener of the reader, lines 195-197. *)
Definition reader_onerror : M unit :=
  function (setStatus msg_read_error true).

(** Lines 155-200, with the listener that the reader then calls; [None] is
    a missing file ([if (!file) return;]). *)
Definition readSkinFile (env : Env) (file : option File) : M unit :=
  function (
    let* v := gets viewer in
    when (negb (defined v))
      (setStatus msg_starting_up true >> return_) >>
    match file with
    | None => return_
    | Some file =>
      when (negb (isPNG file))
        (setStatus msg_select_png true >> return_) >>
      when (too_large file)
        (setStatus msg_too_large true >> return_) >>
      setStatus msg_loading false >>
      modify (log (EReadAsDataURL file)) >>
      match readAsDataURL env file with
      | Some skinData => reader_onload env skinData
      | None => reader_onerror
      end
    end).

(** Lines 202-208; [None] is a null list. *)
Definition handleFiles (env : Env) (files : option (list File)) : M unit :=
  function (
    match files with
    | None | Some [] => setStatus msg_no_file true >> return_
    | Some (file :: _) => readSkinFile env (Some file)
    end).

(** The [change] listener of the checkbox, lines 261-277;
    [checked] is [event.target.checked]. *)
Definition animationToggle_onchange (env : Env) (checked : bool) : M unit :=
  function (
    let* v := gets viewer in
    when (negb (defined v)) return_ >>
    let isEnabled := checked in
    (if isEnabled
     then update_viewer (set_animation (Some walking_animation))
     else update_viewer (set_animation None)) >>
    setItem env key_animationEnabled (VBool isEnabled)).

(** The user sets the checkbox: the page changes its state, then calls the
    listener. *)
Definition toggle_animation (env : Env) (checked : bool) : M unit :=
  modify (set_animationToggle (Some checked)) >>
  animationToggle_onchange env checked.

(** The click on the fetch button, lines 250-252;
    [text] is [playerSearchInput.value]. *)
Definition fetchSkinBtn_onclick (env : Env) (text : jsstring) : M unit :=
  function (fetchSkinFromMojang env text).

(** A page load with the storage left by an earlier visit: the globals of
    the earlier page are gone, the storage stays. *)
Definition reload (page : State) (earlier : State) : State :=
  set_viewer None (set_localStorage (localStorage earlier) page).

(** [element.classList.toggle(name, force)]: the class is there afterwards
    exactly when [force] is true. *)
Definition classList_toggle (name : jsstring) (force : bool)
    (classList : gset jsstring) : gset jsstring :=
  if force then classList ∪ {[name]} else classList ∖ {[name]}.

(** [toggleDragState], lines 216-218. *)
Definition toggleDragState (isActive : bool) (classList : gset jsstring) :
    gset jsstring :=
  classList_toggle (lit "dragover") isActive classList.

Inductive DragType := DragEnter | DragOver | DragLeave | DragEnd | Drop.

(** What the drag listeners of lines 220-240 do to the class list of the
    drop zone. (Their [preventDefault] and [stopPropagation] calls are
    about the dispatch of the event in the browser, not about the page;
    the [drop] listener then calls [handleFiles].) *)
Definition dropZone_ondrag (type : DragType) (classList : gset jsstring) :
    gset jsstring :=
  match type with
  | DragEnter | DragOver => toggleDragState true classList
  | DragLeave | DragEnd | Drop => toggleDragState false classList
  end.

(** ** Observations used in the statements *)

(** The events a run added to the trace. *)
Definition new_events (before after : State) : list Event :=
  drop (length (trace before)) (trace after).

Definition is_fetch (e : Event) : bool :=
  match e with
  | EFetch _ => true
  | _ => false
  end.

Definition is_loadSkin (e : Event) : bool :=
  match e with
  | ELoadSkin _ => true
  | _ => false
  end.

(** The requests of a run, in order. *)
Definition requests (before after : State) : list Event :=
  List.filter is_fetch (new_events before after).

(** Every [loadSkin] call of a run was rejected. *)
Definition loadSkin_rejected (env : Env) (before after : State) : Prop :=
  forall source, In (ELoadSkin source) (new_events before after) ->
    loadSkin env source = false.

(** *** The words of the specification about the texture descriptor

    The nested skin texture URL field of the decoded JSON, [None] when a
    field is absent at some point of the path. *)
Fixpoint field_at (path : list jsstring) (v : value) : option value :=
  match path with
  | [] => Some v
  | k :: path' =>
    match v with
    | VObject props =>
      match own_property k props with
      | Some x => field_at path' x
      | None => None
      end
    | _ => None
    end
  end.

(** The decoded JSON lacks a skin URL: the field is absent, or holds
    nothing (a falsy value). *)
Definition lacks_skin_url (texturesJson : value) : bool :=
  match field_at [lit "textures"; lit "SKIN"; lit "url"] texturesJson with
  | Some url => negb (truthy url)
  | None => true
  end.

Definition nullish (v : value) : bool :=
  match v with
  | VUndefined | VNull => true
  | _ => false
  end.

(** The decoded JSON has a [textures] member other than [null]. *)
Definition has_textures_member (texturesJson : value) : bool :=
  match get texturesJson (lit "textures") with
  | inr textures => negb (nullish textures)
  | inl _ => false
  end.


(** A code unit below the surrogates. *)
Definition is_basic (c : code_unit) : Prop := c < 55296.

(** What the [catch] and [finally] blocks and the end of the call make of
    the outcome of the [try] block. *)
Definition settle (r : completion unit * State) : completion unit * State :=
  match r with
  | (Throw e, s) =>
    (Normal tt,
     set_fetchSkinBtn_disabled false
       (set_statusText {| innerHTML := msg_fetch_error; color := error_color |}
          (log (EConsoleError e) s)))
  | (_, s) => (Normal tt, set_fetchSkinBtn_disabled false s)
  end.

(** *** The resolved skin reference

    Lines 32-83, the part of the [try] block before the load: its result
    is [playerName] and [skinUrl], the skin reference the input resolves
    to. *)
Definition resolve (env : Env) (input : jsstring) : M (value * value) :=
  let* '(uuid, _) := resolve_identity env input in
  let* sessionData := fetch_session env uuid in
  extract_skin env sessionData.

(** The requests and the loads among some events, in order. *)
Definition is_call (e : Event) : bool := is_fetch e || is_loadSkin e.

Definition calls (evs : list Event) : list Event := List.filter is_call evs.

(** The load that follows a resolution, if it gave a reference. *)
Definition load_of (c : completion (value * value)) : list Event :=
  match c with
  | Normal (_, skinUrl) => [ELoadSkin skinUrl]
  | _ => []
  end.

(** *** Frames

    [framed P m]: from any state, [m] ends in a state related to it by
    [P], whatever its completion. *)
Definition framed (P : relation State) {A} (m : M A) : Prop :=
  forall s, P s (m s).2.

(** The run only added events, all of them in [Q]. *)
Definition appends (Q : Event -> Prop) : relation State :=
  fun s s' => exists evs, trace s' = trace s ++ evs /\ Forall Q evs.

(** The run changed neither the viewer nor the storage nor the checkbox,
    and only added events in [Q]. *)
Definition quiet (Q : Event -> Prop) : relation State :=
  fun s s' =>
    viewer s' = viewer s /\ localStorage s' = localStorage s
    /\ animationToggle s' = animationToggle s /\ appends Q s s'.

(** The storage is as it was, unless a [loadSkin] call of the run
    resolved. *)
Definition writes_after_load (env : Env) : relation State :=
  fun s s' =>
    exists evs, trace s' = trace s ++ evs
      /\ (localStorage s' = localStorage s
          \/ exists source, In (ELoadSkin source) evs /\ loadSkin env source = true).

(** *** Runs from two states

    The storage after a list of writes, oldest first. *)
Definition apply_writes (ws : list (jsstring * jsstring))
    (m : gmap jsstring jsstring) : gmap jsstring jsstring :=
  fold_left (fun m w => <[w.1 := w.2]> m) ws m.

(** The value the writes leave under a key, if they write it. *)
Fixpoint written (k : jsstring) (ws : list (jsstring * jsstring)) : option jsstring :=
  match ws with
  | [] => None
  | w :: ws' =>
    match written k ws' with
    | Some x => Some x
    | None => if decide (w.1 = k) then Some w.2 else None
    end
  end.

(** Two pages that show the same to the script: the same viewer, status
    line and button, and a storage area that takes the same pairs. What
    they store and their traces may differ. *)
Definition alike (s t : State) : Prop :=
  viewer s = viewer t /\ statusText s = statusText t
  /\ fetchSkinBtn_disabled s = fetchSkinBtn_disabled t
  /\ storage_accepts s = storage_accepts t.

(** From [s] to [s'] and from [t] to [t'] the same events were added and
    the same writes made. *)
Definition same_effect (s t s' t' : State) : Prop :=
  exists evs ws,
    trace s' = trace s ++ evs /\ trace t' = trace t ++ evs
    /\ localStorage s' = apply_writes ws (localStorage s)
    /\ localStorage t' = apply_writes ws (localStorage t).

(** A statement that cannot tell two like pages apart: same completion,
    like pages again, same effect. *)
Definition state_blind {A} (m : M A) : Prop :=
  forall s t, alike s t ->
    (m s).1 = (m t).1 /\ alike (m s).2 (m t).2 /\ same_effect s t (m s).2 (m t).2.

(** The run left the viewer as it was. *)
Definition same_viewer : relation State := fun s s' => viewer s' = viewer s.

(** The run left the storage area taking the pairs it took. *)
Definition same_acceptance : relation State :=
  fun s s' => storage_accepts s' = storage_accepts s.

Definition not_fetch (e : Event) : Prop := is_fetch e = false.
Definition is_fetch_event (e : Event) : Prop := is_fetch e = true.
Definition not_loadSkin (e : Event) : Prop := is_loadSkin e = false.
Definition any_event (e : Event) : Prop := True.

(** *** Observations used in the further properties *)

(** A request that goes to the proxy. *)
Definition proxied (e : Event) : Prop :=
  match e with
  | EFetch url => startsWith url proxy_prefix = true
  | _ => True
  end.

Definition whitespace_only (s : jsstring) : Prop :=
  Forall (fun c => is_whitespace c = true) s.

(** The run changed neither the stored animation preference, nor the
    viewer, nor the checkbox. *)
Definition keeps_preference : relation State :=
  fun s s' =>
    localStorage s' !! key_animationEnabled = localStorage s !! key_animationEnabled
    /\ viewer s' = viewer s /\ animationToggle s' = animationToggle s.

Definition only_loads (e : Event) : Prop := is_loadSkin e = true.

(** The three ways the answer to the name lookup is unusable: no answer,
    a body that is not JSON, a body without a string [id]. *)
Definition unusable_lookup (answer : option Response) : Prop :=
  answer = None
  \/ (exists r, answer = Some r /\ response_ok r = true /\ response_json r = None)
  \/ (exists r profileData,
        answer = Some r /\ response_ok r = true
        /\ response_json r = Some profileData
        /\ forall uuid, get profileData (lit "id") <> inr (VString uuid)).

(** The class list of the drop zone after a sequence of drag events,
    oldest first. *)
Definition after_drags (types : list DragType) (classList : gset jsstring) :
    gset jsstring :=
  fold_left (fun cl type => dropZone_ondrag type cl) types classList.

(** The events whose listener switches the highlight on. *)
Definition highlights (type : DragType) : bool :=
  match type with
  | DragEnter | DragOver => true
  | DragLeave | DragEnd | Drop => false
  end.

(** ** Scenarios *)

(** A table of answers keyed by strings, first match. *)
Fixpoint answer {A} (rows : list (jsstring * A)) (k : jsstring) : option A :=
  match rows with
  | [] => None
  | (k', a) :: rows' => if str_eqb k' k then Some a else answer rows' k
  end.

(** JSON text written with single quotes for the double ones. *)
Definition json_text (s : string) : jsstring :=
  List.map (fun c => if c =? 39 then quote else c) (lit s).

(** The URL the proxy is asked with for the upstream URL [u]. *)
Definition through_proxy (u : jsstring) : jsstring :=
  proxy_prefix ++ default [] (encodeURIComponent u).

Definition fresh_viewer : Viewer :=
  {| controls := Some {| enablePan := true; enableDamping := false;
                         dampingFactor := 0.05%float; enableZoom := true;
                         minDistance := 0%float; maxDistance := infinity |};
     animation := None; fov := 50%float; zoom := 0.9%float |}.

(** An outside world that answers from tables. *)
Definition scripted (responses : list (jsstring * Response)) (loads : bool)
    (base64 : list (jsstring * jsstring)) (parses : list (jsstring * value))
    (reads : option jsstring) : Env :=
  {| fetch := answer responses;
     loadSkin := fun _ => loads;
     atob := answer base64;
     JSON_parse := answer parses;
     Number_toString := fun _ => lit "0";
     readAsDataURL := fun _ => reads;
     SkinViewer_new := Some fresh_viewer |}.

(** A page whose viewer is running, with an empty storage. *)
Definition ready_page : State :=
  {| viewer := Some fresh_viewer;
     localStorage := ∅;
     storage_accepts := fun _ _ => true;
     statusText := {| innerHTML := msg_ready; color := muted_color |};
     fetchSkinBtn_disabled := false;
     animationToggle := Some true;
     trace := [] |}.

(** A page that has not run its start-up yet. *)
Definition blank_page : State :=
  {| viewer := None;
     localStorage := ∅;
     storage_accepts := fun _ _ => true;
     statusText := {| innerHTML := []; color := [] |};
     fetchSkinBtn_disabled := false;
     animationToggle := Some true;
     trace := [] |}.

Definition notch_uuid : jsstring := lit "069a79f444e94726a5befca90e38aaf5".
Definition notch_skin : jsstring := lit "https://textures.minecraft.net/texture/xyz".

Definition notch_profile : Response :=
  {| response_status := 200;
     response_json := Some (VObject [(lit "id", VString notch_uuid);
                                     (lit "name", VString (lit "Notch"))]) |}.

(** A session profile whose [textures] property holds [descriptor]. *)
Definition session_profile (descriptor : jsstring) : Response :=
  {| response_status := 200;
     response_json := Some (VObject
       [(lit "id", VString notch_uuid);
        (lit "name", VString (lit "Notch"));
        (lit "properties", VArray
           [VObject [(lit "name", VString (lit "textures"));
                     (lit "value", VString descriptor)]])]) |}.

Definition notch_descriptor : jsstring :=
  lit "eyJ0ZXh0dXJlcyI6eyJTS0lOIjp7InVybCI6Imh0dHBzOi8vdGV4dHVyZXMubWluZWNyYWZ0Lm5ldC90ZXh0dXJlL3h5eiJ9fX0=".

Definition notch_descriptor_text : jsstring :=
  json_text "{'textures':{'SKIN':{'url':'https://textures.minecraft.net/texture/xyz'}}}".

Definition notch_descriptor_json : value :=
  VObject [(lit "textures", VObject [(lit "SKIN", VObject [(lit "url", VString notch_skin)])])].

(** The example of the specification: the player Notch; [loads] tells
    whether the renderer accepts the skin. *)
Definition notch_world (loads : bool) : Env :=
  scripted
    [(through_proxy (mojang_prefix ++ lit "Notch"), notch_profile);
     (through_proxy (session_prefix ++ notch_uuid), session_profile notch_descriptor)]
    loads
    [(notch_descriptor, notch_descriptor_text)]
    [(notch_descriptor_text, notch_descriptor_json)]
    None.

(** A profile whose descriptor is [{}]: base64 [e30=]. *)
Definition empty_descriptor_world : Env :=
  scripted
    [(through_proxy (session_prefix ++ notch_uuid), session_profile (lit "e30="))]
    true
    [(lit "e30=", json_text "{}")]
    [(json_text "{}", VObject [])]
    None.

(** A profile whose descriptor is [{"textures":{}}]. *)
Definition no_skin_world : Env :=
  scripted
    [(through_proxy (session_prefix ++ notch_uuid),
      session_profile (lit "eyJ0ZXh0dXJlcyI6e319"))]
    true
    [(lit "eyJ0ZXh0dXJlcyI6e319", json_text "{'textures':{}}")]
    [(json_text "{'textures':{}}", VObject [(lit "textures", VObject [])])]
    None.

(** The name lookup answers 404. *)
Definition unknown_player_world : Env :=
  scripted
    [(through_proxy (mojang_prefix ++ lit "Nobody"),
      {| response_status := 404; response_json := None |})]
    true [] [] None.

(** A world without network where files read as [data] and the renderer
    answers [loads]. *)
Definition file_world (loads : bool) : Env :=
  scripted [] loads [] [] (Some (lit "data:image/png;base64,iVBORw0KGgo=")).

Definition large_jpeg : File :=
  {| file_type := lit "image/jpeg"; file_name := lit "photo.jpg";
     file_size := 6 * 1024 * 1024 |}.

Definition large_png : File :=
  {| file_type := lit "image/png"; file_name := lit "skin.png";
     file_size := 5 * 1024 * 1024 + 1 |}.

Definition small_png : File :=
  {| file_type := lit "image/png"; file_name := lit "skin.png"; file_size := 1024 |}.

(** A page left by an earlier visit that fetched Notch. *)
Definition returning_page : State :=
  {| viewer := None;
     localStorage := <[key_currentPlayerName := lit "Notch"]>
                       (<[key_currentSkin := notch_skin]> ∅);
     storage_accepts := fun _ _ => true;
     statusText := {| innerHTML := []; color := [] |};
     fetchSkinBtn_disabled := false;
     animationToggle := Some true;
     trace := [] |}.

(** A page whose viewer is running and whose storage holds an earlier
    skin. *)
Definition visited_page : State :=
  {| viewer := Some fresh_viewer;
     localStorage := <[key_currentPlayerName := lit "jeb_"]>
                       (<[key_currentSkin := lit "https://textures.minecraft.net/texture/old"]> ∅);
     storage_accepts := fun _ _ => true;
     statusText := {| innerHTML := msg_ready; color := muted_color |};
     fetchSkinBtn_disabled := false;
     animationToggle := Some true;
     trace := [] |}.

(** A page like [visited_page] whose storage area is full: it takes
    nothing more. *)
Definition full_page : State :=
  {| viewer := Some fresh_viewer;
     localStorage := <[key_currentPlayerName := lit "jeb_"]>
                       (<[key_currentSkin := lit "https://textures.minecraft.net/texture/old"]> ∅);
     storage_accepts := fun _ _ => false;
     statusText := {| innerHTML := msg_ready; color := muted_color |};
     fetchSkinBtn_disabled := false;
     animationToggle := Some true;
     trace := [] |}.

(** A string that is one unpaired surrogate. *)
Definition lone_surrogate : jsstring := [55296].

(** The name lookup answers 500. *)
Definition server_error_world : Env :=
  scripted
    [(through_proxy (mojang_prefix ++ lit "Nobody"),
      {| response_status := 500; response_json := None |})]
    true [] [] None.

(** The session server answers 503. *)
Definition session_down_world : Env :=
  scripted
    [(through_proxy (session_prefix ++ notch_uuid),
      {| response_status := 503; response_json := None |})]
    true [] [] None.



(** A session profile with two [textures] properties after another one. *)
Definition two_textures_profile : value :=
  VObject [(lit "properties", VArray
              [VObject [(lit "name", VString (lit "signature"))];
               VObject [(lit "name", VString (lit "textures"));
                        (lit "value", VString (lit "first"))];
               VObject [(lit "name", VString (lit "textures"));
                        (lit "value", VString (lit "second"))]])].

(** No network: every request is rejected. *)
Definition offline_world : Env := scripted [] true [] [] None.

(** A browser in which the viewer cannot be constructed. *)
Definition no_renderer_world : Env :=
  {| fetch := fun _ => None;
     loadSkin := fun _ => false;
     atob := fun _ => None;
     JSON_parse := fun _ => None;
     Number_toString := fun _ => lit "0";
     readAsDataURL := fun _ => None;
     SkinViewer_new := None |}.

Definition dashed_notch_uuid : jsstring := lit "069a79f4-44e9-4726-a5be-fca90e38aaf5".

(** ** Properties *)

(** *** Strings *)

Lemma str_eqb_eq (s t : jsstring) : str_eqb s t = true <-> s = t.
Proof.
  revert t. induction s as [|c s IH]; intros [|d t]; simpl; try (split; congruence).
  rewrite andb_true_iff, N.eqb_eq, IH. split.
  - intros [-> ->]. reflexivity.
  - intros [= -> ->]. auto.
Qed.

Lemma startsWith_prefix (s p : jsstring) :
  startsWith s p = true <-> exists rest, s = p ++ rest.
Proof.
  revert s. induction p as [|d p IH]; intros s; simpl.
  - split; [intros _; exists s; reflexivity | reflexivity].
  - destruct s as [|c s].
    + split; [discriminate | intros [rest [=]]].
    + rewrite andb_true_iff, N.eqb_eq, IH. split.
      * intros [-> [rest ->]]. eauto.
      * intros [rest [= -> ->]]. eauto.
Qed.

Lemma endsWith_suffix (s p : jsstring) :
  endsWith s p = true <-> exists stem, s = stem ++ p.
Proof.
  unfold endsWith. rewrite startsWith_prefix. split.
  - intros [rest H]. exists (rev rest).
    rewrite <- (rev_involutive s), H, rev_app_distr, rev_involutive. reflexivity.
  - intros [stem ->]. exists (rev stem). apply rev_app_distr.
Qed.

(** What a fixed-length expression accepts is, position by position, in
    its classes. *)
Lemma re_match_Forall (Q : code_unit -> Prop) (re : list char_class) :
  Forall (fun cl : char_class => forall c, cl c = true -> Q c) re ->
  forall s, re_match re s = true -> Forall Q s.
Proof.
  induction 1 as [|cl re Hcl _ IH]; intros [|c s]; simpl; try discriminate.
  - constructor.
  - rewrite andb_true_iff. intros [Hc Hs]. constructor; auto.
Qed.

Lemma hex_class_basic (c : code_unit) : hex_class c = true -> is_basic c.
Proof.
  unfold hex_class, is_digit, in_range, is_basic.
  rewrite !orb_true_iff, !andb_true_iff, !N.leb_le. lia.
Qed.

Lemma dash_class_basic (c : code_unit) : dash_class c = true -> is_basic c.
Proof. unfold dash_class, dash, is_basic. rewrite N.eqb_eq. lia. Qed.

Lemma uuid_input_basic (input : jsstring) :
  looks_like_username input = false -> Forall is_basic input.
Proof.
  unfold looks_like_username.
  rewrite andb_false_iff, !negb_false_iff. intros [H | H]; revert H;
    apply re_match_Forall;
    repeat (constructor; try apply hex_class_basic; try apply dash_class_basic).
Qed.

Lemma remove_dashes_basic (s : jsstring) :
  Forall is_basic s -> Forall is_basic (remove_dashes s).
Proof.
  unfold remove_dashes. induction 1 as [|c s Hc _ IH]; simpl.
  - constructor.
  - destruct (negb (c =? dash)); auto.
Qed.

Lemma lit_basic (str : string) : Forall is_basic (lit str).
Proof.
  unfold lit. induction str as [|a str IH]; simpl; constructor; auto.
  unfold is_basic. pose proof (N_ascii_bounded a). lia.
Qed.

Lemma basic_not_surrogate (c : code_unit) :
  is_basic c -> is_trail_surrogate c = false /\ is_lead_surrogate c = false.
Proof.
  unfold is_basic, is_trail_surrogate, is_lead_surrogate, in_range. intros H.
  split; apply andb_false_iff; left; apply N.leb_gt; lia.
Qed.

(** Encoding reads a prefix without surrogates unit by unit. *)
Lemma encodeURIComponent_basic_app (a b : jsstring) :
  Forall is_basic a ->
  encodeURIComponent (a ++ b)
  = match encodeURIComponent a, encodeURIComponent b with
    | Some x, Some y => Some (x ++ y)
    | _, _ => None
    end.
Proof.
  induction 1 as [|c a Hc _ IH]; simpl.
  - destruct (encodeURIComponent b); reflexivity.
  - destruct (basic_not_surrogate c Hc) as [-> ->]. rewrite IH.
    destruct (is_uri_unescaped c), (encodeURIComponent a), (encodeURIComponent b);
      simpl; rewrite <- ?app_assoc; reflexivity.
Qed.

Lemma encodeURIComponent_basic (a : jsstring) :
  Forall is_basic a -> is_Some (encodeURIComponent a).
Proof.
  induction 1 as [|c a Hc _ [r IH]]; simpl; [eauto|].
  destruct (basic_not_surrogate c Hc) as [-> ->]. rewrite IH.
  destruct (is_uri_unescaped c); eauto.
Qed.

Lemma unescaped_basic (c : code_unit) : is_uri_unescaped c = true -> is_basic c.
Proof.
  unfold is_uri_unescaped, is_upper, is_lower, is_digit, in_range, is_basic. simpl.
  rewrite !orb_true_iff, !andb_true_iff, !N.leb_le, !N.eqb_eq. lia.
Qed.

(** A well-formed string is encoded: the URIError is for unpaired
    surrogates only. *)
Lemma encodeURIComponent_wellFormed (s : jsstring) :
  isWellFormed s = true -> is_Some (encodeURIComponent s).
Proof.
  remember (length s) as n eqn:Hn. revert s Hn.
  induction n as [n IH] using lt_wf_ind. intros [|c s] Hn; simpl; [eauto|].
  simpl in Hn. destruct (is_uri_unescaped c) eqn:Hu.
  - destruct (basic_not_surrogate c (unescaped_basic c Hu)) as [-> ->].
    intros Hs. destruct (IH (length s) ltac:(lia) s eq_refl Hs) as [r ->]. eauto.
  - destruct (is_trail_surrogate c); [discriminate|].
    destruct (is_lead_surrogate c).
    + destruct s as [|d s]; [discriminate|].
      rewrite andb_true_iff. intros [-> Hs]. simpl in Hn.
      destruct (IH (length s) ltac:(lia) s eq_refl Hs) as [r ->]. eauto.
    + intros Hs. destruct (IH (length s) ltac:(lia) s eq_refl Hs) as [r ->]. eauto.
Qed.

Lemma uuid_nonempty (input : jsstring) :
  looks_like_username input = false -> nonempty input = true.
Proof. destruct input; [discriminate | reflexivity]. Qed.

Lemma looks_like_username_false (input : jsstring) :
  re_match re_uuid32 input = true \/ re_match re_uuid_dashed input = true ->
  looks_like_username input = false.
Proof.
  unfold looks_like_username. intros [-> | ->]; simpl; [reflexivity|].
  apply andb_false_r.
Qed.

Lemma looks_like_username_true (input : jsstring) :
  re_match re_uuid32 input = false -> re_match re_uuid_dashed input = false ->
  looks_like_username input = true.
Proof. unfold looks_like_username. intros -> ->. reflexivity. Qed.

Lemma session_url_encodable (input : jsstring) :
  looks_like_username input = false ->
  is_Some (encodeURIComponent (session_prefix ++ remove_dashes input)).
Proof.
  intros H. apply encodeURIComponent_basic, Forall_app. split.
  - apply lit_basic.
  - apply remove_dashes_basic, uuid_input_basic, H.
Qed.

Lemma lookup_url_encodable (input : jsstring) :
  isWellFormed input = true ->
  is_Some (encodeURIComponent (mojang_prefix ++ input)).
Proof.
  intros H. rewrite encodeURIComponent_basic_app by apply lit_basic.
  destruct (encodeURIComponent_basic mojang_prefix (lit_basic _)) as [a ->].
  destruct (encodeURIComponent_wellFormed input H) as [b ->]. eauto.
Qed.

Lemma isPNG_iff (file : File) :
  isPNG file = true
  <-> file_type file = lit "image/png"
      \/ exists stem, file_name file = stem ++ lit ".png".
Proof.
  unfold isPNG. rewrite orb_true_iff, str_eqb_eq, endsWith_suffix. reflexivity.
Qed.

Lemma too_large_iff (file : File) :
  too_large file = true <-> 5 * 1024 * 1024 < file_size file.
Proof. unfold too_large. apply N.ltb_lt. Qed.

Lemma keys_distinct : key_currentSkin <> key_currentPlayerName.
Proof. vm_compute. discriminate. Qed.

Lemma msg_not_found_distinct (input : jsstring) : msg_not_found input <> msg_profile_failed.
Proof. unfold msg_not_found, msg_profile_failed. simpl. discriminate. Qed.

(** *** Traces *)

Lemma new_events_app (s s' : State) (evs : list Event) :
  trace s' = trace s ++ evs -> new_events s s' = evs.
Proof. unfold new_events. intros ->. apply drop_app_length. Qed.

#[export] Instance appends_preorder (Q : Event -> Prop) : PreOrder (appends Q).
Proof.
  split.
  - intros s. exists []. split; [symmetry; apply app_nil_r | constructor].
  - intros s1 s2 s3 [e1 [H1 Q1]] [e2 [H2 Q2]]. exists (e1 ++ e2). split.
    + rewrite H2, H1. symmetry. apply app_assoc.
    + apply Forall_app. auto.
Qed.

#[export] Instance quiet_preorder (Q : Event -> Prop) : PreOrder (quiet Q).
Proof.
  split.
  - intros s. repeat split. reflexivity.
  - intros s1 s2 s3 (V1 & L1 & A1 & T1) (V2 & L2 & A2 & T2). repeat split.
    + congruence.
    + congruence.
    + congruence.
    + etransitivity; eassumption.
Qed.

#[export] Instance writes_after_load_preorder (env : Env) : PreOrder (writes_after_load env).
Proof.
  split.
  - intros s. exists []. split; [symmetry; apply app_nil_r | auto].
  - intros s1 s2 s3 (e1 & H1 & W1) (e2 & H2 & W2). exists (e1 ++ e2). split.
    + rewrite H2, H1. symmetry. apply app_assoc.
    + destruct W1 as [W1 | (x & I & R)].
      * destruct W2 as [W2 | (x & I & R)]; [left; congruence|].
        right. exists x. split; [apply in_or_app|]; auto.
      * right. exists x. split; [apply in_or_app|]; auto.
Qed.

#[export] Instance same_viewer_preorder : PreOrder same_viewer.
Proof.
  split.
  - intros s. reflexivity.
  - intros s1 s2 s3 H1 H2. unfold same_viewer in *. congruence.
Qed.

#[export] Instance same_acceptance_preorder : PreOrder same_acceptance.
Proof.
  split.
  - intros s. reflexivity.
  - intros s1 s2 s3 H1 H2. unfold same_acceptance in *. congruence.
Qed.

Lemma quiet_appends (Q : Event -> Prop) (s s' : State) : quiet Q s s' -> appends Q s s'.
Proof. intros (_ & _ & _ & H). exact H. Qed.

(** *** Frame rules *)

Section Frame.

Context (P : relation State) `{!PreOrder P}.

Lemma framed_ret {A} (a : A) : framed P (ret a).
Proof. intros s. reflexivity. Qed.

Lemma framed_return {A} : framed P (@return_ A).
Proof. intros s. reflexivity. Qed.

Lemma framed_throw {A} (e : exn) : framed P (@throw A e).
Proof. intros s. reflexivity. Qed.

Lemma framed_gets {A} (f : State -> A) : framed P (gets f).
Proof. intros s. reflexivity. Qed.

Lemma framed_modify (f : State -> State) : (forall s, P s (f s)) -> framed P (modify f).
Proof. intros H s. apply H. Qed.

Lemma framed_lift_sum {A} (r : exn + A) : framed P (lift_sum r).
Proof. destruct r; intros s; reflexivity. Qed.

Lemma framed_lift_option {A} (e : exn) (o : option A) : framed P (lift_option e o).
Proof. destruct o; intros s; reflexivity. Qed.

Lemma framed_bind {A B} (m : M A) (k : A -> M B) :
  framed P m -> (forall a, framed P (k a)) -> framed P (bind m k).
Proof.
  intros Hm Hk s. unfold bind. specialize (Hm s).
  destruct (m s) as [[a| |e] s']; simpl in *; [|assumption..].
  etransitivity; [exact Hm | apply Hk].
Qed.

Lemma framed_when (b : bool) (m : M unit) : framed P m -> framed P (when b m).
Proof. intros H. destruct b; [exact H | apply framed_ret]. Qed.

Lemma framed_try_catch (body : M unit) (handler : exn -> M unit) :
  framed P body -> (forall e, framed P (handler e)) -> framed P (try_catch body handler).
Proof.
  intros Hb Hh s. unfold try_catch. specialize (Hb s).
  destruct (body s) as [[a| |e] s']; simpl in *; [assumption..|].
  etransitivity; [exact Hb | apply Hh].
Qed.

Lemma framed_try_catch_finally (body : M unit) (handler : exn -> M unit)
    (final : M unit) :
  framed P body -> (forall e, framed P (handler e)) -> framed P final ->
  framed P (try_catch_finally body handler final).
Proof.
  intros Hb Hh Hf s. unfold try_catch_finally.
  pose proof (framed_try_catch body handler Hb Hh s) as H.
  destruct (try_catch body handler s) as [c s']. simpl in H.
  specialize (Hf s'). destruct (final s') as [[a| |e] s'']; simpl in *;
    etransitivity; eassumption.
Qed.

Lemma framed_function (body : M unit) : framed P body -> framed P (function body).
Proof.
  intros Hb s. unfold function. specialize (Hb s).
  destruct (body s) as [[a| |e] s']; assumption.
Qed.

End Frame.

(** One frame step: a rule for the head combinator, or a case split on the
    test of a conditional. *)
Ltac frame_rule lem := apply lem; try (typeclasses eauto).

Ltac frame_step :=
  match goal with
  | |- framed _ (bind _ _) => frame_rule @framed_bind; [|intros ?]
  | |- framed _ (ret _) => frame_rule @framed_ret
  | |- framed _ return_ => frame_rule @framed_return
  | |- framed _ (throw _) => frame_rule @framed_throw
  | |- framed _ (gets _) => frame_rule @framed_gets
  | |- framed _ (lift_sum _) => frame_rule @framed_lift_sum
  | |- framed _ (lift_option _ _) => frame_rule @framed_lift_option
  | |- framed _ (when _ _) => frame_rule @framed_when
  | |- framed _ (try_catch _ _) => frame_rule @framed_try_catch; [|intros ?]
  | |- framed _ (try_catch_finally _ _ _) =>
    frame_rule @framed_try_catch_finally; [|intros ?|]
  | |- framed _ (function _) => frame_rule @framed_function
  | |- framed _ (modify _) => frame_rule @framed_modify; intros ?
  | |- framed _ (if ?b then _ else _) => destruct b
  | |- framed _ (match ?x with _ => _ end) => destruct x
  end.

Ltac frame leaf := repeat frame_step; try (solve [leaf]).

Ltac appends_leaf :=
  first [ exists []; split; [simpl; symmetry; apply app_nil_r | constructor]
        | eexists [_]; split; [reflexivity | repeat constructor; auto] ].

Ltac quiet_leaf := repeat split; appends_leaf.

Ltac writes_leaf :=
  first [ exists []; split; [simpl; symmetry; apply app_nil_r | left; reflexivity]
        | eexists [_]; split; [reflexivity | left; reflexivity] ].

(** The state a statement ends in is framed from the state its first part
    ends in, when the rest is. *)
Lemma bind_tail (P : relation State) `{!PreOrder P} {A B} (m : M A) (k : A -> M B)
    (s : State) :
  (forall a, framed P (k a)) -> P (m s).2 (bind m k s).2.
Proof.
  intros Hk. unfold bind. destruct (m s) as [[a| |e] s']; simpl.
  - apply Hk.
  - reflexivity.
  - reflexivity.
Qed.

(** *** Running the script *)

Ltac unfold_monad :=
  unfold function, try_catch_finally, try_catch, setStatus, bind, when, gets,
    modify, lift_option, lift_sum, ret, return_, throw.

Ltac run_state :=
  cbn [fst snd viewer localStorage storage_accepts statusText
       fetchSkinBtn_disabled animationToggle trace set_viewer set_localStorage
       set_statusText set_fetchSkinBtn_disabled set_animationToggle log negb
       defined].

(** *** The stages of the Resolver *)

Lemma resolve_identity_quiet (env : Env) (input : jsstring) (Q : Event -> Prop) :
  (forall url, Q (EFetch url)) -> framed (quiet Q) (resolve_identity env input).
Proof.
  intros HQ.
  unfold resolve_identity, fetch_through_proxy, await_fetch, await_json, setStatus.
  frame quiet_leaf.
Qed.

Lemma extract_skin_quiet (env : Env) (sessionData : value) (Q : Event -> Prop) :
  framed (quiet Q) (extract_skin env sessionData).
Proof. unfold extract_skin, setStatus. frame quiet_leaf. Qed.

Lemma load_and_save_appends (env : Env) (playerName skinUrl : value)
    (Q : Event -> Prop) :
  (forall source, Q (ELoadSkin source)) ->
  framed (appends Q) (load_and_save env playerName skinUrl).
Proof.
  intros HQ. unfold load_and_save, await_loadSkin, setItem, setStatus.
  frame appends_leaf.
Qed.

Lemma settle_appends (Q : Event -> Prop) (r : completion unit * State) :
  (forall e, Q (EConsoleError e)) -> appends Q r.2 (settle r).2.
Proof.
  intros HQ. destruct r as [[a| |e] s]; simpl; appends_leaf.
Qed.

Lemma settle_normal (r : completion unit * State) : (settle r).1 = Normal tt.
Proof. destruct r as [[a| |e] s]; reflexivity. Qed.

(** The call is the [try] block run from the started page, then settled. *)
Lemma fetchSkinFromMojang_run (env : Env) (usernameOrUUID : jsstring) (s : State)
    (v : Viewer) :
  viewer s = Some v ->
  nonempty (trim usernameOrUUID) = true ->
  fetchSkinFromMojang env usernameOrUUID s
  = settle (resolver_try env (trim usernameOrUUID) (started s)).
Proof.
  intros Hv Hin.
  unfold fetchSkinFromMojang, function, try_catch_finally, try_catch,
    resolver_catch, resolver_finally, console_error, setStatus, started,
    bind, gets, when, modify, ret, return_.
  rewrite Hv. simpl. rewrite Hin. simpl.
  destruct (resolver_try _ _ _) as [[a| |e] s']; try destruct a; reflexivity.
Qed.

Lemma fetchSkinFromMojang_empty (env : Env) (usernameOrUUID : jsstring) (s : State)
    (v : Viewer) :
  viewer s = Some v ->
  nonempty (trim usernameOrUUID) = false ->
  fetchSkinFromMojang env usernameOrUUID s
  = (Normal tt, set_statusText {| innerHTML := msg_enter_name; color := error_color |} s).
Proof.
  intros Hv Hin.
  unfold fetchSkinFromMojang, function, setStatus, bind, gets, when, modify, ret,
    return_.
  rewrite Hv. simpl. rewrite Hin. reflexivity.
Qed.

Lemma fetchSkinFromMojang_starting (env : Env) (usernameOrUUID : jsstring) (s : State) :
  viewer s = None ->
  fetchSkinFromMojang env usernameOrUUID s
  = (Normal tt, set_statusText {| innerHTML := msg_starting_up; color := error_color |} s).
Proof.
  intros Hv.
  unfold fetchSkinFromMojang, function, setStatus, bind, gets, when, modify, ret,
    return_.
  rewrite Hv. reflexivity.
Qed.

(** No run of the Resolver ends in an uncaught exception. *)
Lemma fetchSkinFromMojang_total (env : Env) (usernameOrUUID : jsstring) (s : State) :
  (fetchSkinFromMojang env usernameOrUUID s).1 = Normal tt.
Proof.
  destruct (viewer s) as [v|] eqn:Hv.
  - destruct (nonempty (trim usernameOrUUID)) eqn:Hin.
    + rewrite (fetchSkinFromMojang_run _ _ _ v Hv Hin). apply settle_normal.
    + rewrite (fetchSkinFromMojang_empty _ _ _ v Hv Hin). reflexivity.
  - rewrite (fetchSkinFromMojang_starting _ _ _ Hv). reflexivity.
Qed.

Lemma fetchSkinFromMojang_keeps_viewer (env : Env) (usernameOrUUID : jsstring) :
  framed same_viewer (fetchSkinFromMojang env usernameOrUUID).
Proof.
  unfold fetchSkinFromMojang, resolver_try, resolver_catch, resolver_finally,
    resolve_identity, fetch_session, extract_skin, load_and_save, fetch_through_proxy,
    await_fetch, await_json, await_loadSkin, setItem, console_error, setStatus.
  frame ltac:(reflexivity).
Qed.

Lemma fetchSkinFromMojang_keeps_acceptance (env : Env) (usernameOrUUID : jsstring) :
  framed same_acceptance (fetchSkinFromMojang env usernameOrUUID).
Proof.
  unfold fetchSkinFromMojang, resolver_try, resolver_catch, resolver_finally,
    resolve_identity, fetch_session, extract_skin, load_and_save, fetch_through_proxy,
    await_fetch, await_json, await_loadSkin, setItem, console_error, setStatus.
  frame ltac:(reflexivity).
Qed.

Lemma resolve_identity_uuid (env : Env) (input : jsstring) (s : State) :
  looks_like_username input = false ->
  resolve_identity env input s = (Normal (VString input, VString input), s).
Proof. intros H. unfold resolve_identity. rewrite H. reflexivity. Qed.

Lemma resolve_identity_unencodable (env : Env) (input : jsstring) (s : State) :
  looks_like_username input = true ->
  encodeURIComponent (mojang_prefix ++ input) = None ->
  resolve_identity env input s = (Throw URIError, s).
Proof.
  intros H E. unfold resolve_identity, fetch_through_proxy. rewrite H.
  unfold_monad. rewrite E. reflexivity.
Qed.

(** The name lookup is the one event of the first stage. *)
Lemma resolve_identity_trace (env : Env) (input : jsstring) (s : State)
    (encoded : jsstring) :
  looks_like_username input = true ->
  encodeURIComponent (mojang_prefix ++ input) = Some encoded ->
  trace (resolve_identity env input s).2
  = trace s ++ [EFetch (proxy_prefix ++ encoded)].
Proof.
  intros H E. unfold resolve_identity, fetch_through_proxy, await_fetch, await_json.
  rewrite H. unfold_monad. rewrite E.
  destruct (fetch env _) as [r|]; [|reflexivity].
  destruct (response_ok r); simpl.
  - destruct (response_json r) as [pd|]; [|reflexivity].
    destruct (get pd (lit "id")); [reflexivity|].
    destruct (get pd (lit "name")); reflexivity.
  - destruct (response_status r =? 404); reflexivity.
Qed.

(** The profile request is the one event of the second stage, if any. *)
Lemma fetch_session_trace (env : Env) (uuid : value) (s : State) :
  trace (fetch_session env uuid s).2 = trace s
  \/ exists u encoded,
       encodeURIComponent (session_prefix ++ u) = Some encoded
       /\ trace (fetch_session env uuid s).2
          = trace s ++ [EFetch (proxy_prefix ++ encoded)].
Proof.
  unfold fetch_session, fetch_through_proxy, await_fetch, await_json.
  unfold_monad.
  destruct (call_replace_dashes uuid) as [e|u]; [left; reflexivity|].
  destruct (encodeURIComponent (session_prefix ++ u)) as [encoded|] eqn:E;
    [|left; reflexivity].
  right. exists u, encoded. split; [exact E|].
  destruct (fetch env _) as [r|]; [|reflexivity].
  destruct (response_ok r); simpl; [|reflexivity].
  destruct (response_json r); reflexivity.
Qed.

Lemma fetch_session_string_trace (env : Env) (u : jsstring) (s : State)
    (encoded : jsstring) :
  encodeURIComponent (session_prefix ++ remove_dashes u) = Some encoded ->
  trace (fetch_session env (VString u) s).2
  = trace s ++ [EFetch (proxy_prefix ++ encoded)].
Proof.
  intros E. unfold fetch_session, fetch_through_proxy, await_fetch, await_json.
  unfold_monad. unfold call_replace_dashes. cbv beta iota. rewrite E.
  destruct (fetch env _) as [r|]; [|reflexivity].
  destruct (response_ok r); simpl; [|reflexivity].
  destruct (response_json r); reflexivity.
Qed.

Lemma fetch_session_ok (env : Env) (uuid : jsstring) (s : State)
    (encoded : jsstring) (r : Response) (sessionData : value) :
  encodeURIComponent (session_prefix ++ remove_dashes uuid) = Some encoded ->
  fetch env (proxy_prefix ++ encoded) = Some r ->
  response_ok r = true ->
  response_json r = Some sessionData ->
  fetch_session env (VString uuid) s
  = (Normal sessionData, log (EFetch (proxy_prefix ++ encoded)) s).
Proof.
  intros E Hf Hok Hj. unfold fetch_session, fetch_through_proxy, await_fetch, await_json.
  unfold_monad. unfold call_replace_dashes. cbv beta iota.
  rewrite E. cbv beta iota. rewrite Hf, Hok. cbn [negb]. rewrite Hj. reflexivity.
Qed.

(** After the profile request the Resolver asks for nothing more. *)
Lemma after_session_no_fetch (env : Env) (sessionData : value) :
  framed (appends not_fetch)
    (let* '(playerName, skinUrl) := extract_skin env sessionData in
     load_and_save env playerName skinUrl).
Proof.
  apply framed_bind; [typeclasses eauto| |].
  - intros s. apply quiet_appends. apply extract_skin_quiet.
  - intros [playerName skinUrl]. apply load_and_save_appends. reflexivity.
Qed.

(** *** The Loader: the writes come after the load *)

(** Statements that come after [await viewer.loadSkin(source)] run only
    when the call resolved. *)
Lemma guarded_by_loadSkin (env : Env) (source : value) (k : M unit) :
  framed (appends any_event) k ->
  framed (writes_after_load env) (await_loadSkin env source >> k).
Proof.
  intros Hk s. unfold await_loadSkin. unfold_monad.
  destruct (viewer s); [|writes_leaf].
  destruct (loadSkin env source) eqn:Hload; [|writes_leaf].
  destruct (Hk (log (ELoadSkin source) s)) as [evs [T _]].
  exists (ELoadSkin source :: evs). split.
  - rewrite T. simpl. rewrite <- app_assoc. reflexivity.
  - right. exists source. split; [left; reflexivity | exact Hload].
Qed.

Lemma load_and_save_writes (env : Env) (playerName skinUrl : value) :
  framed (writes_after_load env) (load_and_save env playerName skinUrl).
Proof.
  unfold load_and_save. apply guarded_by_loadSkin.
  unfold setItem, setStatus. frame appends_leaf.
Qed.

Lemma fetchSkinFromMojang_writes (env : Env) (usernameOrUUID : jsstring) :
  framed (writes_after_load env) (fetchSkinFromMojang env usernameOrUUID).
Proof.
  unfold fetchSkinFromMojang, resolver_try, resolver_catch, resolver_finally,
    resolve_identity, fetch_session, extract_skin, fetch_through_proxy,
    await_fetch, await_json, console_error, setStatus.
  frame ltac:(first [apply load_and_save_writes | writes_leaf]).
Qed.

Lemma reader_onload_writes (env : Env) (skinData : jsstring) :
  framed (writes_after_load env) (reader_onload env skinData).
Proof.
  unfold reader_onload.
  frame_rule @framed_function.
  frame_rule @framed_try_catch.
  - apply guarded_by_loadSkin. unfold setItem, removeItem, setStatus.
    frame appends_leaf.
  - intros e. unfold console_error, setStatus. frame writes_leaf.
Qed.

Lemma readSkinFile_writes (env : Env) (file : option File) :
  framed (writes_after_load env) (readSkinFile env file).
Proof.
  unfold readSkinFile, reader_onerror, setStatus.
  frame ltac:(first [apply reader_onload_writes | writes_leaf]).
Qed.

Lemma rejected_load_keeps_storage (env : Env) (s after : State) :
  writes_after_load env s after ->
  loadSkin_rejected env s after ->
  localStorage after = localStorage s.
Proof.
  intros (evs & T & [Same | (source & Hin & Hload)]) Hrej; [exact Same|].
  unfold loadSkin_rejected in Hrej. rewrite (new_events_app _ _ _ T) in Hrej.
  rewrite (Hrej source Hin) in Hload. discriminate.
Qed.

(** *** Runs from two like pages *)

Lemma apply_writes_app (ws1 ws2 : list (jsstring * jsstring))
    (m : gmap jsstring jsstring) :
  apply_writes (ws1 ++ ws2) m = apply_writes ws2 (apply_writes ws1 m).
Proof. unfold apply_writes. apply fold_left_app. Qed.

Lemma lookup_apply_writes (ws : list (jsstring * jsstring))
    (m : gmap jsstring jsstring) (k : jsstring) :
  apply_writes ws m !! k
  = match written k ws with
    | Some x => Some x
    | None => m !! k
    end.
Proof.
  revert m. induction ws as [|w ws IH]; intros m; [reflexivity|].
  change (apply_writes (w :: ws) m) with (apply_writes ws (<[w.1 := w.2]> m)).
  rewrite IH. simpl. destruct (written k ws); [reflexivity|].
  rewrite lookup_insert. destruct (decide (w.1 = k)); reflexivity.
Qed.

(** Writing the same again changes nothing. *)
Lemma apply_writes_twice (ws : list (jsstring * jsstring))
    (m : gmap jsstring jsstring) :
  apply_writes ws (apply_writes ws m) = apply_writes ws m.
Proof.
  apply map_eq. intros k. rewrite (lookup_apply_writes ws (apply_writes ws m)).
  destruct (written k ws) as [x|] eqn:H; [|reflexivity].
  rewrite lookup_apply_writes, H. reflexivity.
Qed.

Lemma same_effect_refl (s t : State) : same_effect s t s t.
Proof. exists [], []. rewrite !app_nil_r. auto. Qed.

Lemma same_effect_trans (s t s1 t1 s2 t2 : State) :
  same_effect s t s1 t1 -> same_effect s1 t1 s2 t2 -> same_effect s t s2 t2.
Proof.
  intros (e1 & w1 & A1 & B1 & C1 & D1) (e2 & w2 & A2 & B2 & C2 & D2).
  exists (e1 ++ e2), (w1 ++ w2). rewrite !apply_writes_app, !app_assoc.
  repeat split; congruence.
Qed.

Lemma blind_ret {A} (a : A) : state_blind (ret a).
Proof. intros s t H. split; [reflexivity|]. split; [exact H | apply same_effect_refl]. Qed.

Lemma blind_return {A} : state_blind (@return_ A).
Proof. intros s t H. split; [reflexivity|]. split; [exact H | apply same_effect_refl]. Qed.

Lemma blind_throw {A} (e : exn) : state_blind (@throw A e).
Proof. intros s t H. split; [reflexivity|]. split; [exact H | apply same_effect_refl]. Qed.

Lemma blind_lift_sum {A} (r : exn + A) : state_blind (lift_sum r).
Proof. destruct r; [apply blind_throw | apply blind_ret]. Qed.

Lemma blind_lift_option {A} (e : exn) (o : option A) : state_blind (lift_option e o).
Proof. destruct o; [apply blind_ret | apply blind_throw]. Qed.

Lemma blind_viewer : state_blind (gets viewer).
Proof.
  intros s t H. split; [|split; [exact H | apply same_effect_refl]].
  simpl. destruct H as [-> _]. reflexivity.
Qed.

Lemma blind_bind {A B} (m : M A) (k : A -> M B) :
  state_blind m -> (forall a, state_blind (k a)) -> state_blind (bind m k).
Proof.
  intros Hm Hk s t H. unfold bind. destruct (Hm s t H) as (Hc & Hs & He).
  destruct (m s) as [c s1], (m t) as [c' t1]. simpl in *. subst c'.
  destruct c as [a| |e]; [|auto..].
  destruct (Hk a s1 t1 Hs) as (Hc' & Hs' & He').
  split; [exact Hc'|]. split; [exact Hs'|]. eapply same_effect_trans; eassumption.
Qed.

Lemma blind_when (b : bool) (m : M unit) : state_blind m -> state_blind (when b m).
Proof. intros H. destruct b; [exact H | apply blind_ret]. Qed.

Lemma blind_setStatus (message : jsstring) (isError : bool) :
  state_blind (setStatus message isError).
Proof.
  intros s t (Hv & _ & Hb & Ha). split; [reflexivity|]. split.
  - repeat split; assumption.
  - exists [], []. simpl. rewrite !app_nil_r. auto.
Qed.

Lemma blind_log (e : Event) : state_blind (modify (log e)).
Proof.
  intros s t H. split; [reflexivity|]. split; [exact H|].
  exists [e], []. simpl. auto.
Qed.

Lemma blind_setItem (env : Env) (key : jsstring) (v : value) :
  state_blind (setItem env key v).
Proof.
  unfold setItem. apply blind_bind; [apply blind_lift_option|].
  intros str s t H. pose proof H as (_ & _ & _ & Ha).
  unfold bind, gets. cbn [fst snd]. rewrite Ha.
  destruct (storage_accepts t key str); [|apply blind_throw; exact H].
  split; [reflexivity|]. split; [exact H|].
  exists [], [(key, str)]. simpl. rewrite !app_nil_r. auto.
Qed.

Lemma blind_await_loadSkin (env : Env) (source : value) :
  state_blind (await_loadSkin env source).
Proof.
  unfold await_loadSkin. apply blind_bind; [apply blind_viewer|].
  intros [v|]; [|apply blind_throw].
  apply blind_bind; [apply blind_log|]. intros _.
  destruct (loadSkin env source); [apply blind_ret | apply blind_throw].
Qed.

Ltac blind_step :=
  match goal with
  | |- state_blind (bind _ _) => apply blind_bind; [|intros ?]
  | |- state_blind (ret _) => apply blind_ret
  | |- state_blind return_ => apply blind_return
  | |- state_blind (throw _) => apply blind_throw
  | |- state_blind (lift_sum _) => apply blind_lift_sum
  | |- state_blind (lift_option _ _) => apply blind_lift_option
  | |- state_blind (when _ _) => apply blind_when
  | |- state_blind (setStatus _ _) => apply blind_setStatus
  | |- state_blind (modify (log _)) => apply blind_log
  | |- state_blind (setItem _ _ _) => apply blind_setItem
  | |- state_blind (await_loadSkin _ _) => apply blind_await_loadSkin
  | |- state_blind (if ?b then _ else _) => destruct b
  | |- state_blind (match ?x with _ => _ end) => destruct x
  end.

(** The [try] block cannot tell two like pages apart. *)
Lemma resolver_try_blind (env : Env) (input : jsstring) :
  state_blind (resolver_try env input).
Proof.
  unfold resolver_try, resolve_identity, fetch_session, extract_skin, load_and_save,
    fetch_through_proxy, await_fetch, await_json.
  repeat blind_step.
Qed.

(** *** C1: the requests of the Resolver *)

(** C1 as stated fails on an input that is not a well-formed UTF-16
    string: [encodeURIComponent] throws before any request is made. *)
Lemma lone_surrogate_no_lookup :
  let after := (fetchSkinFromMojang (notch_world true) lone_surrogate ready_page).2 in
  re_match re_uuid32 (trim lone_surrogate) = false
  /\ re_match re_uuid_dashed (trim lone_surrogate) = false
  /\ nonempty (trim lone_surrogate) = true
  /\ new_events ready_page after = [EConsoleError URIError]
  /\ requests ready_page after = [].
Proof. vm_compute. repeat split; reflexivity. Qed.

(** C1, amended. With the viewer running: an input that matches the
    32-hex or the dashed pattern makes the profile request and no other;
    any other non-empty input that is a well-formed UTF-16 string makes the
    name lookup first, then at most one request, the profile one. *)
Theorem resolver_requests (env : Env) (usernameOrUUID : jsstring) (s : State)
    (v : Viewer) :
  viewer s = Some v ->
  let input := trim usernameOrUUID in
  let after := (fetchSkinFromMojang env usernameOrUUID s).2 in
  (re_match re_uuid32 input = true \/ re_match re_uuid_dashed input = true ->
   exists encoded rest,
     encodeURIComponent (session_prefix ++ remove_dashes input) = Some encoded
     /\ new_events s after = EFetch (proxy_prefix ++ encoded) :: rest
     /\ Forall not_fetch rest)
  /\ (re_match re_uuid32 input = false -> re_match re_uuid_dashed input = false ->
      nonempty input = true -> isWellFormed input = true ->
      exists encoded rest,
        encodeURIComponent (mojang_prefix ++ input) = Some encoded
        /\ new_events s after = EFetch (proxy_prefix ++ encoded) :: rest
        /\ (Forall not_fetch rest
            \/ exists uuid encoded' rest',
                 encodeURIComponent (session_prefix ++ uuid) = Some encoded'
                 /\ rest = EFetch (proxy_prefix ++ encoded') :: rest'
                 /\ Forall not_fetch rest')).
Proof.
  intros Hv input after. subst after. split.
  - intros Hre. apply looks_like_username_false in Hre.
    rewrite (fetchSkinFromMojang_run _ _ _ v Hv (uuid_nonempty _ Hre)). fold input.
    destruct (session_url_encodable _ Hre) as [encoded E]. exists encoded.
    set (r := resolver_try env input (started s)).
    assert (Hr : appends not_fetch (log (EFetch (proxy_prefix ++ encoded)) (started s)) r.2).
    { subst r. unfold resolver_try. unfold bind at 1.
      rewrite (resolve_identity_uuid _ _ _ Hre).
      pose proof (bind_tail (appends not_fetch) (fetch_session env (VString input))
        _ (started s) (after_session_no_fetch env)) as [evs [T F]].
      exists evs. split; [|exact F]. rewrite T.
      rewrite (fetch_session_string_trace _ _ _ _ E). reflexivity. }
    destruct Hr as [e1 [T1 F1]].
    destruct (settle_appends not_fetch r) as [e2 [T2 F2]]; [reflexivity|].
    exists (e1 ++ e2). split; [exact E|]. split; [|apply Forall_app; auto].
    apply new_events_app. rewrite T2, T1. simpl. rewrite <- !app_assoc. reflexivity.
  - intros H32 Hd Hin Hwf. pose proof (looks_like_username_true _ H32 Hd) as Hre.
    rewrite (fetchSkinFromMojang_run _ _ _ v Hv Hin). fold input.
    destruct (lookup_url_encodable _ Hwf) as [encoded E]. exists encoded.
    pose proof (resolve_identity_trace env input (started s) encoded Hre E) as T0.
    unfold resolver_try, bind at 1.
    destruct (resolve_identity env input (started s)) as [[[uuid name]| |e] s1];
      simpl in T0; cbv beta iota.
    + set (r := bind (fetch_session env uuid) _ s1).
      destruct (settle_appends not_fetch r) as [e2 [T2 F2]]; [reflexivity|].
      pose proof (bind_tail (appends not_fetch) (fetch_session env uuid)
        _ s1 (after_session_no_fetch env)) as [e1 [T1 F1]]. fold r in T1.
      destruct (fetch_session_trace env uuid s1) as [T | (u & encoded' & E' & T)].
      * exists (e1 ++ e2). split; [exact E|]. split; [|left; apply Forall_app; auto].
        apply new_events_app. rewrite T2, T1, T, T0. simpl.
        rewrite <- !app_assoc. reflexivity.
      * exists (EFetch (proxy_prefix ++ encoded') :: e1 ++ e2).
        split; [exact E|]. split.
        -- apply new_events_app. rewrite T2, T1, T, T0. simpl.
           rewrite <- !app_assoc. reflexivity.
        -- right. exists u, encoded', (e1 ++ e2).
           split; [exact E'|]. split; [reflexivity | apply Forall_app; auto].
    + exists []. split; [exact E|]. split; [|left; constructor].
      apply new_events_app. simpl. exact T0.
    + exists [EConsoleError e]. split; [exact E|].
      split; [|left; repeat constructor].
      apply new_events_app. simpl. rewrite T0. simpl.
      rewrite <- !app_assoc. reflexivity.
Qed.

Lemma resolver_requests_witness :
  (exists encoded rest,
     encodeURIComponent (session_prefix ++ remove_dashes (trim notch_uuid)) = Some encoded
     /\ new_events ready_page
          (fetchSkinFromMojang (notch_world true) notch_uuid ready_page).2
        = EFetch (proxy_prefix ++ encoded) :: rest
     /\ Forall not_fetch rest)
  /\ (exists encoded rest,
        encodeURIComponent (mojang_prefix ++ trim (lit "Notch")) = Some encoded
        /\ new_events ready_page
             (fetchSkinFromMojang (notch_world true) (lit "Notch") ready_page).2
           = EFetch (proxy_prefix ++ encoded) :: rest
        /\ (Forall not_fetch rest
            \/ exists uuid encoded' rest',
                 encodeURIComponent (session_prefix ++ uuid) = Some encoded'
                 /\ rest = EFetch (proxy_prefix ++ encoded') :: rest'
                 /\ Forall not_fetch rest')).
Proof.
  split.
  - apply (resolver_requests (notch_world true) notch_uuid ready_page fresh_viewer
             eq_refl).
    left. reflexivity.
  - apply (resolver_requests (notch_world true) (lit "Notch") ready_page fresh_viewer
             eq_refl); reflexivity.
Defined.

(** *** C2: a texture descriptor without a skin URL *)

Lemma get_defined (v : value) (k k' : jsstring) (x : value) :
  get v k = inr x -> exists y, get v k' = inr y.
Proof.
  destruct v; simpl; try discriminate; eauto.
  intros _. destruct (own_property k' props); eauto.
Qed.

(** A descriptor that lacks the URL makes line 78 either throw (no
    [textures] member to read [SKIN] from) or give a falsy value. *)
Lemma lacking_skin_url (texturesJson : value) :
  lacks_skin_url texturesJson = true ->
  if has_textures_member texturesJson
  then exists url, skin_url texturesJson = inr url /\ truthy url = false
  else skin_url texturesJson = inl TypeError.
Proof.
  unfold lacks_skin_url, has_textures_member, skin_url, field_at.
  destruct texturesJson as [| | | | | |props]; try (intros _; reflexivity).
  cbn [get]. destruct (own_property (lit "textures") props) as [t|];
    [|intros _; reflexivity].
  destruct t as [| | | | | |props2];
    try (intros _; reflexivity);
    try (intros _; exists VUndefined; split; reflexivity).
  cbn [get nullish negb].
  destruct (own_property (lit "SKIN") props2) as [sk|];
    [|intros _; exists VUndefined; split; reflexivity].
  destruct sk as [| | | | | |props3];
    try (intros _; exists VUndefined; split; reflexivity).
  cbn [get_optional get].
  destruct (own_property (lit "url") props3) as [u|];
    [|intros _; exists VUndefined; split; reflexivity].
  intros H. exists u. split; [reflexivity|]. apply negb_true_iff, H.
Qed.

(** Lines 68-83 on a descriptor that lacks the URL. *)
Lemma extract_skin_lacking (env : Env) (sessionData texturesProperty texturesJson : value)
    (s : State) :
  find_textures_property sessionData = inr texturesProperty ->
  truthy texturesProperty = true ->
  decode_textures env texturesProperty = inr texturesJson ->
  lacks_skin_url texturesJson = true ->
  extract_skin env sessionData s
  = if has_textures_member texturesJson
    then (Return, set_statusText {| innerHTML := msg_no_skin; color := error_color |} s)
    else (Throw TypeError, s).
Proof.
  intros Hfind Htp Hdec Hlack.
  assert (exists n, get sessionData (lit "name") = inr n) as [n Hn].
  { unfold find_textures_property in Hfind.
    destruct (get sessionData (lit "properties")) as [e|p] eqn:Hp; [discriminate|].
    eapply get_defined, Hp. }
  pose proof (lacking_skin_url _ Hlack) as Hurl.
  unfold extract_skin. unfold_monad. rewrite Hn, Hfind, Htp. cbn [negb].
  rewrite Hdec. cbv beta iota.
  destruct (has_textures_member texturesJson).
  - destruct Hurl as [url [-> Hfalsy]]. rewrite Hfalsy. reflexivity.
  - rewrite Hurl. reflexivity.
Qed.

(** C2 as stated fails for the descriptor [{}]: the URL is absent,
    and the message is the generic one of the [catch] block. *)
Lemma empty_descriptor_generic_error :
  let run := fetchSkinFromMojang empty_descriptor_world notch_uuid ready_page in
  lacks_skin_url (VObject []) = true
  /\ decode_textures empty_descriptor_world
       (VObject [(lit "name", VString (lit "textures"));
                 (lit "value", VString (lit "e30="))])
     = inr (VObject [])
  /\ innerHTML (statusText run.2) = msg_fetch_error
  /\ innerHTML (statusText run.2) <> msg_no_skin
  /\ new_events ready_page run.2
     = [EFetch (through_proxy (session_prefix ++ notch_uuid));
        EConsoleError TypeError].
Proof. vm_compute. repeat split; try reflexivity. discriminate. Qed.

(** C2, amended. When the session profile has a [textures] property whose
    value decodes to JSON that lacks the skin URL, the call ends normally
    with an error in the status line, the renderer is not called and the
    storage is as it was. The message is the no-skin one when the JSON has
    a [textures] member other than [null]; without such a member the read
    of line 78 throws and the message is the generic one. *)
Theorem no_skin_url_is_terminal (env : Env) (usernameOrUUID : jsstring) (s s1 : State)
    (v : Viewer) (uuid : jsstring) (name : value) (encoded : jsstring)
    (r : Response) (sessionData texturesProperty texturesJson : value) :
  viewer s = Some v ->
  let input := trim usernameOrUUID in
  let run := fetchSkinFromMojang env usernameOrUUID s in
  nonempty input = true ->
  resolve_identity env input (started s) = (Normal (VString uuid, name), s1) ->
  encodeURIComponent (session_prefix ++ remove_dashes uuid) = Some encoded ->
  fetch env (proxy_prefix ++ encoded) = Some r ->
  response_ok r = true ->
  response_json r = Some sessionData ->
  find_textures_property sessionData = inr texturesProperty ->
  truthy texturesProperty = true ->
  decode_textures env texturesProperty = inr texturesJson ->
  lacks_skin_url texturesJson = true ->
  run.1 = Normal tt
  /\ Forall not_loadSkin (new_events s run.2)
  /\ localStorage run.2 = localStorage s
  /\ color (statusText run.2) = error_color
  /\ innerHTML (statusText run.2)
     = if has_textures_member texturesJson then msg_no_skin else msg_fetch_error.
Proof.
  intros Hv input run Hin H1 E Hf Hok Hj Hfind Htp Hdec Hlack. subst run.
  rewrite (fetchSkinFromMojang_run _ _ _ v Hv Hin). fold input.
  pose proof (resolve_identity_quiet env input not_loadSkin
    ltac:(reflexivity) (started s)) as (_ & HL & _ & evs & HT & HQ).
  rewrite H1 in HL, HT. simpl in HL, HT.
  assert (Hrun : resolver_try env input (started s)
    = if has_textures_member texturesJson
      then (Return, set_statusText {| innerHTML := msg_no_skin; color := error_color |}
                      (log (EFetch (proxy_prefix ++ encoded)) s1))
      else (Throw TypeError, log (EFetch (proxy_prefix ++ encoded)) s1)).
  { unfold resolver_try, bind. rewrite H1.
    rewrite (fetch_session_ok _ _ _ _ _ _ E Hf Hok Hj).
    rewrite (extract_skin_lacking _ _ _ _ _ Hfind Htp Hdec Hlack).
    destruct (has_textures_member texturesJson); reflexivity. }
  rewrite Hrun.
  destruct (has_textures_member texturesJson); simpl.
  - repeat split; [|exact HL].
    erewrite new_events_app;
      [|simpl; rewrite HT; rewrite <- app_assoc; reflexivity].
    apply Forall_app. split; [exact HQ | repeat constructor].
  - repeat split; [|exact HL].
    erewrite new_events_app;
      [|simpl; rewrite HT; rewrite <- !app_assoc; reflexivity].
    apply Forall_app. split; [exact HQ | repeat constructor].
Qed.

Lemma no_skin_url_is_terminal_witness :
  let run := fetchSkinFromMojang no_skin_world notch_uuid ready_page in
  run.1 = Normal tt
  /\ Forall not_loadSkin (new_events ready_page run.2)
  /\ localStorage run.2 = localStorage ready_page
  /\ color (statusText run.2) = error_color
  /\ innerHTML (statusText run.2) = msg_no_skin.
Proof.
  apply (no_skin_url_is_terminal no_skin_world notch_uuid ready_page
           (started ready_page) fresh_viewer notch_uuid (VString notch_uuid)
           (default [] (encodeURIComponent (session_prefix ++ notch_uuid)))
           (session_profile (lit "eyJ0ZXh0dXJlcyI6e319"))
           (VObject
              [(lit "id", VString notch_uuid);
               (lit "name", VString (lit "Notch"));
               (lit "properties", VArray
                  [VObject [(lit "name", VString (lit "textures"));
                            (lit "value", VString (lit "eyJ0ZXh0dXJlcyI6e319"))]])])
           (VObject [(lit "name", VString (lit "textures"));
                     (lit "value", VString (lit "eyJ0ZXh0dXJlcyI6e319"))])
           (VObject [(lit "textures", VObject [])]));
    reflexivity.
Defined.

(** *** C3: a rejected load leaves the storage alone *)

(** C3. An interactive load, by name or by file, whose [loadSkin] call is
    rejected leaves the whole storage, so both keys, as it was: the writes
    come after the call and run only when it resolved. *)
Theorem rejected_load_leaves_storage (env : Env) (s : State) :
  (forall usernameOrUUID,
     let after := (fetchSkinFromMojang env usernameOrUUID s).2 in
     loadSkin_rejected env s after ->
     localStorage after = localStorage s
     /\ localStorage after !! key_currentSkin = localStorage s !! key_currentSkin
     /\ localStorage after !! key_currentPlayerName
        = localStorage s !! key_currentPlayerName)
  /\ (forall file,
        let after := (readSkinFile env file s).2 in
        loadSkin_rejected env s after ->
        localStorage after = localStorage s
        /\ localStorage after !! key_currentSkin = localStorage s !! key_currentSkin
        /\ localStorage after !! key_currentPlayerName
           = localStorage s !! key_currentPlayerName).
Proof.
  split.
  - intros usernameOrUUID after Hrej.
    assert (H : localStorage after = localStorage s).
    { eapply rejected_load_keeps_storage; [|exact Hrej].
      apply fetchSkinFromMojang_writes. }
    rewrite H. auto.
  - intros file after Hrej.
    assert (H : localStorage after = localStorage s).
    { eapply rejected_load_keeps_storage; [|exact Hrej].
      apply readSkinFile_writes. }
    rewrite H. auto.
Qed.

Lemma rejected_load_leaves_storage_witness :
  (let after := (fetchSkinFromMojang (notch_world false) (lit "Notch") visited_page).2 in
   In (ELoadSkin (VString notch_skin)) (new_events visited_page after)
   /\ localStorage after = localStorage visited_page
   /\ localStorage after !! key_currentSkin = localStorage visited_page !! key_currentSkin
   /\ localStorage after !! key_currentPlayerName
      = localStorage visited_page !! key_currentPlayerName)
  /\ (let after := (readSkinFile (file_world false) (Some small_png) visited_page).2 in
      In (ELoadSkin (VString (lit "data:image/png;base64,iVBORw0KGgo=")))
         (new_events visited_page after)
      /\ localStorage after = localStorage visited_page
      /\ localStorage after !! key_currentSkin = localStorage visited_page !! key_currentSkin
      /\ localStorage after !! key_currentPlayerName
         = localStorage visited_page !! key_currentPlayerName).
Proof.
  split.
  - split; [vm_compute; auto|].
    apply (proj1 (rejected_load_leaves_storage (notch_world false) visited_page)
             (lit "Notch")).
    intros source _. reflexivity.
  - split; [vm_compute; auto|].
    apply (proj2 (rejected_load_leaves_storage (file_world false) visited_page)
             (Some small_png)).
    intros source _. reflexivity.
Defined.

(** *** C4: a 404 from the name lookup *)

(** C4. When the name lookup answers 404 the status line shows the
    not-found message, which is not the generic failure message, in the
    error colour; the lookup is the only request of the run (no profile
    call), and the call ends normally. *)
Theorem lookup_404_not_found (env : Env) (usernameOrUUID : jsstring) (s : State)
    (v : Viewer) (encoded : jsstring) (r : Response) :
  viewer s = Some v ->
  let input := trim usernameOrUUID in
  let run := fetchSkinFromMojang env usernameOrUUID s in
  nonempty input = true ->
  looks_like_username input = true ->
  encodeURIComponent (mojang_prefix ++ input) = Some encoded ->
  fetch env (proxy_prefix ++ encoded) = Some r ->
  response_status r = 404 ->
  run.1 = Normal tt
  /\ statusText run.2 = {| innerHTML := msg_not_found input; color := error_color |}
  /\ msg_not_found input <> msg_profile_failed
  /\ new_events s run.2 = [EFetch (proxy_prefix ++ encoded)]
  /\ localStorage run.2 = localStorage s.
Proof.
  intros Hv input run Hin Hre E Hf H404. subst run.
  rewrite (fetchSkinFromMojang_run _ _ _ v Hv Hin). fold input.
  unfold resolver_try, resolve_identity, fetch_through_proxy, await_fetch.
  rewrite Hre. unfold_monad. rewrite E. cbv beta iota. rewrite Hf.
  unfold response_ok. rewrite H404. cbn.
  repeat split.
  - apply msg_not_found_distinct.
  - apply new_events_app. reflexivity.
Qed.

Lemma lookup_404_not_found_witness :
  let run := fetchSkinFromMojang unknown_player_world (lit "Nobody") ready_page in
  run.1 = Normal tt
  /\ statusText run.2
     = {| innerHTML := msg_not_found (trim (lit "Nobody")); color := error_color |}
  /\ msg_not_found (trim (lit "Nobody")) <> msg_profile_failed
  /\ new_events ready_page run.2
     = [EFetch (proxy_prefix ++ lit "https%3A%2F%2Fapi.mojang.com%2Fusers%2Fprofiles%2Fminecraft%2FNobody")]
  /\ localStorage run.2 = localStorage ready_page.
Proof.
  apply (lookup_404_not_found unknown_player_world (lit "Nobody") ready_page
           fresh_viewer _ {| response_status := 404; response_json := None |});
    reflexivity.
Defined.

(** *** C5: a stale skin at start-up *)

(** C5. At start-up, when the storage holds a skin and loading it fails,
    [initializeViewer] ends normally with both keys removed and the ready
    message in the status line; the one call to the outside world is the
    failed [loadSkin]. *)
Theorem stale_skin_is_cleared (env : Env) (s : State) (v : Viewer) (skin : jsstring) :
  SkinViewer_new env = Some v ->
  localStorage s !! key_currentSkin = Some skin ->
  nonempty skin = true ->
  loadSkin env (VString skin) = false ->
  let run := initializeViewer env s in
  run.1 = Normal tt
  /\ localStorage run.2
     = delete key_currentPlayerName (delete key_currentSkin (localStorage s))
  /\ localStorage run.2 !! key_currentSkin = None
  /\ localStorage run.2 !! key_currentPlayerName = None
  /\ statusText run.2 = {| innerHTML := msg_ready; color := muted_color |}
  /\ new_events s run.2 = [ELoadSkin (VString skin)].
Proof.
  intros Hnew Hskin Hne Hload run. subst run.
  unfold initializeViewer, await_loadSkin, update_viewer, getItem, removeItem, if_item.
  unfold_monad. rewrite Hnew. run_state.
  destruct (controls v); run_state;
    destruct (not_false _); run_state;
    destruct (animationToggle s) eqn:Ht; run_state;
    rewrite Hskin, Hne; run_state; rewrite Hload; run_state.
  all: repeat split.
  all: try (apply new_events_app; reflexivity).
  all: try (rewrite lookup_delete_ne by (symmetry; apply keys_distinct);
            apply lookup_delete_eq).
  all: try apply lookup_delete_eq.
Qed.

Lemma stale_skin_is_cleared_witness :
  let run := initializeViewer (notch_world false) returning_page in
  run.1 = Normal tt
  /\ localStorage run.2
     = delete key_currentPlayerName
         (delete key_currentSkin (localStorage returning_page))
  /\ localStorage run.2 !! key_currentSkin = None
  /\ localStorage run.2 !! key_currentPlayerName = None
  /\ statusText run.2 = {| innerHTML := msg_ready; color := muted_color |}
  /\ new_events returning_page run.2 = [ELoadSkin (VString notch_skin)].
Proof.
  apply (stale_skin_is_cleared (notch_world false) returning_page fresh_viewer
           notch_skin); reflexivity.
Defined.

(** *** C6: the size ceiling *)

(** C6 as stated fails for a large file that is not a PNG: the
    PNG check comes first and its message is the one shown. *)
Lemma large_jpeg_png_error :
  let run := readSkinFile (file_world true) (Some large_jpeg) ready_page in
  5 * 1024 * 1024 < file_size large_jpeg
  /\ statusText run.2 = {| innerHTML := msg_select_png; color := error_color |}
  /\ innerHTML (statusText run.2) <> msg_too_large.
Proof. vm_compute. repeat split; discriminate. Qed.

(** C6, amended. With the viewer running, a file over 5 MiB is rejected
    with an error in the status line, before any read and with the storage
    as it was; the error is the size one when the file passes the PNG
    check. A file of at most 5 MiB passes the size check, and when it is a
    PNG its read is started. *)
Theorem oversized_file_rejected (env : Env) (s : State) (v : Viewer) (file : File) :
  viewer s = Some v ->
  let run := readSkinFile env (Some file) s in
  (5 * 1024 * 1024 < file_size file ->
   run.1 = Normal tt
   /\ color (statusText run.2) = error_color
   /\ new_events s run.2 = []
   /\ localStorage run.2 = localStorage s
   /\ (isPNG file = true ->
       run = (Normal tt,
              set_statusText {| innerHTML := msg_too_large; color := error_color |} s)))
  /\ (file_size file <= 5 * 1024 * 1024 ->
      too_large file = false
      /\ (isPNG file = true ->
          exists rest, new_events s run.2 = EReadAsDataURL file :: rest)).
Proof.
  intros Hv run. subst run. split.
  - intros Hsize. apply too_large_iff in Hsize.
    unfold readSkinFile. unfold_monad. rewrite Hv. run_state.
    destruct (isPNG file); run_state.
    + rewrite Hsize. run_state. repeat split.
      apply new_events_app. symmetry. apply app_nil_r.
    + repeat split; [|discriminate].
      apply new_events_app. symmetry. apply app_nil_r.
  - intros Hsize.
    assert (Hsmall : too_large file = false).
    { unfold too_large. apply N.ltb_ge. exact Hsize. }
    split; [exact Hsmall|]. intros Hpng.
    pose proof (reader_onload_writes env) as Hload.
    unfold readSkinFile, reader_onerror. unfold_monad. rewrite Hv. run_state.
    rewrite Hpng, Hsmall. run_state.
    destruct (readAsDataURL env file) as [skinData|].
    + destruct (Hload skinData (log (EReadAsDataURL file)
        (set_statusText {| innerHTML := msg_loading; color := muted_color |} s)))
        as [evs [T _]].
      destruct (reader_onload env skinData _) as [[[]| |e] s']; simpl in *.
      all: exists evs; apply new_events_app; rewrite T, <- app_assoc; reflexivity.
    + exists []. apply new_events_app. reflexivity.
Qed.

Lemma oversized_file_rejected_witness :
  let run := readSkinFile (file_world true) (Some large_png) visited_page in
  run.1 = Normal tt
  /\ color (statusText run.2) = error_color
  /\ new_events visited_page run.2 = []
  /\ localStorage run.2 = localStorage visited_page
  /\ (isPNG large_png = true ->
      run = (Normal tt,
             set_statusText {| innerHTML := msg_too_large; color := error_color |}
               visited_page)).
Proof.
  apply (proj1 (oversized_file_rejected (file_world true) visited_page fresh_viewer
                  large_png eq_refl)).
  reflexivity.
Defined.

(** *** C7: the animation preference *)

(** The listener with a viewer in place: the animation is set first, then
    the preference is written, if the storage area takes it. *)
Lemma toggle_animation_run (env : Env) (checked : bool) (s : State) (v : Viewer) :
  viewer s = Some v ->
  let animated :=
    set_viewer
      (Some (set_animation (if checked then Some walking_animation else None) v))
      (set_animationToggle (Some checked) s) in
  toggle_animation env checked s
  = if storage_accepts s key_animationEnabled
         (if checked then lit "true" else lit "false")
    then (Normal tt,
          set_localStorage
            (<[key_animationEnabled := if checked then lit "true" else lit "false"]>
               (localStorage s))
            animated)
    else (Throw QuotaExceededError, animated).
Proof.
  intros Hv animated. subst animated.
  unfold toggle_animation, animationToggle_onchange, update_viewer, setItem.
  unfold_monad. run_state. rewrite Hv. run_state.
  destruct checked; run_state; rewrite Hv; cbn [ToString]; run_state;
    destruct (storage_accepts s key_animationEnabled _); reflexivity.
Qed.






(** *** C8: the Resolver run twice *)

Lemma resolver_try_resolve (env : Env) (input : jsstring) (s : State) :
  resolver_try env input s
  = (let* '(playerName, skinUrl) := resolve env input in
     load_and_save env playerName skinUrl) s.
Proof.
  unfold resolver_try, resolve, bind.
  destruct (resolve_identity env input s) as [[[uuid name]| |e] s1]; try reflexivity.
  destruct (fetch_session env uuid s1) as [[sessionData| |e] s2]; reflexivity.
Qed.

Lemma resolve_same_services (env1 env2 : Env) (input : jsstring) :
  fetch env1 = fetch env2 -> atob env1 = atob env2 ->
  JSON_parse env1 = JSON_parse env2 -> Number_toString env1 = Number_toString env2 ->
  resolve env1 input = resolve env2 input.
Proof.
  intros Hf Ha Hj Hn.
  unfold resolve, resolve_identity, fetch_session, extract_skin, fetch_through_proxy,
    await_fetch, decode_textures.
  rewrite Hf, Ha, Hj, Hn. reflexivity.
Qed.

Lemma resolve_blind (env : Env) (input : jsstring) : state_blind (resolve env input).
Proof.
  unfold resolve, resolve_identity, fetch_session, extract_skin,
    fetch_through_proxy, await_fetch, await_json.
  repeat blind_step.
Qed.

Lemma resolve_quiet (env : Env) (input : jsstring) :
  framed (quiet is_fetch_event) (resolve env input).
Proof.
  unfold resolve, resolve_identity, fetch_session, extract_skin,
    fetch_through_proxy, await_fetch, await_json, setStatus.
  frame quiet_leaf.
Qed.

Lemma resolve_keeps_acceptance (env : Env) (input : jsstring) :
  framed same_acceptance (resolve env input).
Proof.
  unfold resolve, resolve_identity, fetch_session, extract_skin,
    fetch_through_proxy, await_fetch, await_json, setStatus.
  frame ltac:(reflexivity).
Qed.

Lemma calls_fetches (evs : list Event) : Forall is_fetch_event evs -> calls evs = evs.
Proof.
  unfold calls. induction 1 as [|e evs He _ IH]; simpl; [reflexivity|].
  unfold is_call at 1. rewrite He. simpl. f_equal. exact IH.
Qed.

Lemma calls_app (a b : list Event) : calls (a ++ b) = calls a ++ calls b.
Proof. unfold calls. apply List.filter_app. Qed.

Lemma load_and_save_calls (env : Env) (playerName skinUrl : value) (s : State)
    (v : Viewer) :
  viewer s = Some v ->
  exists tail, trace (load_and_save env playerName skinUrl s).2 = trace s ++ tail
    /\ calls tail = [ELoadSkin skinUrl].
Proof.
  intros Hv. exists [ELoadSkin skinUrl]. split; [|reflexivity].
  unfold load_and_save, await_loadSkin, setItem. unfold_monad. rewrite Hv.
  destruct (loadSkin env skinUrl); [|reflexivity].
  destruct (ToString _ skinUrl) as [url|]; [|reflexivity]. run_state.
  destruct (storage_accepts s key_currentSkin url); [|reflexivity].
  destruct (ToString _ playerName) as [name|]; [|reflexivity]. run_state.
  destruct (storage_accepts s key_currentPlayerName name); reflexivity.
Qed.

Lemma run_calls (env : Env) (usernameOrUUID : jsstring) (s : State) (v : Viewer) :
  viewer s = Some v ->
  nonempty (trim usernameOrUUID) = true ->
  let resolved := resolve env (trim usernameOrUUID) (started s) in
  calls (new_events s (fetchSkinFromMojang env usernameOrUUID s).2)
  = new_events (started s) resolved.2 ++ load_of resolved.1.
Proof.
  intros Hv Hin resolved. subst resolved.
  rewrite (fetchSkinFromMojang_run _ _ _ v Hv Hin), resolver_try_resolve.
  destruct (resolve_quiet env (trim usernameOrUUID) (started s))
    as (Hv1 & _ & _ & evs & T & F).
  unfold bind.
  destruct (resolve env (trim usernameOrUUID) (started s)) as [[[name url]| |e] s1];
    simpl in *.
  - destruct (load_and_save_calls env name url s1 v) as (tail & T2 & C2);
      [congruence|].
    rewrite (new_events_app (started s) s1 evs T).
    destruct (load_and_save env name url s1) as [[a| |e] s2]; simpl in *.
    all: erewrite new_events_app;
      [|simpl; rewrite ?T2, T; simpl; rewrite <- ?app_assoc; reflexivity].
    all: rewrite !calls_app, C2, (calls_fetches _ F); simpl;
      rewrite ?app_nil_r; reflexivity.
  - rewrite (new_events_app (started s) s1 evs T).
    erewrite new_events_app; [|simpl; rewrite T; reflexivity].
    rewrite app_nil_r. apply calls_fetches, F.
  - rewrite (new_events_app (started s) s1 evs T).
    erewrite new_events_app; [|simpl; rewrite T, <- app_assoc; reflexivity].
    rewrite calls_app, (calls_fetches _ F). simpl. reflexivity.
Qed.

Lemma fetchSkinFromMojang_same_world (env1 env2 : Env) (usernameOrUUID : jsstring) :
  fetch env1 = fetch env2 -> atob env1 = atob env2 ->
  JSON_parse env1 = JSON_parse env2 -> Number_toString env1 = Number_toString env2 ->
  loadSkin env1 = loadSkin env2 ->
  fetchSkinFromMojang env1 usernameOrUUID = fetchSkinFromMojang env2 usernameOrUUID.
Proof.
  intros Hf Ha Hj Hn Hl.
  unfold fetchSkinFromMojang, resolver_try, resolve_identity, fetch_session,
    extract_skin, load_and_save, fetch_through_proxy, await_fetch, await_loadSkin,
    setItem, decode_textures.
  rewrite Hf, Ha, Hj, Hn, Hl. reflexivity.
Qed.

(** In one world, the second run repeats the first. *)
Lemma resolver_twice_same_world (env : Env) (usernameOrUUID : jsstring) (s : State) :
  let first := fetchSkinFromMojang env usernameOrUUID s in
  let second := fetchSkinFromMojang env usernameOrUUID first.2 in
  second.1 = first.1
  /\ new_events first.2 second.2 = new_events s first.2
  /\ statusText second.2 = statusText first.2
  /\ localStorage second.2 = localStorage first.2.
Proof.
  intros first second.
  assert (Hv1 : viewer first.2 = viewer s).
  { subst first. apply fetchSkinFromMojang_keeps_viewer. }
  assert (Ha1 : storage_accepts first.2 = storage_accepts s).
  { subst first. apply fetchSkinFromMojang_keeps_acceptance. }
  subst second. revert Hv1 Ha1. subst first.
  destruct (viewer s) as [v|] eqn:Hv;
    [destruct (nonempty (trim usernameOrUUID)) eqn:Hin|].
  - rewrite (fetchSkinFromMojang_run _ _ _ v Hv Hin). intros Hv1 Ha1.
    rewrite (fetchSkinFromMojang_run _ _ _ v Hv1 Hin).
    set (input := trim usernameOrUUID) in *.
    set (r1 := resolver_try env input (started s)) in *.
    destruct (resolver_try_blind env input (started s) (started (settle r1).2))
      as (Hc & (_ & Hst & _) & evs & ws & T1 & T2 & L1 & L2).
    { repeat split; simpl; congruence. }
    fold r1 in Hc, Hst, T1, L1.
    set (r2 := resolver_try env input (started (settle r1).2)) in *.
    assert (Hs1 : localStorage (settle r1).2 = localStorage r1.2).
    { destruct r1 as [[a| |e] s1]; reflexivity. }
    simpl in T1, T2, L1, L2. rewrite Hs1, L1, apply_writes_twice, <- L1 in L2.
    destruct r1 as [c1 s1], r2 as [c2 s2]. simpl in Hc, Hst, T1, T2, L1, L2.
    subst c2. destruct c1 as [a| |e]; simpl in *.
    all: repeat split; try assumption; try (symmetry; assumption).
    all: etransitivity; [apply new_events_app | symmetry; apply new_events_app].
    all: simpl; rewrite ?T2, ?T1, <- ?app_assoc; reflexivity.
  - rewrite (fetchSkinFromMojang_empty _ _ _ v Hv Hin). intros Hv1 _.
    rewrite (fetchSkinFromMojang_empty _ _ _ v Hv1 Hin).
    repeat split.
  - rewrite (fetchSkinFromMojang_starting _ _ _ Hv). intros Hv1 _.
    rewrite (fetchSkinFromMojang_starting _ _ _ Hv1).
    repeat split.
Qed.

(** C8. The Resolver run twice in succession on the same input, the
    name-lookup and profile services (and the decoding functions of the
    platform) answering the same both times, resolves to the same skin
    reference both times: the part of the [try] block before the load
    completes alike, with the same player name and skin URL, and the two
    runs make the same requests and hand the same skin URL to the
    renderer. When the renderer answers the same too, the second run
    repeats the first altogether: same completion, same events, same
    status line, same storage, so the same skin and player name under the
    two keys. *)
Theorem resolver_is_deterministic (env1 env2 : Env) (usernameOrUUID : jsstring)
    (s : State) :
  fetch env1 = fetch env2 ->
  atob env1 = atob env2 ->
  JSON_parse env1 = JSON_parse env2 ->
  Number_toString env1 = Number_toString env2 ->
  let input := trim usernameOrUUID in
  let first := fetchSkinFromMojang env1 usernameOrUUID s in
  let second := fetchSkinFromMojang env2 usernameOrUUID first.2 in
  (resolve env2 input (started first.2)).1 = (resolve env1 input (started s)).1
  /\ calls (new_events first.2 second.2) = calls (new_events s first.2)
  /\ (loadSkin env1 = loadSkin env2 ->
      second.1 = first.1
      /\ new_events first.2 second.2 = new_events s first.2
      /\ statusText second.2 = statusText first.2
      /\ localStorage second.2 = localStorage first.2
      /\ localStorage second.2 !! key_currentSkin
         = localStorage first.2 !! key_currentSkin
      /\ localStorage second.2 !! key_currentPlayerName
         = localStorage first.2 !! key_currentPlayerName).
Proof.
  intros Hf Ha Hj Hn input first second.
  pose proof (resolve_same_services env1 env2 input Hf Ha Hj Hn) as Hres.
  assert (Hv1 : viewer first.2 = viewer s).
  { subst first. apply fetchSkinFromMojang_keeps_viewer. }
  assert (Ha1 : storage_accepts first.2 = storage_accepts s).
  { subst first. apply fetchSkinFromMojang_keeps_acceptance. }
  destruct (resolve_blind env1 input (started s) (started first.2))
    as (Hc & _ & evs & ws & T1 & T2 & _).
  { repeat split; simpl; congruence. }
  clear Ha1.
  split; [rewrite <- Hres; symmetry; exact Hc|]. split.
  - subst second. revert Hv1 Hc T2. subst first.
    destruct (viewer s) as [v|] eqn:Hv;
      [destruct (nonempty (trim usernameOrUUID)) eqn:Hin|].
    + intros Hv1 Hc T2.
      rewrite (run_calls env2 _ _ v Hv1 Hin), (run_calls env1 _ _ v Hv Hin).
      fold input. rewrite <- Hres, <- Hc. f_equal.
      rewrite (new_events_app _ _ _ T1). apply new_events_app. exact T2.
    + rewrite (fetchSkinFromMojang_empty _ _ _ v Hv Hin). intros Hv1 _ _.
      rewrite (fetchSkinFromMojang_empty _ _ _ v Hv1 Hin). reflexivity.
    + rewrite (fetchSkinFromMojang_starting _ _ _ Hv). intros Hv1 _ _.
      rewrite (fetchSkinFromMojang_starting _ _ _ Hv1). reflexivity.
  - intros Hl. subst second.
    rewrite <- (fetchSkinFromMojang_same_world env1 env2 _ Hf Ha Hj Hn Hl).
    destruct (resolver_twice_same_world env1 usernameOrUUID s)
      as (H1 & H2 & H3 & H4).
    fold first in H1, H2, H3, H4. rewrite H4.
    repeat split; assumption.
Qed.

Lemma resolver_is_deterministic_witness :
  let first := fetchSkinFromMojang (notch_world true) (lit "Notch") visited_page in
  let second := fetchSkinFromMojang (notch_world false) (lit "Notch") first.2 in
  (resolve (notch_world false) (trim (lit "Notch")) (started first.2)).1
  = (resolve (notch_world true) (trim (lit "Notch")) (started visited_page)).1
  /\ calls (new_events first.2 second.2) = calls (new_events visited_page first.2).
Proof.
  pose proof (resolver_is_deterministic (notch_world true) (notch_world false)
                (lit "Notch") visited_page eq_refl eq_refl eq_refl eq_refl) as H.
  split; [exact (proj1 H) | exact (proj1 (proj2 H))].
Defined.

Example resolve_notch :
  (resolve (notch_world false) (lit "Notch") (started visited_page)).1
  = Normal (VString (lit "Notch"), VString notch_skin).
Proof. vm_compute. reflexivity. Qed.

(** *** C9: calls before the viewer exists *)

(** C9. Called before the viewer is initialized, [fetchSkinFromMojang] and
    [readSkinFile] return at once after setting the starting-up message:
    the page is as it was but for the status line, so no request was made,
    no file read started, and the storage is unchanged. *)
Theorem calls_before_viewer_exists (env : Env) (s : State)
    (usernameOrUUID : jsstring) (file : option File) :
  viewer s = None ->
  let starting :=
    set_statusText {| innerHTML := msg_starting_up; color := error_color |} s in
  fetchSkinFromMojang env usernameOrUUID s = (Normal tt, starting)
  /\ readSkinFile env file s = (Normal tt, starting)
  /\ new_events s starting = []
  /\ localStorage starting = localStorage s.
Proof.
  intros Hv starting. subst starting. split; [|split; [|split]].
  - apply fetchSkinFromMojang_starting, Hv.
  - unfold readSkinFile. unfold_monad. rewrite Hv. reflexivity.
  - apply new_events_app. symmetry. apply app_nil_r.
  - reflexivity.
Qed.

Lemma calls_before_viewer_exists_witness :
  let starting :=
    set_statusText {| innerHTML := msg_starting_up; color := error_color |}
      blank_page in
  fetchSkinFromMojang (notch_world true) (lit "Notch") blank_page = (Normal tt, starting)
  /\ readSkinFile (notch_world true) (Some small_png) blank_page = (Normal tt, starting)
  /\ new_events blank_page starting = []
  /\ localStorage starting = localStorage blank_page.
Proof.
  apply (calls_before_viewer_exists (notch_world true) blank_page (lit "Notch")
           (Some small_png) eq_refl).
Defined.

(** *** C10: the PNG check *)

Lemma readSkinFile_not_png (env : Env) (s : State) (v : Viewer) (file : File) :
  viewer s = Some v ->
  isPNG file = false ->
  readSkinFile env (Some file) s
  = (Normal tt, set_statusText {| innerHTML := msg_select_png; color := error_color |} s).
Proof.
  intros Hv Hpng. unfold readSkinFile. unfold_monad. rewrite Hv. run_state.
  rewrite Hpng. reflexivity.
Qed.

Lemma readSkinFile_png (env : Env) (s : State) (v : Viewer) (file : File) :
  viewer s = Some v ->
  isPNG file = true ->
  innerHTML (statusText (readSkinFile env (Some file) s).2) <> msg_select_png.
Proof.
  intros Hv Hpng.
  unfold readSkinFile, reader_onload, reader_onerror, await_loadSkin, setItem,
    removeItem, console_error.
  unfold_monad. rewrite Hv. run_state. rewrite Hpng. run_state.
  destruct (too_large file); run_state; [vm_compute; discriminate|].
  destruct (readAsDataURL env file) as [skinData|]; run_state;
    [|vm_compute; discriminate].
  rewrite Hv. run_state.
  destruct (loadSkin env (VString skinData)); cbn [ToString]; run_state;
    [|vm_compute; discriminate].
  destruct (storage_accepts s key_currentSkin skinData); run_state;
    vm_compute; discriminate.
Qed.

(** C10. The PNG check is a disjunction: a file passes exactly when its
    type is [image/png] or its name ends with [.png]. A name that ends
    with [.png] passes whatever the type, and the type [image/png] passes
    whatever the name. With the viewer running, [readSkinFile] shows the
    PNG message exactly for the files that fail the check. *)
Theorem png_check_is_disjunction (file : File) :
  (isPNG file = true
   <-> file_type file = lit "image/png"
       \/ exists stem, file_name file = stem ++ lit ".png")
  /\ (forall type stem size,
        isPNG {| file_type := type; file_name := stem ++ lit ".png";
                 file_size := size |} = true)
  /\ (forall name size,
        isPNG {| file_type := lit "image/png"; file_name := name;
                 file_size := size |} = true)
  /\ (forall env s v, viewer s = Some v ->
        (isPNG file = false ->
         readSkinFile env (Some file) s
         = (Normal tt,
            set_statusText {| innerHTML := msg_select_png; color := error_color |} s))
        /\ (isPNG file = true ->
            innerHTML (statusText (readSkinFile env (Some file) s).2)
            <> msg_select_png)).
Proof.
  split; [apply isPNG_iff|]. split; [|split].
  - intros type stem size. apply isPNG_iff. right. exists stem. reflexivity.
  - intros name size. apply isPNG_iff. left. reflexivity.
  - intros env s v Hv. split.
    + apply readSkinFile_not_png with v. exact Hv.
    + apply readSkinFile_png with v. exact Hv.
Qed.

Lemma png_check_is_disjunction_witness :
  isPNG {| file_type := lit "application/octet-stream"; file_name := lit "steve.png";
           file_size := 2048 |} = true
  /\ isPNG {| file_type := lit "image/png"; file_name := lit "steve";
              file_size := 2048 |} = true
  /\ innerHTML (statusText (readSkinFile (file_world true) (Some small_png)
                              ready_page).2) <> msg_select_png.
Proof.
  split; [|split].
  - apply (proj1 (proj2 (png_check_is_disjunction small_png))
             (lit "application/octet-stream") (lit "steve") 2048).
  - apply (proj1 (proj2 (proj2 (png_check_is_disjunction small_png)))
             (lit "steve") 2048).
  - apply (proj2 (proj2 (proj2 (proj2 (png_check_is_disjunction small_png)))
                    (file_world true) ready_page fresh_viewer eq_refl)).
    reflexivity.
Defined.

(** *** Further properties: the Resolver ends normally *)

(** X1. A call of [fetchSkinFromMojang] never throws and never ends by an
    uncaught rejection: it ends normally for every argument, page and
    outside world. The fetch button is enabled afterwards whenever the
    run got past the two guards (viewer there, input not blank), and is
    left as it was otherwise. *)
Theorem resolver_never_throws_button_released (env : Env) (usernameOrUUID : jsstring)
    (s : State) :
  let run := fetchSkinFromMojang env usernameOrUUID s in
  run.1 = Normal tt
  /\ fetchSkinBtn_disabled run.2
     = if defined (viewer s) && nonempty (trim usernameOrUUID)
       then false else fetchSkinBtn_disabled s.
Proof.
  intros run. subst run. split; [apply fetchSkinFromMojang_total|].
  destruct (viewer s) as [v|] eqn:Hv; simpl.
  - destruct (nonempty (trim usernameOrUUID)) eqn:Hin.
    + rewrite (fetchSkinFromMojang_run _ _ _ v Hv Hin).
      destruct (resolver_try _ _ _) as [[a| |e] s1]; reflexivity.
    + rewrite (fetchSkinFromMojang_empty _ _ _ v Hv Hin). reflexivity.
  - rewrite (fetchSkinFromMojang_starting _ _ _ Hv). reflexivity.
Qed.

Lemma trimStart_whitespace (s : jsstring) : whitespace_only s -> trimStart s = [].
Proof. induction 1 as [|c s Hc _ IH]; simpl; [reflexivity|]. rewrite Hc. exact IH. Qed.

Lemma trimStart_pad_left (w x : jsstring) :
  whitespace_only w -> trimStart (w ++ x) = trimStart x.
Proof. induction 1 as [|c w Hc _ IH]; simpl; [reflexivity|]. rewrite Hc. exact IH. Qed.

Lemma trimStart_pad_right (x w : jsstring) :
  whitespace_only w ->
  trimStart (x ++ w) = trimStart x ++ w
  \/ (trimStart x = [] /\ trimStart (x ++ w) = []).
Proof.
  intros Hw. induction x as [|c x IH]; simpl.
  - right. split; [reflexivity | apply trimStart_whitespace, Hw].
  - destruct (is_whitespace c); [exact IH | left; reflexivity].
Qed.

Lemma whitespace_only_rev (w : jsstring) : whitespace_only w -> whitespace_only (rev w).
Proof. unfold whitespace_only. rewrite !List.Forall_forall. intros H c Hc. apply H, in_rev, Hc. Qed.

Lemma trimEnd_pad_right (x w : jsstring) :
  whitespace_only w -> trimEnd (x ++ w) = trimEnd x.
Proof.
  intros Hw. unfold trimEnd. rewrite rev_app_distr.
  rewrite trimStart_pad_left by (apply whitespace_only_rev, Hw). reflexivity.
Qed.

(** [trim] drops white space on both sides. *)
Lemma trim_pad (w1 x w2 : jsstring) :
  whitespace_only w1 -> whitespace_only w2 -> trim (w1 ++ x ++ w2) = trim x.
Proof.
  intros H1 H2. unfold trim. rewrite trimStart_pad_left by exact H1.
  destruct (trimStart_pad_right x w2 H2) as [-> | [-> ->]].
  - apply trimEnd_pad_right, H2.
  - reflexivity.
Qed.

Lemma trim_whitespace (w : jsstring) : whitespace_only w -> trim w = [].
Proof. intros H. unfold trim. rewrite (trimStart_whitespace w H). reflexivity. Qed.

(** The Resolver sees its argument through [trim] only. *)
Lemma fetchSkinFromMojang_trim (env : Env) (a b : jsstring) :
  trim a = trim b -> fetchSkinFromMojang env a = fetchSkinFromMojang env b.
Proof. intros H. unfold fetchSkinFromMojang. rewrite H. reflexivity. Qed.

(** X2. With a running viewer, an argument made of white space only
    (the empty string too) makes the Resolver show the enter-a-name
    message in the error colour and change nothing else: no request, no
    write, the button untouched. *)
Theorem blank_input_asks_for_name (env : Env) (usernameOrUUID : jsstring) (s : State)
    (v : Viewer) :
  viewer s = Some v ->
  whitespace_only usernameOrUUID ->
  fetchSkinFromMojang env usernameOrUUID s
  = (Normal tt,
     set_statusText {| innerHTML := msg_enter_name; color := error_color |} s).
Proof.
  intros Hv Hw. apply fetchSkinFromMojang_empty with v; [exact Hv|].
  rewrite (trim_whitespace _ Hw). reflexivity.
Qed.

Lemma blank_input_asks_for_name_witness :
  fetchSkinFromMojang (notch_world true) (lit "   ") ready_page
  = (Normal tt,
     set_statusText {| innerHTML := msg_enter_name; color := error_color |}
       ready_page).
Proof.
  apply (blank_input_asks_for_name (notch_world true) (lit "   ") ready_page
           fresh_viewer).
  - reflexivity.
  - unfold whitespace_only. simpl. repeat constructor.
Defined.

(** X3. White space before and after the name or UUID is ignored: the
    Resolver behaves on the padded text exactly as on the text itself,
    from every page. *)
Theorem surrounding_whitespace_ignored (env : Env) (before text after : jsstring) :
  whitespace_only before -> whitespace_only after ->
  fetchSkinFromMojang env (before ++ text ++ after) = fetchSkinFromMojang env text.
Proof.
  intros H1 H2. apply fetchSkinFromMojang_trim. apply trim_pad; assumption.
Qed.

Lemma surrounding_whitespace_ignored_witness :
  fetchSkinFromMojang (notch_world true) (lit " " ++ lit "Notch" ++ lit "  ")
  = fetchSkinFromMojang (notch_world true) (lit "Notch").
Proof.
  apply (surrounding_whitespace_ignored (notch_world true)
           (lit " ") (lit "Notch") (lit "  "));
    unfold whitespace_only; simpl; repeat constructor.
Defined.

(** *** The two forms of a UUID *)

Lemma re_match_app_inv (re1 re2 : list char_class) (s : jsstring) :
  re_match (re1 ++ re2) s = true ->
  exists a b, s = a ++ b /\ re_match re1 a = true /\ re_match re2 b = true.
Proof.
  revert s. induction re1 as [|cl re1 IH]; intros s; simpl.
  - intros H. exists [], s. auto.
  - destruct s as [|c s]; [discriminate|].
    rewrite andb_true_iff. intros [Hc H].
    destruct (IH s H) as (a & b & -> & Ha & Hb).
    exists (c :: a), b. simpl. rewrite Hc, Ha. auto.
Qed.

Lemma re_match_app (re1 re2 : list char_class) (a b : jsstring) :
  re_match re1 a = true -> re_match re2 b = true -> re_match (re1 ++ re2) (a ++ b) = true.
Proof.
  revert a. induction re1 as [|cl re1 IH]; intros [|c a]; simpl; try discriminate.
  - auto.
  - rewrite andb_true_iff. intros [-> Ha] Hb. simpl. auto.
Qed.

Lemma hex_class_not_dash (c : code_unit) : hex_class c = true -> (c =? dash) = false.
Proof.
  unfold hex_class, is_digit, in_range, dash.
  rewrite !orb_true_iff, !andb_true_iff, !N.leb_le, N.eqb_neq. lia.
Qed.

Lemma remove_dashes_hex (n : nat) (a : jsstring) :
  re_match (repeat hex_class n) a = true -> remove_dashes a = a.
Proof.
  revert a. induction n as [|n IH]; intros [|c a]; simpl; try discriminate.
  - reflexivity.
  - rewrite andb_true_iff. intros [Hc Ha].
    rewrite (hex_class_not_dash c Hc). simpl. f_equal. apply IH, Ha.
Qed.

Lemma remove_dashes_dash (b : jsstring) :
  re_match [dash_class] b = true -> remove_dashes b = [].
Proof.
  destruct b as [|c [|d b]]; simpl; try discriminate.
  - unfold dash_class. rewrite andb_true_r. intros ->. reflexivity.
  - rewrite andb_false_r. discriminate.
Qed.

Lemma remove_dashes_app (a b : jsstring) :
  remove_dashes (a ++ b) = remove_dashes a ++ remove_dashes b.
Proof. unfold remove_dashes. apply List.filter_app. Qed.

(** Without its dashes, a dashed UUID is a 32-hex one, unchanged by a
    second removal. *)
Lemma remove_dashes_uuid (input : jsstring) :
  re_match re_uuid_dashed input = true ->
  re_match re_uuid32 (remove_dashes input) = true
  /\ remove_dashes (remove_dashes input) = remove_dashes input.
Proof.
  unfold re_uuid_dashed. intros H.
  apply re_match_app_inv in H as (a1 & r1 & -> & A1 & H).
  apply re_match_app_inv in H as (d1 & r2 & -> & D1 & H).
  apply re_match_app_inv in H as (a2 & r3 & -> & A2 & H).
  apply re_match_app_inv in H as (d2 & r4 & -> & D2 & H).
  apply re_match_app_inv in H as (a3 & r5 & -> & A3 & H).
  apply re_match_app_inv in H as (d3 & r6 & -> & D3 & H).
  apply re_match_app_inv in H as (a4 & r7 & -> & A4 & H).
  apply re_match_app_inv in H as (d4 & a5 & -> & D4 & A5).
  rewrite !remove_dashes_app.
  rewrite (remove_dashes_hex _ _ A1), (remove_dashes_hex _ _ A2),
    (remove_dashes_hex _ _ A3), (remove_dashes_hex _ _ A4), (remove_dashes_hex _ _ A5),
    (remove_dashes_dash _ D1), (remove_dashes_dash _ D2), (remove_dashes_dash _ D3),
    (remove_dashes_dash _ D4).
  rewrite !app_nil_l. split.
  - change re_uuid32 with (repeat hex_class 8 ++ repeat hex_class 4
      ++ repeat hex_class 4 ++ repeat hex_class 4 ++ repeat hex_class 12).
    repeat (apply re_match_app; [assumption|]). assumption.
  - rewrite ?(remove_dashes_hex _ _ A1), ?(remove_dashes_hex _ _ A2),
      ?(remove_dashes_hex _ _ A3), ?(remove_dashes_hex _ _ A4),
      ?(remove_dashes_hex _ _ A5). reflexivity.
Qed.

Lemma whitespace_range (c : code_unit) : is_whitespace c = true -> c <= 32 \/ 160 <= c.
Proof.
  unfold is_whitespace, in_range.
  rewrite !orb_true_iff, !andb_true_iff, !N.leb_le, !N.eqb_eq. lia.
Qed.

Lemma hex_class_not_whitespace (c : code_unit) : hex_class c = true -> is_whitespace c = false.
Proof.
  intros H. destruct (is_whitespace c) eqn:W; [|reflexivity].
  apply whitespace_range in W. revert H.
  unfold hex_class, is_digit, in_range.
  rewrite !orb_true_iff, !andb_true_iff, !N.leb_le. lia.
Qed.

Lemma trimStart_solid (s : jsstring) :
  Forall (fun c => is_whitespace c = false) s -> trimStart s = s.
Proof. destruct 1 as [|c s Hc _]; simpl; [reflexivity|]. rewrite Hc. reflexivity. Qed.

(** [trim] leaves a string without white space as it is. *)
Lemma trim_solid (s : jsstring) :
  Forall (fun c => is_whitespace c = false) s -> trim s = s.
Proof.
  intros H. unfold trim, trimEnd. rewrite (trimStart_solid s H).
  rewrite trimStart_solid; [apply rev_involutive|].
  rewrite List.Forall_forall in *. intros c Hc. apply H, in_rev, Hc.
Qed.

Lemma uuid32_solid (u : jsstring) :
  re_match re_uuid32 u = true -> trim u = u.
Proof.
  intros H. apply trim_solid. revert H. apply re_match_Forall.
  unfold re_uuid32. apply List.Forall_forall. intros cl Hcl c.
  apply repeat_spec in Hcl. subst cl. apply hex_class_not_whitespace.
Qed.

(** The [try] block depends on a UUID through its dash-free form only. *)
Lemma resolver_try_uuid (env : Env) (a b : jsstring) (s : State) :
  looks_like_username a = false -> looks_like_username b = false ->
  remove_dashes a = remove_dashes b ->
  resolver_try env a s = resolver_try env b s.
Proof.
  intros Ha Hb H. unfold resolver_try, bind.
  rewrite (resolve_identity_uuid _ _ _ Ha), (resolve_identity_uuid _ _ _ Hb).
  unfold fetch_session, call_replace_dashes, lift_sum, bind, ret. rewrite H.
  reflexivity.
Qed.

(** X4. A UUID written with dashes is treated as the same UUID written
    without: its dash-free form matches the 32-digit pattern, and the
    Resolver run on the dashed form equals the run on the dash-free
    form (same requests, same page afterwards). *)
Theorem dashed_uuid_same_as_plain (env : Env) (usernameOrUUID : jsstring) (s : State) :
  re_match re_uuid_dashed (trim usernameOrUUID) = true ->
  let plain := remove_dashes (trim usernameOrUUID) in
  re_match re_uuid32 plain = true
  /\ fetchSkinFromMojang env usernameOrUUID s = fetchSkinFromMojang env plain s.
Proof.
  intros Hd plain. destruct (remove_dashes_uuid _ Hd) as [H32 Hidem]. fold plain in H32, Hidem.
  split; [exact H32|].
  pose proof (looks_like_username_false _ (or_intror Hd)) as Ha.
  pose proof (looks_like_username_false _ (or_introl H32)) as Hb.
  pose proof (uuid32_solid _ H32) as Ht.
  destruct (viewer s) as [v|] eqn:Hv.
  - rewrite (fetchSkinFromMojang_run _ _ _ v Hv (uuid_nonempty _ Ha)).
    rewrite (fetchSkinFromMojang_run env plain _ v Hv)
      by (rewrite Ht; apply uuid_nonempty, Hb).
    rewrite Ht. f_equal. apply resolver_try_uuid; auto.
  - rewrite !(fetchSkinFromMojang_starting _ _ _ Hv). reflexivity.
Qed.

Lemma dashed_uuid_same_as_plain_witness :
  re_match re_uuid32 notch_uuid = true
  /\ fetchSkinFromMojang (notch_world true) dashed_notch_uuid ready_page
     = fetchSkinFromMojang (notch_world true) notch_uuid ready_page.
Proof.
  apply (dashed_uuid_same_as_plain (notch_world true) dashed_notch_uuid ready_page).
  reflexivity.
Defined.

(** *** Failures of the name lookup *)

(** X5. When the name lookup is answered with a status outside 200-299,
    the run ends normally after that one request: the status line shows
    the not-found message for 404 and the try-again-later message for
    every other status, in the error colour, the button is enabled
    again, and the storage is as before. *)
Theorem lookup_failure_reported (env : Env) (usernameOrUUID : jsstring) (s : State)
    (v : Viewer) (encoded : jsstring) (r : Response) :
  viewer s = Some v ->
  let input := trim usernameOrUUID in
  nonempty input = true ->
  looks_like_username input = true ->
  encodeURIComponent (mojang_prefix ++ input) = Some encoded ->
  fetch env (proxy_prefix ++ encoded) = Some r ->
  response_ok r = false ->
  fetchSkinFromMojang env usernameOrUUID s
  = (Normal tt,
     set_fetchSkinBtn_disabled false
       (set_statusText
          {| innerHTML := if response_status r =? 404
                          then msg_not_found input else msg_profile_failed;
             color := error_color |}
          (log (EFetch (proxy_prefix ++ encoded)) (started s)))).
Proof.
  intros Hv input Hin Hre E Hf Hok.
  rewrite (fetchSkinFromMojang_run _ _ _ v Hv Hin). fold input.
  unfold resolver_try, resolve_identity, fetch_through_proxy, await_fetch.
  rewrite Hre. unfold_monad. rewrite E. cbv beta iota. rewrite Hf, Hok.
  destruct (response_status r =? 404); reflexivity.
Qed.

Lemma lookup_failure_reported_witness :
  fetchSkinFromMojang server_error_world (lit "Nobody") ready_page
  = (Normal tt,
     set_fetchSkinBtn_disabled false
       (set_statusText {| innerHTML := msg_profile_failed; color := error_color |}
          (log (EFetch (through_proxy (mojang_prefix ++ lit "Nobody")))
             (started ready_page)))).
Proof.
  apply (lookup_failure_reported server_error_world (lit "Nobody") ready_page
           fresh_viewer
           (lit "https%3A%2F%2Fapi.mojang.com%2Fusers%2Fprofiles%2Fminecraft%2FNobody")
           {| response_status := 500; response_json := None |});
    reflexivity.
Defined.

(** X6. When the name lookup gives nothing usable (the request is
    rejected, the body of an ok answer is not JSON, or the JSON has no
    string [id]), the error is caught: the run ends normally after that
    one request, the error is logged to the console, the status line
    shows the generic error message, and the button is enabled again. *)
Theorem unusable_lookup_caught (env : Env) (usernameOrUUID : jsstring) (s : State)
    (v : Viewer) (encoded : jsstring) :
  viewer s = Some v ->
  let input := trim usernameOrUUID in
  nonempty input = true ->
  looks_like_username input = true ->
  encodeURIComponent (mojang_prefix ++ input) = Some encoded ->
  unusable_lookup (fetch env (proxy_prefix ++ encoded)) ->
  exists e,
    fetchSkinFromMojang env usernameOrUUID s
    = (Normal tt,
       set_fetchSkinBtn_disabled false
         (set_statusText {| innerHTML := msg_fetch_error; color := error_color |}
            (log (EConsoleError e)
               (log (EFetch (proxy_prefix ++ encoded)) (started s))))).
Proof.
  intros Hv input Hin Hre E Hbad.
  rewrite (fetchSkinFromMojang_run _ _ _ v Hv Hin). fold input.
  unfold resolver_try, resolve_identity, fetch_session, fetch_through_proxy,
    await_fetch, await_json.
  rewrite Hre. unfold_monad. rewrite E. cbv beta iota.
  destruct Hbad as [-> | [(r & -> & Hok & Hj) | (r & pd & -> & Hok & Hj & Hid)]].
  - eexists. reflexivity.
  - rewrite Hok, Hj. eexists. reflexivity.
  - rewrite Hok, Hj. cbn [negb].
    destruct (get pd (lit "id")) as [e|id] eqn:Hget; [eexists; reflexivity|].
    destruct (get_defined _ _ (lit "name") _ Hget) as [n ->].
    destruct id; try (eexists; reflexivity).
    exfalso. eapply Hid. reflexivity.
Qed.

Lemma unusable_lookup_caught_witness :
  exists e,
    fetchSkinFromMojang offline_world (lit "Notch") ready_page
    = (Normal tt,
       set_fetchSkinBtn_disabled false
         (set_statusText {| innerHTML := msg_fetch_error; color := error_color |}
            (log (EConsoleError e)
               (log (EFetch (through_proxy (mojang_prefix ++ lit "Notch")))
                  (started ready_page))))).
Proof.
  apply (unusable_lookup_caught offline_world (lit "Notch") ready_page fresh_viewer
           (lit "https%3A%2F%2Fapi.mojang.com%2Fusers%2Fprofiles%2Fminecraft%2FNotch"));
    try reflexivity.
  left. reflexivity.
Defined.

(** *** The session profile *)

(** X7. When the session server answers the profile request with a
    status outside 200-299, whatever the status (404 included), the run
    ends normally with the failed-to-fetch-skin-data message in the
    error colour, the button enabled, and nothing loaded or stored. *)
Theorem session_failure_reported (env : Env) (usernameOrUUID : jsstring) (s s1 : State)
    (v : Viewer) (uuid : jsstring) (name : value) (encoded : jsstring) (r : Response) :
  viewer s = Some v ->
  let input := trim usernameOrUUID in
  nonempty input = true ->
  resolve_identity env input (started s) = (Normal (VString uuid, name), s1) ->
  encodeURIComponent (session_prefix ++ remove_dashes uuid) = Some encoded ->
  fetch env (proxy_prefix ++ encoded) = Some r ->
  response_ok r = false ->
  fetchSkinFromMojang env usernameOrUUID s
  = (Normal tt,
     set_fetchSkinBtn_disabled false
       (set_statusText {| innerHTML := msg_skin_data_failed; color := error_color |}
          (log (EFetch (proxy_prefix ++ encoded)) s1))).
Proof.
  intros Hv input Hin H1 E Hf Hok.
  rewrite (fetchSkinFromMojang_run _ _ _ v Hv Hin). fold input.
  unfold resolver_try, bind. rewrite H1.
  unfold fetch_session, fetch_through_proxy, await_fetch, call_replace_dashes.
  unfold_monad. cbv beta iota. rewrite E. cbv beta iota. rewrite Hf, Hok. reflexivity.
Qed.

Lemma session_failure_reported_witness :
  fetchSkinFromMojang session_down_world notch_uuid ready_page
  = (Normal tt,
     set_fetchSkinBtn_disabled false
       (set_statusText {| innerHTML := msg_skin_data_failed; color := error_color |}
          (log (EFetch (through_proxy (session_prefix ++ notch_uuid)))
             (started ready_page)))).
Proof.
  apply (session_failure_reported session_down_world notch_uuid ready_page
           (started ready_page) fresh_viewer notch_uuid (VString notch_uuid)
           (lit "https%3A%2F%2Fsessionserver.mojang.com%2Fsession%2Fminecraft%2Fprofile%2F069a79f444e94726a5befca90e38aaf5")
           {| response_status := 503; response_json := None |});
    reflexivity.
Defined.

(** The search of line 71 stops at the first property named [textures]. *)
Lemma Array_find_first (before after : list value) (found : value) :
  Forall (fun prop => is_textures prop = inr false) before ->
  is_textures found = inr true ->
  Array_find is_textures (before ++ found :: after) = inr found.
Proof.
  intros Hb Hf. induction Hb as [|p before Hp _ IH]; simpl.
  - rewrite Hf. reflexivity.
  - rewrite Hp. exact IH.
Qed.


Lemma is_textures_object (prop : value) :
  is_textures prop = inr true ->
  exists props, prop = VObject props
    /\ own_property (lit "name") props = Some (VString (lit "textures")).
Proof.
  unfold is_textures, get, strict_eq_string.
  destruct prop as [| | | | | |props]; try discriminate.
  destruct (own_property (lit "name") props) as [n|] eqn:Hn; [|discriminate].
  destruct n; try discriminate. intros [= H]. apply str_eqb_eq in H. subst.
  exists props. auto.
Qed.

(** X8. The textures property the Resolver uses is the first element of
    [properties] whose name is [textures]: elements before it with
    another name are skipped, elements after it (a second [textures]
    one too) are not looked at; and what is found passes the check of
    line 72. *)
Theorem first_textures_property_wins (sessionData : value)
    (before after : list value) (found : value) :
  get sessionData (lit "properties") = inr (VArray (before ++ found :: after)) ->
  Forall (fun prop => is_textures prop = inr false) before ->
  is_textures found = inr true ->
  find_textures_property sessionData = inr found /\ truthy found = true.
Proof.
  intros Hp Hb Hf. unfold find_textures_property. rewrite Hp. simpl.
  split; [apply Array_find_first; assumption|].
  destruct (is_textures_object _ Hf) as (props & -> & _). reflexivity.
Qed.

Lemma first_textures_property_wins_witness :
  find_textures_property two_textures_profile
  = inr (VObject [(lit "name", VString (lit "textures"));
                  (lit "value", VString (lit "first"))])
  /\ truthy (VObject [(lit "name", VString (lit "textures"));
                      (lit "value", VString (lit "first"))]) = true.
Proof.
  apply (first_textures_property_wins two_textures_profile
           [VObject [(lit "name", VString (lit "signature"))]]
           [VObject [(lit "name", VString (lit "textures"));
                     (lit "value", VString (lit "second"))]]).
  - reflexivity.
  - repeat constructor.
  - reflexivity.
Defined.



(** *** What a resolution is made of, and what follows it *)

(** X10. Whenever a resolution succeeds, the player name it gives is the
    [name] member of the session profile (never the name typed or the
    name of the lookup answer), and the skin URL is the truthy
    [textures.SKIN.url] of the decoded value of the profile's textures
    property. *)
Theorem resolution_comes_from_session_profile (env : Env) (input : jsstring)
    (s s' : State) (playerName skinUrl : value) :
  resolve env input s = (Normal (playerName, skinUrl), s') ->
  exists uuid lookupName s1 sessionData texturesProperty texturesJson,
    resolve_identity env input s = (Normal (uuid, lookupName), s1)
    /\ (fetch_session env uuid s1).1 = Normal sessionData
    /\ get sessionData (lit "name") = inr playerName
    /\ find_textures_property sessionData = inr texturesProperty
    /\ decode_textures env texturesProperty = inr texturesJson
    /\ skin_url texturesJson = inr skinUrl
    /\ truthy skinUrl = true.
Proof.
  unfold resolve, bind.
  destruct (resolve_identity env input s) as [[[uuid lookupName]| |e] s1];
    try discriminate.
  destruct (fetch_session env uuid s1) as [[sessionData| |e] s2] eqn:Hs;
    try discriminate.
  unfold extract_skin. unfold_monad.
  destruct (get sessionData (lit "name")) as [e|n] eqn:Hn; [discriminate|].
  destruct (find_textures_property sessionData) as [e|tp] eqn:Htp; [discriminate|].
  destruct (truthy tp); [|discriminate]. cbn [negb].
  destruct (decode_textures env tp) as [e|tj] eqn:Htj; [discriminate|].
  destruct (skin_url tj) as [e|u] eqn:Hurl; [discriminate|].
  destruct (truthy u) eqn:Hu; [|discriminate]. cbn [negb].
  intros [= -> -> _].
  exists uuid, lookupName, s1, sessionData, tp, tj.
  rewrite Hs. repeat split; assumption.
Qed.

Lemma resolution_comes_from_session_profile_witness :
  exists uuid lookupName s1 sessionData texturesProperty texturesJson,
    resolve_identity (notch_world true) (lit "Notch") ready_page
    = (Normal (uuid, lookupName), s1)
    /\ (fetch_session (notch_world true) uuid s1).1 = Normal sessionData
    /\ get sessionData (lit "name") = inr (VString (lit "Notch"))
    /\ find_textures_property sessionData = inr texturesProperty
    /\ decode_textures (notch_world true) texturesProperty = inr texturesJson
    /\ skin_url texturesJson = inr (VString notch_skin)
    /\ truthy (VString notch_skin) = true.
Proof.
  apply (resolution_comes_from_session_profile (notch_world true) (lit "Notch")
           ready_page (resolve (notch_world true) (lit "Notch") ready_page).2).
  reflexivity.
Defined.

(** The run of the Resolver once the skin is resolved and loaded: the
    two writes, each of which the storage area may refuse. *)
Lemma fetchSkinFromMojang_loaded (env : Env) (usernameOrUUID : jsstring)
    (s s1 : State) (v : Viewer) (playerName skinUrl : value) (name url : jsstring) :
  viewer s = Some v ->
  nonempty (trim usernameOrUUID) = true ->
  resolve env (trim usernameOrUUID) (started s) = (Normal (playerName, skinUrl), s1) ->
  loadSkin env skinUrl = true ->
  ToString (Number_toString env) skinUrl = Some url ->
  ToString (Number_toString env) playerName = Some name ->
  fetchSkinFromMojang env usernameOrUUID s
  = if storage_accepts s key_currentSkin url
    then if storage_accepts s key_currentPlayerName name
         then (Normal tt,
               set_fetchSkinBtn_disabled false
                 (set_statusText
                    {| innerHTML := msg_loaded name; color := muted_color |}
                    (set_localStorage
                       (<[key_currentPlayerName := name]>
                          (<[key_currentSkin := url]> (localStorage s)))
                       (log (ELoadSkin skinUrl) s1))))
         else settle (Throw QuotaExceededError,
                      set_localStorage (<[key_currentSkin := url]> (localStorage s))
                        (log (ELoadSkin skinUrl) s1))
    else settle (Throw QuotaExceededError, log (ELoadSkin skinUrl) s1).
Proof.
  intros Hv Hin Hres Hload Hu Hn.
  rewrite (fetchSkinFromMojang_run _ _ _ v Hv Hin).
  rewrite resolver_try_resolve.
  destruct (resolve_quiet env (trim usernameOrUUID) (started s)) as (Hv1 & HL & _).
  pose proof (resolve_keeps_acceptance env (trim usernameOrUUID) (started s)) as Ha.
  unfold same_acceptance in Ha.
  rewrite Hres in Hv1, HL, Ha. simpl in Hv1, HL, Ha.
  unfold bind at 1. rewrite Hres.
  unfold load_and_save, await_loadSkin, setItem. unfold_monad.
  rewrite Hv1, Hv, Hload, Hu. run_state. rewrite Ha.
  destruct (storage_accepts s key_currentSkin url); [|reflexivity].
  rewrite Hn. run_state. rewrite Ha.
  destruct (storage_accepts s key_currentPlayerName name); rewrite HL; reflexivity.
Qed.

(** X11. When a resolution succeeds, the renderer accepts the skin and
    the storage area takes both writes, the run ends normally with both
    storage keys written ([currentSkin] the URL, [currentPlayerName] the
    name, each as a string, replacing what was stored), the other keys
    as they were, the loaded message with the name in the muted colour,
    the button enabled, and one [loadSkin] call after the requests. *)
Theorem resolved_skin_loaded_and_saved (env : Env) (usernameOrUUID : jsstring)
    (s s1 : State) (v : Viewer) (playerName skinUrl : value) (name url : jsstring) :
  viewer s = Some v ->
  let input := trim usernameOrUUID in
  nonempty input = true ->
  resolve env input (started s) = (Normal (playerName, skinUrl), s1) ->
  loadSkin env skinUrl = true ->
  ToString (Number_toString env) skinUrl = Some url ->
  ToString (Number_toString env) playerName = Some name ->
  storage_accepts s key_currentSkin url = true ->
  storage_accepts s key_currentPlayerName name = true ->
  let run := fetchSkinFromMojang env usernameOrUUID s in
  run.1 = Normal tt
  /\ localStorage run.2 !! key_currentSkin = Some url
  /\ localStorage run.2 !! key_currentPlayerName = Some name
  /\ (forall key, key <> key_currentSkin -> key <> key_currentPlayerName ->
        localStorage run.2 !! key = localStorage s !! key)
  /\ statusText run.2 = {| innerHTML := msg_loaded name; color := muted_color |}
  /\ fetchSkinBtn_disabled run.2 = false
  /\ trace run.2 = trace s1 ++ [ELoadSkin skinUrl].
Proof.
  intros Hv input Hin Hres Hload Hu Hn Ha1 Ha2 run. subst run input.
  rewrite (fetchSkinFromMojang_loaded _ _ _ _ _ _ _ _ _ Hv Hin Hres Hload Hu Hn).
  rewrite Ha1, Ha2.
  run_state. split; [reflexivity|]. split; [|split; [|split]].
  - rewrite lookup_insert_ne by (symmetry; apply keys_distinct).
    apply lookup_insert_eq.
  - apply lookup_insert_eq.
  - intros key K1 K2. rewrite !lookup_insert_ne by (apply not_eq_sym; assumption).
    reflexivity.
  - repeat split.
Qed.

Lemma resolved_skin_loaded_and_saved_witness :
  let run := fetchSkinFromMojang (notch_world true) (lit " Notch ") visited_page in
  run.1 = Normal tt
  /\ localStorage run.2 !! key_currentSkin = Some notch_skin
  /\ localStorage run.2 !! key_currentPlayerName = Some (lit "Notch")
  /\ (forall key, key <> key_currentSkin -> key <> key_currentPlayerName ->
        localStorage run.2 !! key = localStorage visited_page !! key)
  /\ statusText run.2
     = {| innerHTML := msg_loaded (lit "Notch"); color := muted_color |}
  /\ fetchSkinBtn_disabled run.2 = false
  /\ trace run.2
     = trace (resolve (notch_world true) (lit "Notch") (started visited_page)).2
       ++ [ELoadSkin (VString notch_skin)].
Proof.
  apply (resolved_skin_loaded_and_saved (notch_world true) (lit " Notch ")
           visited_page
           (resolve (notch_world true) (lit "Notch") (started visited_page)).2
           fresh_viewer (VString (lit "Notch")) (VString notch_skin));
    reflexivity.
Defined.

(** X24. When the skin is resolved and loaded but the storage area
    refuses a write (line 89 or 90 throws QuotaExceededError), the
    error is caught: the run ends normally, the error is logged to the
    console after the [loadSkin] call, the generic error message is
    shown and the button is enabled. If the skin write is refused,
    nothing is stored. If the skin is stored and the name write is
    refused, the new skin is left stored beside whatever player name
    was stored before. *)
Theorem refused_save_is_caught (env : Env) (usernameOrUUID : jsstring)
    (s s1 : State) (v : Viewer) (playerName skinUrl : value) (name url : jsstring) :
  viewer s = Some v ->
  let input := trim usernameOrUUID in
  nonempty input = true ->
  resolve env input (started s) = (Normal (playerName, skinUrl), s1) ->
  loadSkin env skinUrl = true ->
  ToString (Number_toString env) skinUrl = Some url ->
  ToString (Number_toString env) playerName = Some name ->
  storage_accepts s key_currentSkin url = false
  \/ storage_accepts s key_currentPlayerName name = false ->
  let run := fetchSkinFromMojang env usernameOrUUID s in
  run.1 = Normal tt
  /\ statusText run.2 = {| innerHTML := msg_fetch_error; color := error_color |}
  /\ fetchSkinBtn_disabled run.2 = false
  /\ trace run.2
     = trace s1 ++ [ELoadSkin skinUrl; EConsoleError QuotaExceededError]
  /\ localStorage run.2
     = (if storage_accepts s key_currentSkin url
        then <[key_currentSkin := url]> (localStorage s)
        else localStorage s)
  /\ localStorage run.2 !! key_currentPlayerName
     = localStorage s !! key_currentPlayerName.
Proof.
  intros Hv input Hin Hres Hload Hu Hn Hrefused run. subst run input.
  rewrite (fetchSkinFromMojang_loaded _ _ _ _ _ _ _ _ _ Hv Hin Hres Hload Hu Hn).
  destruct (resolve_quiet env (trim usernameOrUUID) (started s)) as (_ & HL & _).
  rewrite Hres in HL. simpl in HL.
  destruct (storage_accepts s key_currentSkin url) eqn:Ha1.
  - destruct Hrefused as [Hr | Hr]; [discriminate Hr|]. rewrite Hr.
    unfold settle. run_state. repeat split.
    + simpl. rewrite <- app_assoc. reflexivity.
    + apply lookup_insert_ne, keys_distinct.
  - unfold settle. run_state. repeat split.
    + simpl. rewrite <- app_assoc. reflexivity.
    + exact HL.
    + rewrite HL. reflexivity.
Qed.

Lemma refused_save_is_caught_witness :
  let run := fetchSkinFromMojang (notch_world true) (lit "Notch") full_page in
  run.1 = Normal tt
  /\ statusText run.2 = {| innerHTML := msg_fetch_error; color := error_color |}
  /\ fetchSkinBtn_disabled run.2 = false
  /\ trace run.2
     = trace (resolve (notch_world true) (lit "Notch") (started full_page)).2
       ++ [ELoadSkin (VString notch_skin); EConsoleError QuotaExceededError]
  /\ localStorage run.2 = localStorage full_page
  /\ localStorage run.2 !! key_currentPlayerName
     = localStorage full_page !! key_currentPlayerName.
Proof.
  apply (refused_save_is_caught (notch_world true) (lit "Notch") full_page
           (resolve (notch_world true) (lit "Notch") (started full_page)).2
           fresh_viewer (VString (lit "Notch")) (VString notch_skin)
           (lit "Notch") notch_skin);
    try reflexivity.
  left. reflexivity.
Defined.

(** *** The calls of a run *)

Lemma startsWith_app (p rest : jsstring) : startsWith (p ++ rest) p = true.
Proof. apply startsWith_prefix. exists rest. reflexivity. Qed.

Lemma fetchSkinFromMojang_proxied (env : Env) (usernameOrUUID : jsstring) :
  framed (appends proxied) (fetchSkinFromMojang env usernameOrUUID).
Proof.
  unfold fetchSkinFromMojang, resolver_try, resolver_catch, resolver_finally,
    resolve_identity, fetch_session, extract_skin, load_and_save, fetch_through_proxy,
    await_fetch, await_json, await_loadSkin, setItem, console_error, setStatus.
  frame ltac:(first [ exists []; split; [simpl; symmetry; apply app_nil_r | constructor]
                    | eexists [_]; split;
                      [reflexivity
                      | repeat constructor; simpl; try apply startsWith_app; exact I] ]).
Qed.

Lemma filter_calls (f : Event -> bool) (evs : list Event) :
  (forall e, f e = true -> is_call e = true) ->
  List.filter f (calls evs) = List.filter f evs.
Proof.
  intros Hf. unfold calls. induction evs as [|e evs IH]; simpl; [reflexivity|].
  destruct (is_call e) eqn:Hc; simpl; rewrite IH; [reflexivity|].
  destruct (f e) eqn:Hfe; [|reflexivity].
  rewrite (Hf e Hfe) in Hc. discriminate.
Qed.

Lemma resolve_identity_at_most_one (env : Env) (input : jsstring) (s : State) :
  exists evs, trace (resolve_identity env input s).2 = trace s ++ evs
    /\ (length evs <= 1)%nat.
Proof.
  destruct (looks_like_username input) eqn:Hre.
  - destruct (encodeURIComponent (mojang_prefix ++ input)) as [encoded|] eqn:E.
    + exists [EFetch (proxy_prefix ++ encoded)]. split; [|simpl; lia].
      apply resolve_identity_trace; assumption.
    + exists []. rewrite (resolve_identity_unencodable _ _ _ Hre E).
      split; [symmetry; apply app_nil_r | simpl; lia].
  - exists []. rewrite (resolve_identity_uuid _ _ _ Hre).
    split; [symmetry; apply app_nil_r | simpl; lia].
Qed.

Lemma extract_skin_silent (env : Env) (sessionData : value) (s : State) :
  trace (extract_skin env sessionData s).2 = trace s.
Proof.
  destruct (extract_skin_quiet env sessionData (fun _ => False) s)
    as (_ & _ & _ & evs & T & F).
  destruct F as [|e evs He _]; [|contradiction].
  rewrite T. apply app_nil_r.
Qed.

(** A resolution makes at most two requests, and nothing else. *)
Lemma resolve_at_most_two (env : Env) (input : jsstring) (s : State) :
  exists evs, trace (resolve env input s).2 = trace s ++ evs
    /\ (length evs <= 2)%nat /\ Forall is_fetch_event evs.
Proof.
  destruct (resolve_quiet env input s) as (_ & _ & _ & evs & T & F).
  exists evs. split; [exact T|]. split; [|exact F].
  assert (H : exists e1 e2, trace (resolve env input s).2 = trace s ++ e1 ++ e2
    /\ (length e1 <= 1)%nat /\ (length e2 <= 1)%nat).
  { unfold resolve, bind.
    destruct (resolve_identity_at_most_one env input s) as (e1 & T1 & L1).
    exists e1.
    destruct (resolve_identity env input s) as [[[uuid name]| |e] s1];
      cbn [snd] in T1.
    - pose proof (fetch_session_trace env uuid s1) as T2.
      pose proof (extract_skin_silent env) as T3.
      destruct (fetch_session env uuid s1) as [[sd| |e] s2]; cbn [snd] in T2 |- *;
        rewrite ?T3;
        (destruct T2 as [T2 | (u & enc & _ & T2)];
         [exists [] | exists [EFetch (proxy_prefix ++ enc)]]);
        rewrite T2, T1, <- ?app_assoc, ?app_nil_r; simpl; auto.
    - exists []. cbn [snd]. rewrite T1, app_nil_r. simpl. auto.
    - exists []. cbn [snd]. rewrite T1, app_nil_r. simpl. auto. }
  destruct H as (e1 & e2 & T' & L1 & L2). rewrite T' in T.
  apply app_inv_head in T. subst evs. rewrite length_app. lia.
Qed.

(** X12. Whatever the argument, the page and the answers, one call of
    the Resolver sends every request to the proxy (never to Mojang
    directly), makes at most two requests, and calls [loadSkin] at most
    once. *)
Theorem resolver_calls_bounded (env : Env) (usernameOrUUID : jsstring) (s : State) :
  let evs := new_events s (fetchSkinFromMojang env usernameOrUUID s).2 in
  Forall proxied evs
  /\ (length (List.filter is_fetch evs) <= 2)%nat
  /\ (length (List.filter is_loadSkin evs) <= 1)%nat.
Proof.
  intros evs. split.
  - destruct (fetchSkinFromMojang_proxied env usernameOrUUID s) as (e & T & F).
    subst evs. rewrite (new_events_app _ _ _ T). exact F.
  - subst evs. destruct (viewer s) as [v|] eqn:Hv;
      [destruct (nonempty (trim usernameOrUUID)) eqn:Hin|].
    + rewrite <- (filter_calls is_fetch), <- (filter_calls is_loadSkin);
        try (intros e He; unfold is_call; rewrite He; auto using orb_true_r).
      rewrite (run_calls env _ _ v Hv Hin).
      destruct (resolve_at_most_two env (trim usernameOrUUID) (started s))
        as (e & T & L & F).
      rewrite (new_events_app _ _ _ T), !List.filter_app, !length_app.
      assert (H1 : (length (List.filter is_fetch e) <= 2)%nat).
      { etransitivity; [apply List.filter_length_le | exact L]. }
      assert (H2 : List.filter is_loadSkin e = []).
      { clear - F. induction F as [|x e Hx _ IH]; simpl; [reflexivity|].
        destruct x; try discriminate. simpl. exact IH. }
      rewrite H2.
      destruct (resolve env (trim usernameOrUUID) (started s)).1 as [[n u]| |x];
        simpl; lia.
    + rewrite (fetchSkinFromMojang_empty _ _ _ v Hv Hin).
      rewrite (new_events_app _ _ []) by (symmetry; apply app_nil_r). simpl. lia.
    + rewrite (fetchSkinFromMojang_starting _ _ _ Hv).
      rewrite (new_events_app _ _ []) by (symmetry; apply app_nil_r). simpl. lia.
Qed.

(** *** The Loader on a file *)

Lemma not_too_large (file : File) :
  file_size file <= 5 * 1024 * 1024 -> too_large file = false.
Proof. intros H. unfold too_large. apply N.ltb_ge. exact H. Qed.

(** The run of the Loader on a file that is read and loaded: the write,
    which the storage area may refuse. *)
Lemma readSkinFile_loaded (env : Env) (s : State) (v : Viewer)
    (file : File) (skinData : jsstring) :
  viewer s = Some v ->
  isPNG file = true ->
  file_size file <= 5 * 1024 * 1024 ->
  readAsDataURL env file = Some skinData ->
  loadSkin env (VString skinData) = true ->
  let loaded :=
    log (ELoadSkin (VString skinData))
      (log (EReadAsDataURL file)
         (set_statusText {| innerHTML := msg_loading; color := muted_color |} s)) in
  readSkinFile env (Some file) s
  = if storage_accepts s key_currentSkin skinData
    then (Normal tt,
          set_statusText {| innerHTML := msg_skin_loaded; color := muted_color |}
            (set_localStorage
               (delete key_currentPlayerName
                  (<[key_currentSkin := skinData]> (localStorage s)))
               (set_localStorage (<[key_currentSkin := skinData]> (localStorage s))
                  loaded)))
    else (Normal tt,
          set_statusText {| innerHTML := msg_file_error; color := error_color |}
            (log (EConsoleError QuotaExceededError) loaded)).
Proof.
  intros Hv Hpng Hsize Hread Hload loaded. subst loaded.
  unfold readSkinFile, reader_onload, await_loadSkin, setItem, removeItem,
    console_error.
  unfold_monad. rewrite Hv. run_state. rewrite Hpng, (not_too_large _ Hsize).
  run_state. rewrite Hread. run_state. rewrite Hv, Hload. cbn [ToString]. run_state.
  destruct (storage_accepts s key_currentSkin skinData); reflexivity.
Qed.

(** X13. A PNG file of at most 5 MB that is read and accepted by the
    renderer is then written to the storage. When the storage area takes
    the data URL, it is stored under [currentSkin] and the stored player
    name is removed, so that an uploaded skin is never shown under the
    name of an earlier fetch; the status line shows the skin-loaded
    message in the muted colour, and the run reads the file and then
    calls [loadSkin] once. When the storage area refuses the data URL
    (the quota: a data URL is a third longer than its file), the error
    is caught and logged to the console, the something-went-wrong
    message is shown in the error colour, and the storage is left as it
    was, the stored player name included. Either way the call ends
    normally and makes no request. *)
Theorem uploaded_skin_saved_without_name (env : Env) (s : State) (v : Viewer)
    (file : File) (skinData : jsstring) :
  viewer s = Some v ->
  isPNG file = true ->
  file_size file <= 5 * 1024 * 1024 ->
  readAsDataURL env file = Some skinData ->
  loadSkin env (VString skinData) = true ->
  let run := readSkinFile env (Some file) s in
  (storage_accepts s key_currentSkin skinData = true ->
   run.1 = Normal tt
   /\ localStorage run.2
      = delete key_currentPlayerName (<[key_currentSkin := skinData]> (localStorage s))
   /\ localStorage run.2 !! key_currentSkin = Some skinData
   /\ localStorage run.2 !! key_currentPlayerName = None
   /\ statusText run.2 = {| innerHTML := msg_skin_loaded; color := muted_color |}
   /\ new_events s run.2 = [EReadAsDataURL file; ELoadSkin (VString skinData)])
  /\ (storage_accepts s key_currentSkin skinData = false ->
      run.1 = Normal tt
      /\ localStorage run.2 = localStorage s
      /\ statusText run.2 = {| innerHTML := msg_file_error; color := error_color |}
      /\ new_events s run.2
         = [EReadAsDataURL file; ELoadSkin (VString skinData);
            EConsoleError QuotaExceededError]).
Proof.
  intros Hv Hpng Hsize Hread Hload run. subst run.
  rewrite (readSkinFile_loaded _ _ _ _ _ Hv Hpng Hsize Hread Hload). cbv zeta.
  split; intros ->; run_state; repeat split.
  - rewrite lookup_delete_ne by (symmetry; apply keys_distinct).
    apply lookup_insert_eq.
  - apply lookup_delete_eq.
  - apply new_events_app. simpl. rewrite <- app_assoc. reflexivity.
  - apply new_events_app. simpl. rewrite <- !app_assoc. reflexivity.
Qed.

Lemma uploaded_skin_saved_without_name_witness :
  (let run := readSkinFile (file_world true) (Some small_png) visited_page in
   run.1 = Normal tt
   /\ localStorage run.2
      = delete key_currentPlayerName
          (<[key_currentSkin := lit "data:image/png;base64,iVBORw0KGgo="]>
             (localStorage visited_page))
   /\ localStorage run.2 !! key_currentSkin
      = Some (lit "data:image/png;base64,iVBORw0KGgo=")
   /\ localStorage run.2 !! key_currentPlayerName = None
   /\ statusText run.2 = {| innerHTML := msg_skin_loaded; color := muted_color |}
   /\ new_events visited_page run.2
      = [EReadAsDataURL small_png;
         ELoadSkin (VString (lit "data:image/png;base64,iVBORw0KGgo="))])
  /\ (let run := readSkinFile (file_world true) (Some small_png) full_page in
      run.1 = Normal tt
      /\ localStorage run.2 = localStorage full_page
      /\ statusText run.2 = {| innerHTML := msg_file_error; color := error_color |}
      /\ new_events full_page run.2
         = [EReadAsDataURL small_png;
            ELoadSkin (VString (lit "data:image/png;base64,iVBORw0KGgo="));
            EConsoleError QuotaExceededError]).
Proof.
  split.
  - apply (proj1 (uploaded_skin_saved_without_name (file_world true) visited_page
                    fresh_viewer small_png
                    (lit "data:image/png;base64,iVBORw0KGgo=")
                    eq_refl eq_refl ltac:(vm_compute; discriminate)
                    eq_refl eq_refl)).
    reflexivity.
  - apply (proj2 (uploaded_skin_saved_without_name (file_world true) full_page
                    fresh_viewer small_png
                    (lit "data:image/png;base64,iVBORw0KGgo=")
                    eq_refl eq_refl ltac:(vm_compute; discriminate)
                    eq_refl eq_refl)).
    reflexivity.
Defined.

(** X14. The two ways a checked file can still fail are both caught and
    leave the storage as it was. When the file cannot be read, the
    could-not-read message is shown and [loadSkin] is not called. When
    the renderer rejects the data, the error is logged to the console
    and the something-went-wrong message is shown. Both in the error
    colour; the call ends normally. *)
Theorem failed_file_load_reported (env : Env) (s : State) (v : Viewer) (file : File) :
  viewer s = Some v ->
  isPNG file = true ->
  file_size file <= 5 * 1024 * 1024 ->
  let run := readSkinFile env (Some file) s in
  (readAsDataURL env file = None ->
   run.1 = Normal tt
   /\ statusText run.2 = {| innerHTML := msg_read_error; color := error_color |}
   /\ new_events s run.2 = [EReadAsDataURL file]
   /\ localStorage run.2 = localStorage s)
  /\ (forall skinData,
        readAsDataURL env file = Some skinData ->
        loadSkin env (VString skinData) = false ->
        run.1 = Normal tt
        /\ statusText run.2 = {| innerHTML := msg_file_error; color := error_color |}
        /\ new_events s run.2
           = [EReadAsDataURL file; ELoadSkin (VString skinData);
              EConsoleError LoadSkinRejected]
        /\ localStorage run.2 = localStorage s).
Proof.
  intros Hv Hpng Hsize run. subst run.
  unfold readSkinFile, reader_onload, reader_onerror, await_loadSkin, setItem,
    removeItem, console_error.
  unfold_monad. rewrite Hv. run_state. rewrite Hpng, (not_too_large _ Hsize).
  run_state. split.
  - intros ->. run_state. repeat split. apply new_events_app. reflexivity.
  - intros skinData -> Hload. run_state. rewrite Hv, Hload. run_state.
    repeat split. apply new_events_app. simpl. rewrite <- !app_assoc. reflexivity.
Qed.

Lemma failed_file_load_reported_witness :
  let run := readSkinFile (file_world false) (Some small_png) visited_page in
  run.1 = Normal tt
  /\ statusText run.2 = {| innerHTML := msg_file_error; color := error_color |}
  /\ new_events visited_page run.2
     = [EReadAsDataURL small_png;
        ELoadSkin (VString (lit "data:image/png;base64,iVBORw0KGgo="));
        EConsoleError LoadSkinRejected]
  /\ localStorage run.2 = localStorage visited_page.
Proof.
  apply (failed_file_load_reported (file_world false) visited_page fresh_viewer
           small_png);
    first [reflexivity | vm_compute; discriminate].
Defined.

Lemma reader_onload_total (env : Env) (skinData : jsstring) (s : State) :
  (reader_onload env skinData s).1 = Normal tt.
Proof.
  unfold reader_onload, await_loadSkin, setItem, removeItem, console_error.
  unfold_monad. destruct (viewer s); [|reflexivity].
  destruct (loadSkin env (VString skinData)); [|reflexivity].
  cbn [ToString]. run_state.
  destruct (storage_accepts s key_currentSkin skinData); reflexivity.
Qed.

Lemma readSkinFile_total (env : Env) (file : option File) (s : State) :
  (readSkinFile env file s).1 = Normal tt.
Proof.
  pose proof (reader_onload_total env) as Hload.
  unfold readSkinFile, reader_onerror. unfold_monad.
  destruct (viewer s); [|reflexivity]. run_state.
  destruct file as [file|]; [|reflexivity].
  destruct (isPNG file); [|reflexivity]. run_state.
  destruct (too_large file); [reflexivity|]. run_state.
  destruct (readAsDataURL env file) as [skinData|]; [|reflexivity].
  specialize (Hload skinData
    (log (EReadAsDataURL file)
       (set_statusText {| innerHTML := msg_loading; color := muted_color |} s))).
  destruct (reader_onload env skinData _) as [[[]| |e] s']; simpl in Hload;
    try discriminate; reflexivity.
Qed.

(** X15. [handleFiles] never throws. Without a file list, or with an
    empty one, it shows the no-file message in the error colour and
    does nothing else; with a list of several files it treats the first
    exactly as [readSkinFile] does and ignores the others. *)
Theorem handleFiles_first_file_only (env : Env) (s : State) :
  (forall files, files = None \/ files = Some [] ->
     handleFiles env files s
     = (Normal tt,
        set_statusText {| innerHTML := msg_no_file; color := error_color |} s))
  /\ (forall file rest,
        handleFiles env (Some (file :: rest)) s = readSkinFile env (Some file) s)
  /\ (forall files, (handleFiles env files s).1 = Normal tt).
Proof.
  assert (Hfirst : forall file rest,
    handleFiles env (Some (file :: rest)) s = readSkinFile env (Some file) s).
  { intros file rest. pose proof (readSkinFile_total env (Some file) s) as H.
    unfold handleFiles, function at 1.
    destruct (readSkinFile env (Some file) s) as [[[]| |e] s']; simpl in H;
      try discriminate; reflexivity. }
  split; [|split].
  - intros files [-> | ->]; reflexivity.
  - exact Hfirst.
  - intros [[|file rest]|]; try reflexivity.
    rewrite Hfirst. apply readSkinFile_total.
Qed.

Lemma handleFiles_first_file_only_witness :
  handleFiles (file_world true) (Some []) ready_page
  = (Normal tt,
     set_statusText {| innerHTML := msg_no_file; color := error_color |} ready_page).
Proof.
  apply (proj1 (handleFiles_first_file_only (file_world true) ready_page)).
  right. reflexivity.
Defined.

(** *** Start-up *)

Lemma animation_key_distinct :
  key_currentSkin <> key_animationEnabled /\ key_currentPlayerName <> key_animationEnabled.
Proof. split; vm_compute; discriminate. Qed.

(** Start-up with a saved skin the renderer accepts. *)
Lemma initializeViewer_restore (env : Env) (s : State) (created : Viewer)
    (skin : jsstring) :
  SkinViewer_new env = Some created ->
  localStorage s !! key_currentSkin = Some skin ->
  nonempty skin = true ->
  loadSkin env (VString skin) = true ->
  (initializeViewer env s).1 = Normal tt
  /\ localStorage (initializeViewer env s).2 = localStorage s
  /\ new_events s (initializeViewer env s).2 = [ELoadSkin (VString skin)]
  /\ statusText (initializeViewer env s).2
     = {| innerHTML := if_item (localStorage s !! key_currentPlayerName)
                         msg_loaded_saved_for msg_loaded_saved;
          color := muted_color |}.
Proof.
  intros Hnew Hskin Hne Hload.
  unfold initializeViewer, await_loadSkin, update_viewer, getItem, removeItem, if_item.
  unfold_monad. rewrite Hnew. run_state.
  destruct (controls created); run_state;
    destruct (not_false (localStorage s !! key_animationEnabled)); run_state;
    destruct (animationToggle s); run_state;
    rewrite Hskin, Hne; run_state; rewrite Hload; run_state.
  all: destruct (localStorage s !! key_currentPlayerName) as [name|]; run_state;
    [destruct (nonempty name)|]; run_state.
  all: repeat split; apply new_events_app; reflexivity.
Qed.

(** X16. At start-up, a saved skin (a non-empty [currentSkin]) that the
    renderer accepts is loaded with one [loadSkin] call and no request,
    and the storage is left as it is. The status line, in the muted
    colour, names the saved player when a non-empty [currentPlayerName]
    is stored, and shows the message without a name when that key is
    absent or holds the empty string. *)
Theorem saved_skin_restored (env : Env) (s : State) (created : Viewer)
    (skin : jsstring) :
  SkinViewer_new env = Some created ->
  localStorage s !! key_currentSkin = Some skin ->
  nonempty skin = true ->
  loadSkin env (VString skin) = true ->
  let run := initializeViewer env s in
  run.1 = Normal tt
  /\ localStorage run.2 = localStorage s
  /\ new_events s run.2 = [ELoadSkin (VString skin)]
  /\ color (statusText run.2) = muted_color
  /\ (forall name,
        localStorage s !! key_currentPlayerName = Some name ->
        nonempty name = true ->
        innerHTML (statusText run.2) = msg_loaded_saved_for name)
  /\ (localStorage s !! key_currentPlayerName = None
      \/ localStorage s !! key_currentPlayerName = Some [] ->
      innerHTML (statusText run.2) = msg_loaded_saved).
Proof.
  intros Hnew Hskin Hne Hload run. subst run.
  destruct (initializeViewer_restore env s created skin Hnew Hskin Hne Hload)
    as (H1 & H2 & H3 & H4).
  rewrite H4. simpl. repeat split; try assumption.
  - intros name Hname Hnn. rewrite Hname. simpl. rewrite Hnn. reflexivity.
  - intros [Hname | Hname]; rewrite Hname; reflexivity.
Qed.

Lemma saved_skin_restored_witness :
  let run := initializeViewer (notch_world true) returning_page in
  run.1 = Normal tt
  /\ localStorage run.2 = localStorage returning_page
  /\ new_events returning_page run.2 = [ELoadSkin (VString notch_skin)]
  /\ color (statusText run.2) = muted_color
  /\ innerHTML (statusText run.2) = msg_loaded_saved_for (lit "Notch").
Proof.
  destruct (saved_skin_restored (notch_world true) returning_page fresh_viewer
              notch_skin eq_refl eq_refl eq_refl eq_refl)
    as (H1 & H2 & H3 & H4 & H5 & _).
  split; [exact H1|]. split; [exact H2|]. split; [exact H3|]. split; [exact H4|].
  apply (H5 (lit "Notch")); reflexivity.
Defined.

(** X17. When the viewer can be constructed, start-up always ends
    normally with a viewer in place whose field of view is 50 and zoom
    0.9, and whose orbit controls, when it has any, are the tuned ones.
    Start-up makes no request and at most one [loadSkin] call, and
    never writes the animation preference. With no saved skin, or an
    empty one, it calls nothing, leaves the storage alone and shows the
    ready message. *)
Theorem viewer_configured_at_startup (env : Env) (s : State) (created : Viewer) :
  SkinViewer_new env = Some created ->
  let run := initializeViewer env s in
  run.1 = Normal tt
  /\ (exists v, viewer run.2 = Some v
        /\ fov v = 50%float /\ zoom v = 0.9%float
        /\ controls v = match controls created with
                        | Some _ => Some tuned_controls
                        | None => None
                        end)
  /\ Forall only_loads (new_events s run.2)
  /\ (length (new_events s run.2) <= 1)%nat
  /\ localStorage run.2 !! key_animationEnabled
     = localStorage s !! key_animationEnabled
  /\ (localStorage s !! key_currentSkin = None
      \/ localStorage s !! key_currentSkin = Some [] ->
      new_events s run.2 = []
      /\ localStorage run.2 = localStorage s
      /\ statusText run.2 = {| innerHTML := msg_ready; color := muted_color |}).
Proof.
  intros Hnew run. subst run.
  destruct animation_key_distinct as [K1 K2].
  unfold initializeViewer, await_loadSkin, update_viewer, getItem, removeItem, if_item.
  unfold_monad. rewrite Hnew. run_state.
  destruct (controls created) eqn:Hc; run_state;
    destruct (not_false (localStorage s !! key_animationEnabled)); run_state;
    destruct (animationToggle s); run_state;
    (destruct (localStorage s !! key_currentSkin) as [skin|] eqn:Hskin; run_state;
     [destruct (nonempty skin) eqn:Hne; run_state;
      [destruct (loadSkin env (VString skin)); run_state;
       [destruct (localStorage s !! key_currentPlayerName) as [name|]; run_state;
        [destruct (nonempty name)|]|]|]|]);
    run_state.
  all: split; [reflexivity|].
  all: split; [eexists; repeat split; try reflexivity; simpl; exact Hc|].
  all: try (rewrite (new_events_app s _ [ELoadSkin (VString skin)]) by reflexivity).
  all: try (rewrite (new_events_app s _ []) by (symmetry; apply app_nil_r)).
  all: split; [repeat constructor|].
  all: split; [simpl; lia|].
  all: split;
    [rewrite ?lookup_delete_ne by assumption; reflexivity|].
  all: intros [H | H]; try discriminate H.
  all: try (injection H as ->; discriminate Hne).
  all: repeat split.
Qed.

Lemma viewer_configured_at_startup_witness :
  let run := initializeViewer (notch_world true) blank_page in
  new_events blank_page run.2 = []
  /\ localStorage run.2 = localStorage blank_page
  /\ statusText run.2 = {| innerHTML := msg_ready; color := muted_color |}.
Proof.
  destruct (viewer_configured_at_startup (notch_world true) blank_page fresh_viewer
              eq_refl)
    as (_ & _ & _ & _ & _ & H).
  apply H. left. reflexivity.
Defined.

(** X18. When the viewer cannot be constructed, start-up throws at its
    first statement and leaves the page exactly as it was, with no
    viewer. Every later fetch then only shows the still-starting-up
    message, and every later file drop ends normally without reading a
    file, calling the renderer or touching the storage. *)
Theorem failed_startup_leaves_page_starting (env : Env) (s : State) :
  SkinViewer_new env = None ->
  viewer s = None ->
  initializeViewer env s = (Throw ConstructorThrew, s)
  /\ (forall usernameOrUUID,
        fetchSkinFromMojang env usernameOrUUID (initializeViewer env s).2
        = (Normal tt,
           set_statusText
             {| innerHTML := msg_starting_up; color := error_color |} s))
  /\ (forall files,
        (handleFiles env files (initializeViewer env s).2).1 = Normal tt
        /\ new_events s (handleFiles env files (initializeViewer env s).2).2 = []
        /\ localStorage (handleFiles env files (initializeViewer env s).2).2
           = localStorage s).
Proof.
  intros Hnew Hv.
  assert (H : initializeViewer env s = (Throw ConstructorThrew, s)).
  { unfold initializeViewer. unfold_monad. rewrite Hnew. reflexivity. }
  rewrite H. cbn [snd]. split; [reflexivity|]. split.
  - intros usernameOrUUID. apply fetchSkinFromMojang_starting, Hv.
  - intros [[|file rest]|]; unfold handleFiles, readSkinFile; unfold_monad;
      rewrite ?Hv; repeat split;
      apply new_events_app; symmetry; apply app_nil_r.
Qed.

Lemma failed_startup_leaves_page_starting_witness :
  initializeViewer no_renderer_world blank_page = (Throw ConstructorThrew, blank_page)
  /\ fetchSkinFromMojang no_renderer_world (lit "Notch")
       (initializeViewer no_renderer_world blank_page).2
     = (Normal tt,
        set_statusText {| innerHTML := msg_starting_up; color := error_color |}
          blank_page).
Proof.
  destruct (failed_startup_leaves_page_starting no_renderer_world blank_page
              eq_refl eq_refl)
    as (H1 & H2 & _).
  split; [exact H1 | apply H2].
Defined.

(** *** The animation preference and the loads *)

#[export] Instance keeps_preference_preorder : PreOrder keeps_preference.
Proof.
  split.
  - intros s. repeat split.
  - intros s1 s2 s3 (A1 & B1 & C1) (A2 & B2 & C2). repeat split; congruence.
Qed.

Ltac preference_leaf :=
  repeat split; simpl;
  rewrite ?lookup_insert_ne, ?lookup_delete_ne
    by (apply animation_key_distinct);
  reflexivity.

Lemma fetchSkinFromMojang_keeps_preference (env : Env) (usernameOrUUID : jsstring) :
  framed keeps_preference (fetchSkinFromMojang env usernameOrUUID).
Proof.
  unfold fetchSkinFromMojang, resolver_try, resolver_catch, resolver_finally,
    resolve_identity, fetch_session, extract_skin, load_and_save, fetch_through_proxy,
    await_fetch, await_json, await_loadSkin, setItem, console_error, setStatus.
  frame preference_leaf.
Qed.

Lemma readSkinFile_keeps_preference (env : Env) (file : option File) :
  framed keeps_preference (readSkinFile env file).
Proof.
  unfold readSkinFile, reader_onload, reader_onerror, await_loadSkin, setItem,
    removeItem, console_error, setStatus.
  frame preference_leaf.
Qed.

(** X19. Fetching a skin, reading a file and handling a file list never
    change the animation: whatever happens in the run, the stored
    [animationEnabled] preference, the viewer (its animation included)
    and the checkbox are afterwards what they were before. *)
Theorem loads_keep_animation_preference (env : Env) (s : State) :
  (forall usernameOrUUID,
     keeps_preference s (fetchSkinFromMojang env usernameOrUUID s).2)
  /\ (forall file, keeps_preference s (readSkinFile env file s).2)
  /\ (forall files, keeps_preference s (handleFiles env files s).2).
Proof.
  split; [|split].
  - intros usernameOrUUID. apply fetchSkinFromMojang_keeps_preference.
  - intros file. apply readSkinFile_keeps_preference.
  - intros files. revert s. change (framed keeps_preference (handleFiles env files)).
    unfold handleFiles, setStatus.
    frame ltac:(first [apply readSkinFile_keeps_preference | preference_leaf]).
Qed.

(** X20. Changing the animation checkbox calls nothing outside the page
    and leaves the saved skin and player name as they are. It ends
    normally when there is no viewer and when the storage area takes
    the preference. With a viewer and a refused write it throws
    QuotaExceededError (line 276 is outside any [try]), and the storage
    is as it was. Before the viewer exists it writes nothing at all:
    the preference is not stored and the viewer stays absent. *)
Theorem toggle_leaves_skin_alone (env : Env) (checked : bool) (s : State) :
  let run := toggle_animation env checked s in
  let accepted :=
    storage_accepts s key_animationEnabled
      (if checked then lit "true" else lit "false") in
  run.1 = (if defined (viewer s) && negb accepted
           then Throw QuotaExceededError else Normal tt)
  /\ animationToggle run.2 = Some checked
  /\ localStorage run.2 !! key_currentSkin = localStorage s !! key_currentSkin
  /\ localStorage run.2 !! key_currentPlayerName
     = localStorage s !! key_currentPlayerName
  /\ new_events s run.2 = []
  /\ (viewer s = None -> localStorage run.2 = localStorage s /\ viewer run.2 = None)
  /\ (accepted = false -> localStorage run.2 = localStorage s).
Proof.
  intros run accepted. subst run accepted. destruct animation_key_distinct as [K1 K2].
  destruct (viewer s) as [v|] eqn:Hv.
  - rewrite (toggle_animation_run _ _ _ _ Hv). cbv zeta.
    destruct (storage_accepts s key_animationEnabled _); run_state.
    + rewrite !lookup_insert_ne by (apply not_eq_sym; assumption).
      split; [reflexivity|]. split; [reflexivity|]. split; [reflexivity|].
      split; [reflexivity|]. split; [|split; discriminate].
      apply new_events_app. symmetry. apply app_nil_r.
    + split; [reflexivity|]. split; [reflexivity|]. split; [reflexivity|].
      split; [reflexivity|]. split; [|split; [discriminate | reflexivity]].
      apply new_events_app. symmetry. apply app_nil_r.
  - unfold toggle_animation, animationToggle_onchange. unfold_monad. run_state.
    rewrite Hv.
    split; [reflexivity|]. split; [reflexivity|]. split; [reflexivity|].
    split; [reflexivity|].
    split; [|split; [intros _; split; [reflexivity | exact Hv] | reflexivity]].
    apply new_events_app. symmetry. apply app_nil_r.
Qed.

Lemma toggle_leaves_skin_alone_witness :
  let run := toggle_animation (notch_world true) false full_page in
  run.1 = Throw QuotaExceededError
  /\ localStorage run.2 = localStorage full_page.
Proof.
  destruct (toggle_leaves_skin_alone (notch_world true) false full_page)
    as (H1 & _ & _ & _ & _ & _ & H2).
  split; [exact H1 | apply H2; reflexivity].
Defined.

(** *** What is saved is what is restored *)

(** X21. An uploaded skin that the storage area took survives a reload:
    after such an upload, the start-up of a later page load (same
    storage, fresh page) loads the very data URL that was uploaded,
    with one [loadSkin] call, and shows the saved-skin message without
    a player name, whatever name was stored before the upload. *)
Theorem uploaded_skin_restored_on_reload (env later : Env) (s page : State)
    (v created : Viewer) (file : File) (skinData : jsstring) :
  viewer s = Some v ->
  isPNG file = true ->
  file_size file <= 5 * 1024 * 1024 ->
  readAsDataURL env file = Some skinData ->
  loadSkin env (VString skinData) = true ->
  storage_accepts s key_currentSkin skinData = true ->
  nonempty skinData = true ->
  SkinViewer_new later = Some created ->
  loadSkin later (VString skinData) = true ->
  let stored := (readSkinFile env (Some file) s).2 in
  let again := initializeViewer later (reload page stored) in
  again.1 = Normal tt
  /\ new_events (reload page stored) again.2 = [ELoadSkin (VString skinData)]
  /\ statusText again.2 = {| innerHTML := msg_loaded_saved; color := muted_color |}
  /\ localStorage again.2 = localStorage stored.
Proof.
  intros Hv Hpng Hsize Hread Hload Hacc Hne Hnew Hlater stored again.
  assert (Hskin : localStorage stored !! key_currentSkin = Some skinData
                  /\ localStorage stored !! key_currentPlayerName = None).
  { subst stored.
    rewrite (readSkinFile_loaded _ _ _ _ _ Hv Hpng Hsize Hread Hload). cbv zeta.
    rewrite Hacc. run_state.
    split; [|apply lookup_delete_eq].
    rewrite lookup_delete_ne by (symmetry; apply keys_distinct).
    apply lookup_insert_eq. }
  destruct Hskin as [Hskin Hname].
  destruct (initializeViewer_restore later (reload page stored) created skinData
              Hnew Hskin Hne Hlater) as (H1 & H2 & H3 & H4).
  fold again in H1, H2, H3, H4.
  change (localStorage (reload page stored)) with (localStorage stored) in H2, H4.
  rewrite Hname in H4. auto.
Qed.

Lemma uploaded_skin_restored_on_reload_witness :
  let stored := (readSkinFile (file_world true) (Some small_png) visited_page).2 in
  let again := initializeViewer (file_world true) (reload blank_page stored) in
  again.1 = Normal tt
  /\ new_events (reload blank_page stored) again.2
     = [ELoadSkin (VString (lit "data:image/png;base64,iVBORw0KGgo="))]
  /\ statusText again.2 = {| innerHTML := msg_loaded_saved; color := muted_color |}
  /\ localStorage again.2 = localStorage stored.
Proof.
  apply (uploaded_skin_restored_on_reload (file_world true) (file_world true)
           visited_page blank_page fresh_viewer fresh_viewer small_png
           (lit "data:image/png;base64,iVBORw0KGgo="));
    first [reflexivity | vm_compute; discriminate].
Defined.

(** X22. A fetched skin survives a reload: after a successful fetch
    whose two writes the storage area took, the start-up of a later
    page load (same storage, fresh page) loads the URL that was stored,
    with one [loadSkin] call and no request, and names the player of
    the fetch in the status line (or shows the message without a name
    when that name is the empty string). *)
Theorem fetched_skin_restored_on_reload (env later : Env) (usernameOrUUID : jsstring)
    (s s1 page : State) (v created : Viewer) (playerName skinUrl : value)
    (name url : jsstring) :
  viewer s = Some v ->
  nonempty (trim usernameOrUUID) = true ->
  resolve env (trim usernameOrUUID) (started s) = (Normal (playerName, skinUrl), s1) ->
  loadSkin env skinUrl = true ->
  ToString (Number_toString env) skinUrl = Some url ->
  ToString (Number_toString env) playerName = Some name ->
  storage_accepts s key_currentSkin url = true ->
  storage_accepts s key_currentPlayerName name = true ->
  nonempty url = true ->
  SkinViewer_new later = Some created ->
  loadSkin later (VString url) = true ->
  let stored := (fetchSkinFromMojang env usernameOrUUID s).2 in
  let again := initializeViewer later (reload page stored) in
  again.1 = Normal tt
  /\ new_events (reload page stored) again.2 = [ELoadSkin (VString url)]
  /\ statusText again.2
     = {| innerHTML := if nonempty name then msg_loaded_saved_for name
                       else msg_loaded_saved;
          color := muted_color |}
  /\ localStorage again.2 = localStorage stored.
Proof.
  intros Hv Hin Hres Hload Hu Hn Ha1 Ha2 Hne Hnew Hlater stored again.
  assert (Hskin : localStorage stored !! key_currentSkin = Some url
                  /\ localStorage stored !! key_currentPlayerName = Some name).
  { subst stored.
    rewrite (fetchSkinFromMojang_loaded _ _ _ _ _ _ _ _ _ Hv Hin Hres Hload Hu Hn).
    rewrite Ha1, Ha2. run_state. split; [|apply lookup_insert_eq].
    rewrite lookup_insert_ne by (symmetry; apply keys_distinct).
    apply lookup_insert_eq. }
  destruct Hskin as [Hskin Hname].
  destruct (initializeViewer_restore later (reload page stored) created url
              Hnew Hskin Hne Hlater) as (H1 & H2 & H3 & H4).
  fold again in H1, H2, H3, H4.
  change (localStorage (reload page stored)) with (localStorage stored) in H2, H4.
  rewrite Hname in H4. auto.
Qed.

Lemma fetched_skin_restored_on_reload_witness :
  let stored := (fetchSkinFromMojang (notch_world true) (lit " Notch ") visited_page).2 in
  let again := initializeViewer (notch_world true) (reload blank_page stored) in
  again.1 = Normal tt
  /\ new_events (reload blank_page stored) again.2 = [ELoadSkin (VString notch_skin)]
  /\ statusText again.2
     = {| innerHTML := msg_loaded_saved_for (lit "Notch"); color := muted_color |}
  /\ localStorage again.2 = localStorage stored.
Proof.
  apply (fetched_skin_restored_on_reload (notch_world true) (notch_world true)
           (lit " Notch ") visited_page
           (resolve (notch_world true) (lit "Notch") (started visited_page)).2
           blank_page fresh_viewer fresh_viewer
           (VString (lit "Notch")) (VString notch_skin) (lit "Notch") notch_skin);
    reflexivity.
Defined.

(** *** The highlight of the drop zone *)

Lemma after_drags_snoc (types : list DragType) (type : DragType)
    (classList : gset jsstring) :
  after_drags (types ++ [type]) classList
  = dropZone_ondrag type (after_drags types classList).
Proof. unfold after_drags. rewrite fold_left_app. reflexivity. Qed.

Lemma dropZone_ondrag_other (type : DragType) (classList : gset jsstring)
    (name : jsstring) :
  name <> lit "dragover" ->
  name ∈ dropZone_ondrag type classList <-> name ∈ classList.
Proof.
  intros H.
  destruct type; unfold dropZone_ondrag, toggleDragState, classList_toggle;
    rewrite ?elem_of_union, ?elem_of_difference, !elem_of_singleton; tauto.
Qed.

(** X23. After any sequence of drag events on the drop zone, the zone is
    highlighted (has the class [dragover]) exactly when the last event
    was [dragenter] or [dragover]; [dragleave], [dragend] and [drop]
    always clear the highlight. The other classes of the zone are never
    touched. *)
Theorem highlight_follows_last_drag (types : list DragType) (type : DragType)
    (classList : gset jsstring) :
  (lit "dragover" ∈ after_drags (types ++ [type]) classList <-> highlights type = true)
  /\ (forall name, name <> lit "dragover" ->
        name ∈ after_drags (types ++ [type]) classList <-> name ∈ classList).
Proof.
  split.
  - rewrite after_drags_snoc.
    destruct type; unfold dropZone_ondrag, toggleDragState, classList_toggle, highlights;
      rewrite ?elem_of_union, ?elem_of_difference, !elem_of_singleton;
      split; intros H; try reflexivity; try discriminate H; tauto.
  - intros name Hname. generalize (types ++ [type]). intros l.
    revert classList. induction l as [|t l IH]; intros classList; [reflexivity|].
    change (after_drags (t :: l) classList)
      with (after_drags l (dropZone_ondrag t classList)).
    rewrite IH. apply dropZone_ondrag_other, Hname.
Qed.


Lemma highlight_follows_last_drag_witness :
  lit "drop-zone" ∈ after_drags ([DragEnter; DragOver] ++ [Drop]) {[lit "drop-zone"]}
  <-> lit "drop-zone" ∈ ({[lit "drop-zone"]} : gset jsstring).
Proof.
  apply (proj2 (highlight_follows_last_drag [DragEnter; DragOver] Drop
                  {[lit "drop-zone"]})).
  vm_compute. discriminate.
Defined.

(** *** Examples *)

Example run_notch :
  fetchSkinFromMojang (notch_world true) (lit " Notch ") ready_page
  = (Normal tt,
     {| viewer := Some fresh_viewer;
        localStorage := <[key_currentPlayerName := lit "Notch"]>
                          (<[key_currentSkin := notch_skin]> ∅);
        storage_accepts := fun _ _ => true;
        statusText := {| innerHTML := msg_loaded (lit "Notch"); color := muted_color |};
        fetchSkinBtn_disabled := false;
        animationToggle := Some true;
        trace := [EFetch (through_proxy (mojang_prefix ++ lit "Notch"));
                  EFetch (through_proxy (session_prefix ++ notch_uuid));
                  ELoadSkin (VString notch_skin)] |}).
Proof. vm_compute. reflexivity. Qed.

Example run_file_upload :
  let run := readSkinFile (file_world true) (Some small_png) visited_page in
  localStorage run.2 !! key_currentSkin
    = Some (lit "data:image/png;base64,iVBORw0KGgo=")
  /\ localStorage run.2 !! key_currentPlayerName = None
  /\ innerHTML (statusText run.2) = msg_skin_loaded.
Proof. vm_compute. repeat split; reflexivity. Qed.

Example encodeURIComponent_mojang :
  encodeURIComponent (lit "https://api.mojang.com/a b")
  = Some (lit "https%3A%2F%2Fapi.mojang.com%2Fa%20b").
Proof. reflexivity. Qed.

Example encodeURIComponent_euro :
  encodeURIComponent [8364] = Some (lit "%E2%82%AC").
Proof. reflexivity. Qed.

Example encodeURIComponent_pair :
  encodeURIComponent [55357; 56832] = Some (lit "%F0%9F%98%80").
Proof. reflexivity. Qed.

Example encodeURIComponent_lone_surrogate :
  encodeURIComponent lone_surrogate = None /\ isWellFormed lone_surrogate = false.
Proof. split; reflexivity. Qed.

Example trim_example : trim (lit "  Notch ") = lit "Notch".
Proof. reflexivity. Qed.

Example uuid_patterns :
  looks_like_username (lit "069a79f444e94726a5befca90e38aaf5") = false
  /\ looks_like_username (lit "069A79F4-44E9-4726-A5BE-FCA90E38AAF5") = false
  /\ looks_like_username (lit "069a79f444e94726a5befca90e38aaf") = true
  /\ looks_like_username (lit "Notch") = true.
Proof. repeat split; reflexivity. Qed.
